(** * TOS Big Data API: a shallow embedding of the credential/token service
      and of the query gateway, with the properties of its specification.

    Sources embedded here: [auth.py] (user registry, password check, token
    issue and verification), [database.py] (row conversion done by
    [execute_query]) and [main.py] (login and the resource handlers).

    Layout: the definitions come first, one module per source file
    ([Py] holds the fragments of the Python runtime the code relies on,
    [Jose] and [FastAPI] the behaviour of the two third-party packages that
    the code calls); the theorems follow. *)

From Stdlib Require Import ZArith String Ascii List Bool Lia DecimalString.
From stdpp Require Import base strings gmap list.

Local Open Scope string_scope.
Local Open Scope Z_scope.

(* ===================================================================== *)
(** * Part I: definitions                                                  *)
(* ===================================================================== *)

(** ** Python runtime fragments *)
Module Py.

(** Exceptions that can cross the functions of this development.  Subclasses
    are folded into the class an [except] clause of the sources names:
    [JWTError] stands for [jose.JWTError] and its subclasses
    [ExpiredSignatureError] and [JWTClaimsError]; [DataAccessError] for
    [pyodbc.Error] raised by the driver. *)
Inductive exn : Type :=
| TypeError
| ValueError
| OverflowError
| OSError
| JWTError
| JWSError
| UnknownHashError
| ValidationError (msg : string)
| DataAccessError (msg : string).

(** A call either returns or raises. *)
Inductive result (A : Type) : Type :=
| Ret (a : A)
| Raise (e : exn).
Arguments Ret {A} a.
Arguments Raise {A} e.

#[global] Instance result_ret : MRet result := fun A a => Ret a.

#[global] Instance result_bind : MBind result := fun A B k m =>
  match m with
  | Ret a => k a
  | Raise e => Raise e
  end.

(** [datetime]: a naive date and time, held as the number of microseconds
    separating it from 1970-01-01T00:00:00.  [timedelta] is a number of
    microseconds. *)
Definition datetime : Type := Z.
Definition timedelta : Type := Z.

Definition datetime_min : datetime := -62135596800 * 1000000.
Definition datetime_max : datetime := 253402300799 * 1000000 + 999999.

Definition in_datetime_range (d : Z) : bool :=
  (datetime_min <=? d) && (d <=? datetime_max).

Definition timedelta_hours (h : Z) : timedelta := h * 3600 * 1000000.

(** [d + delta]: [OverflowError] when the sum leaves year 1..9999. *)
Definition datetime_add (d : datetime) (delta : timedelta) : result datetime :=
  if in_datetime_range (d + delta) then Ret (d + delta) else Raise OverflowError.

(** [calendar.timegm(d.utctimetuple())]: whole seconds, microseconds dropped. *)
Definition timegm (d : datetime) : Z := d / 1000000.

(** Values that travel through claims dictionaries and result rows.  A JSON
    number with a fraction (a [float]) is not among them: what the sources
    do with one is outside this development. *)
Inductive value : Type :=
| VNone
| VBool (b : bool)
| VInt (n : Z)
| VStr (s : string)
| VDateTime (d : datetime).

(** Truth value of an object, as [if x:] and [x and ...] test it. *)
Definition truthy (v : value) : bool :=
  match v with
  | VNone => false
  | VBool b => b
  | VInt n => negb (n =? 0)
  | VStr s => negb (String.eqb s "")
  | VDateTime _ => true
  end.

Definition truthy_str (o : option string) : bool :=
  match o with
  | Some s => negb (String.eqb s "")
  | None => false
  end.

Definition truthy_int (o : option Z) : bool :=
  match o with
  | Some n => negb (n =? 0)
  | None => false
  end.

(** A [timedelta] is true iff it differs from [timedelta(0)]. *)
Definition truthy_timedelta (o : option timedelta) : bool :=
  match o with
  | Some d => negb (d =? 0)
  | None => false
  end.

(** [dict.get(key)] with the default [None]. *)
Definition dict_get (d : gmap string value) (k : string) : value :=
  match d !! k with
  | Some v => v
  | None => VNone
  end.

(** *** Text

    A [string] holds the UTF-8 encoding of a Python [str].  [utf8_decode]
    recovers the code points; it is [None] on bytes that encode no [str]
    (a stray or missing continuation byte, an overlong form, a surrogate, a
    value past U+10FFFF). *)
Definition byte (c : ascii) : Z := Z.of_nat (nat_of_ascii c).

Definition continuation (c : ascii) : bool := (128 <=? byte c) && (byte c <=? 191).

Definition low6 (c : ascii) : Z := byte c - 128.

Fixpoint utf8_decode (s : list ascii) : option (list Z) :=
  match s with
  | [] => Some []
  | c :: r =>
      let b := byte c in
      if b <? 128 then option_map (cons b) (utf8_decode r)
      else if (194 <=? b) && (b <? 224) then
        match r with
        | c1 :: r1 =>
            if continuation c1
            then option_map (cons ((b - 192) * 64 + low6 c1)) (utf8_decode r1)
            else None
        | [] => None
        end
      else if (224 <=? b) && (b <? 240) then
        match r with
        | c1 :: c2 :: r2 =>
            let cp := (b - 224) * 4096 + low6 c1 * 64 + low6 c2 in
            if continuation c1 && continuation c2 && (2048 <=? cp)
               && negb ((55296 <=? cp) && (cp <=? 57343))
            then option_map (cons cp) (utf8_decode r2)
            else None
        | _ => None
        end
      else if (240 <=? b) && (b <? 245) then
        match r with
        | c1 :: c2 :: c3 :: r3 =>
            let cp := (b - 240) * 262144 + low6 c1 * 4096 + low6 c2 * 64 + low6 c3 in
            if continuation c1 && continuation c2 && continuation c3
               && (65536 <=? cp) && (cp <=? 1114111)
            then option_map (cons cp) (utf8_decode r3)
            else None
        | _ => None
        end
      else None
  end.

Definition code_points (s : string) : option (list Z) :=
  utf8_decode (list_ascii_of_string s).

(** *** [int(str)]

    The builtin [int] on a [str], base 10, as CPython 3.11 does it.  A text
    with a character outside ASCII is first rewritten
    ([_PyUnicode_TransformDecimalAndSpaceToASCII]): a character below 127
    stays, a Unicode blank becomes a space, a decimal digit of any script
    becomes its ASCII digit, and anything else ends the buffer with a [?].
    The buffer is then read by [PyLong_FromString]: the blanks of
    [Py_ISSPACE] (9..13 and 32, not 28..31) are skipped on both sides, one
    optional sign, then digits where single underscores may separate
    digits.  More than [int_max_str_digits] digits raise [ValueError]. *)

(** [Py_UNICODE_ISSPACE] from 127 on. *)
Definition unicode_isspace (cp : Z) : bool :=
  (cp =? 133) || (cp =? 160) || (cp =? 5760)
  || ((8192 <=? cp) && (cp <=? 8202))
  || (cp =? 8232) || (cp =? 8233) || (cp =? 8239) || (cp =? 8287) || (cp =? 12288).

(** The first code point of each run of ten decimal digits (Unicode 14.0,
    the database of CPython 3.11): a run holds the digits 0 to 9 in order. *)
Definition decimal_runs : list Z :=
  [48; 1632; 1776; 1984; 2406; 2534; 2662; 2790; 2918; 3046; 3174; 3302;
   3430; 3558; 3664; 3792; 3872; 4160; 4240; 6112; 6160; 6470; 6608; 6784;
   6800; 6992; 7088; 7232; 7248; 42528; 43216; 43264; 43472; 43504; 43600;
   44016; 65296; 66720; 68912; 69734; 69872; 69942; 70096; 70384; 70736;
   70864; 71248; 71360; 71472; 71904; 72016; 72784; 73040; 73120; 92768;
   92864; 93008; 120782; 120792; 120802; 120812; 120822; 123200; 123632;
   125264; 130032].

(** [Py_UNICODE_TODECIMAL] *)
Definition unicode_todecimal (cp : Z) : option Z :=
  match find (fun start => (start <=? cp) && (cp <? start + 10)) decimal_runs with
  | Some start => Some (cp - start)
  | None => None
  end.

Definition digit_char (d : Z) : ascii := ascii_of_nat (48 + Z.to_nat d).

Definition ascii_of_code (cp : Z) : ascii := ascii_of_nat (Z.to_nat cp).

Fixpoint transform_decimal_and_space (cps : list Z) : list ascii :=
  match cps with
  | [] => []
  | cp :: r =>
      if cp <? 127 then ascii_of_code cp :: transform_decimal_and_space r
      else if unicode_isspace cp then " "%char :: transform_decimal_and_space r
      else match unicode_todecimal cp with
           | Some d => digit_char d :: transform_decimal_and_space r
           | None => ["?"%char]
           end
  end.

(** The buffer [PyLong_FromString] is given: the text itself when it is
    ASCII, its rewriting otherwise. *)
Definition int_buffer (cps : list Z) : list ascii :=
  if forallb (fun cp => cp <? 128) cps then map ascii_of_code cps
  else transform_decimal_and_space cps.

(** [Py_ISSPACE] *)
Definition is_space (c : ascii) : bool :=
  let n := Z.of_nat (nat_of_ascii c) in
  ((9 <=? n) && (n <=? 13)) || (n =? 32).

Definition is_digit (c : ascii) : bool :=
  let n := Z.of_nat (nat_of_ascii c) in
  (48 <=? n) && (n <=? 57).

Definition digit_value (c : ascii) : Z := Z.of_nat (nat_of_ascii c) - 48.

Fixpoint lstrip (s : list ascii) : list ascii :=
  match s with
  | c :: r => if is_space c then lstrip r else s
  | [] => []
  end.

Definition strip (s : list ascii) : list ascii :=
  rev (lstrip (rev (lstrip s))).

Fixpoint parse_digits (acc : Z) (after_digit : bool) (s : list ascii) : option Z :=
  match s with
  | [] => if after_digit then Some acc else None
  | c :: r =>
      if is_digit c then parse_digits (acc * 10 + digit_value c) true r
      else if Ascii.eqb c "_" then
        if after_digit then parse_digits acc false r else None
      else None
  end.

Definition int_max_str_digits : Z := 4300.

Definition count_digits (s : list ascii) : Z :=
  Z.of_nat (length (filter (fun c => is_digit c) s)).

Definition parse_signed (s : list ascii) : option Z :=
  match s with
  | c :: r =>
      if Ascii.eqb c "-" then option_map Z.opp (parse_digits 0 false r)
      else if Ascii.eqb c "+" then parse_digits 0 false r
      else parse_digits 0 false s
  | [] => None
  end.

(** [PyLong_FromString(buffer, base=10)] *)
Definition long_from_string (buffer : list ascii) : option Z :=
  let body := strip buffer in
  if int_max_str_digits <? count_digits body then None else parse_signed body.

Definition int_of_str (s : string) : option Z :=
  match code_points s with
  | Some cps => long_from_string (int_buffer cps)
  | None => None
  end.

(** [int(v)] on a value. *)
Definition int (v : value) : result Z :=
  match v with
  | VInt n => Ret n
  | VBool b => Ret (if b then 1 else 0)
  | VStr s =>
      match int_of_str s with
      | Some n => Ret n
      | None => Raise ValueError
      end
  | VNone => Raise TypeError
  | VDateTime _ => Raise TypeError
  end.

(** The civil date of a day count (days since 1970-01-01, proleptic
    Gregorian calendar). *)
Definition civil_from_days (days : Z) : Z * Z * Z :=
  let z := days + 719468 in
  let era := z / 146097 in
  let doe := z - era * 146097 in
  let yoe := (doe - doe / 1460 + doe / 36524 - doe / 146096) / 365 in
  let doy := doe - (365 * yoe + yoe / 4 - yoe / 100) in
  let mp := (5 * doy + 2) / 153 in
  let d := doy - (153 * mp + 2) / 5 + 1 in
  let m := if mp <? 10 then mp + 3 else mp - 9 in
  let y := yoe + era * 400 + (if m <=? 2 then 1 else 0) in
  (y, m, d).

(** [datetime.fromtimestamp(v)]: the naive local time of the instant [v]
    seconds after the epoch, for a server whose zone lies [utcoffset] seconds
    east of UTC (CPython on Linux, with a 64-bit [time_t]).  A non-number
    raises [TypeError].  An instant outside year 1..9999 raises
    [ValueError] while its year fits the [int] of [struct tm], [OSError]
    ([localtime] answers EOVERFLOW) beyond that, and [OverflowError] when
    the instant itself does not fit [time_t].  The look one day back by
    which [fromtimestamp] searches for a repeated hour, and so also refuses
    the first day of year 1, is left out. *)
Definition fromtimestamp (utcoffset : Z) (v : value) : result datetime :=
  let at_seconds (n : Z) : result datetime :=
    let d := (n + utcoffset) * 1000000 in
    if in_datetime_range d then Ret d
    else if negb ((- 2 ^ 63 <=? n) && (n <? 2 ^ 63)) then Raise OverflowError
    else
      let tm_year := (civil_from_days ((n + utcoffset) / 86400)).1.1 - 1900 in
      if (- 2 ^ 31 <=? tm_year) && (tm_year <? 2 ^ 31) then Raise ValueError
      else Raise OSError in
  match v with
  | VInt n => at_seconds n
  | VBool b => at_seconds (if b then 1 else 0)
  | VNone => Raise TypeError
  | VStr _ => Raise TypeError
  | VDateTime _ => Raise TypeError
  end.

(** *** Rendering a [datetime]

    The two renderings the sources use: [isoformat()] and
    [strftime("%Y-%m-%dT%H:%M:%S.%f")]. *)
(** The [w] low decimal digits of [n], zero padded (["%0wd"] for
    [0 <= n < 10^w]). *)
Fixpoint zfill (w : nat) (n : Z) : string :=
  match w with
  | O => ""
  | S w' => zfill w' (n / 10) +:+ String (digit_char (n mod 10)) ""
  end.

Definition us_per_day : Z := 86400 * 1000000.

(** ["%Y-%m-%dT%H:%M:%S"] *)
Definition format_seconds (d : datetime) : string :=
  let '(y, m, dd) := civil_from_days (d / us_per_day) in
  let sod := (d mod us_per_day) / 1000000 in
  zfill 4 y +:+ "-" +:+ zfill 2 m +:+ "-" +:+ zfill 2 dd +:+ "T" +:+
  zfill 2 (sod / 3600) +:+ ":" +:+ zfill 2 (sod / 60 mod 60) +:+ ":" +:+
  zfill 2 (sod mod 60).

Definition microsecond (d : datetime) : Z := d mod 1000000.

(** [d.isoformat()]: the fraction is printed only when it is not zero. *)
Definition isoformat (d : datetime) : string :=
  if microsecond d =? 0 then format_seconds d
  else format_seconds d +:+ "." +:+ zfill 6 (microsecond d).

(** [str(n)] on an integer *)
Definition str_of_Z (n : Z) : string :=
  NilZero.string_of_int (Z.to_int n).

(** [d.strftime("%Y-%m-%dT%H:%M:%S.%f")]: the C library prints [%Y] as the
    plain number of the year (glibc: no padding below 1000), the other
    fields padded. *)
Definition strftime_f (d : datetime) : string :=
  let '(y, m, dd) := civil_from_days (d / us_per_day) in
  let sod := (d mod us_per_day) / 1000000 in
  str_of_Z y +:+ "-" +:+ zfill 2 m +:+ "-" +:+ zfill 2 dd +:+ "T" +:+
  zfill 2 (sod / 3600) +:+ ":" +:+ zfill 2 (sod / 60 mod 60) +:+ ":" +:+
  zfill 2 (sod mod 60) +:+ "." +:+ zfill 6 (microsecond d).

(** [s[:-3]] *)
Definition drop_last3 (s : string) : string :=
  String.substring 0 (String.length s - 3) s.

(** [str(v)] *)
Definition str (v : value) : string :=
  match v with
  | VNone => "None"
  | VBool b => if b then "True" else "False"
  | VInt n => str_of_Z n
  | VStr s => s
  | VDateTime d =>
      String.substring 0 10 (isoformat d) +:+ " " +:+
      String.substring 11 15 (isoformat d)
  end.

(** [needle in haystack] on strings. *)
Fixpoint contains (needle haystack : string) : bool :=
  String.prefix needle haystack ||
  match haystack with
  | EmptyString => false
  | String _ rest => contains needle rest
  end.

(** [s.endswith(suffix)]: some tail of [s] is [suffix]. *)
Fixpoint endswith (s suffix : string) : bool :=
  String.eqb s suffix ||
  match s with
  | EmptyString => false
  | String _ rest => endswith rest suffix
  end.

End Py.

Export Py(exn(..), result(..), value(..)).
Import Py.

(** ** python-jose (third-party package, not part of the repository)

    The sources call [jose.jwt.encode] and [jose.jwt.decode].  A token string
    is identified with what the package recovers from it: either the text is
    not a compact JWS at all, or it carries a header algorithm, a payload and
    a signature.  The signature is ideal: it verifies under a key exactly
    when it was computed with that key ([signed_with = None] is a signature
    that no key produced, as after tampering).  Only the HMAC family, the one
    a plain secret string can serve, signs and verifies here. *)
Module Jose.

Inductive payload : Type :=
| PayloadObject (claims : gmap string value)   (* a JSON object *)
| PayloadInvalid.                              (* not JSON, or not an object *)

Inductive token : Type :=
| NotCompact
| Compact (header_alg : string) (signed_with : option string) (body : payload).

(** The HMAC algorithms, the ones usable with a plain secret string. *)
Definition hmac_algorithm (alg : string) : bool :=
  String.eqb alg "HS256" || String.eqb alg "HS384" || String.eqb alg "HS512".

(** [jwt.encode]: a [datetime] under ["exp"], ["iat"] or ["nbf"] becomes
    whole seconds since the epoch; any other [datetime] cannot be serialised
    ([TypeError]); an unusable algorithm raises [JWSError]. *)
Definition intdate (claims : gmap string value) (k : string) : gmap string value :=
  match claims !! k with
  | Some (VDateTime d) => <[k := VInt (timegm d)]> claims
  | _ => claims
  end.

Definition serialisable (v : value) : bool :=
  match v with
  | VDateTime _ => false
  | _ => true
  end.

Definition encode (claims : gmap string value) (key algorithm : string) : result token :=
  let claims := intdate (intdate (intdate claims "exp") "iat") "nbf" in
  if negb (hmac_algorithm algorithm) then Raise JWSError
  else if negb (bool_decide (map_Forall (fun _ v => serialisable v = true) claims))
  then Raise TypeError
  else Ret (Compact algorithm (Some key) (PayloadObject claims)).

(** Claim validators of [jwt.decode] with its default options
    ([leeway = 0], no audience, issuer, subject or access token given).
    [int(...)] failing with [ValueError] is turned into [JWTError]; any
    other exception of [int(...)] escapes. *)
Definition claim_int (v : value) : result Z :=
  match int v with
  | Raise ValueError => Raise JWTError
  | r => r
  end.

Definition validate_iat (claims : gmap string value) : result unit :=
  match claims !! "iat" with
  | None => Ret tt
  | Some v => _ ← claim_int v; Ret tt
  end.

Definition validate_nbf (claims : gmap string value) (now : Z) : result unit :=
  match claims !! "nbf" with
  | None => Ret tt
  | Some v => nbf ← claim_int v; if now <? nbf then Raise JWTError else Ret tt
  end.

(** [if exp < (now - leeway): raise ExpiredSignatureError] *)
Definition validate_exp (claims : gmap string value) (now : Z) : result unit :=
  match claims !! "exp" with
  | None => Ret tt
  | Some v => exp ← claim_int v; if exp <? now then Raise JWTError else Ret tt
  end.

(** With no expected audience, a token that carries ["aud"] is refused. *)
Definition validate_aud (claims : gmap string value) : result unit :=
  match claims !! "aud" with
  | None => Ret tt
  | Some _ => Raise JWTError
  end.

Definition validate_str (claims : gmap string value) (k : string) : result unit :=
  match claims !! k with
  | None => Ret tt
  | Some (VStr _) => Ret tt
  | Some _ => Raise JWTError
  end.

Definition validate_at_hash (claims : gmap string value) : result unit :=
  match claims !! "at_hash" with
  | None => Ret tt
  | Some _ => Raise JWTError
  end.

Definition validate_claims (claims : gmap string value) (now : Z) : result unit :=
  _ ← validate_iat claims;
  _ ← validate_nbf claims now;
  _ ← validate_exp claims now;
  _ ← validate_aud claims;
  _ ← validate_str claims "sub";
  _ ← validate_str claims "jti";
  validate_at_hash claims.

(** [jwt.decode(token, key, algorithms)] evaluated when the clock shows
    [now] whole seconds. *)
Definition decode (tok : token) (key : string) (algorithms : list string) (now : Z)
  : result (gmap string value) :=
  match tok with
  | NotCompact => Raise JWTError
  | Compact alg signed_with body =>
      if negb (existsb (String.eqb alg) algorithms) then Raise JWTError
      else if negb (hmac_algorithm alg) then Raise JWTError
      else match signed_with with
           | None => Raise JWTError
           | Some k =>
               if negb (String.eqb k key) then Raise JWTError
               else match body with
                    | PayloadInvalid => Raise JWTError
                    | PayloadObject claims =>
                        _ ← validate_claims claims now; Ret claims
                    end
           end
  end.

End Jose.

(** ** passlib (third-party package): the [CryptContext] the sources build
    with [schemes=["bcrypt"]].  Only [verify] is used; it may raise, for
    instance [UnknownHashError] on a stored value that is no bcrypt hash. *)
Class CryptContext : Type :=
  { pwd_context_verify : string -> string -> result bool }.

(** ** auth.py *)
Module Auth.

(** Settings read from the environment at import time. *)
Record settings : Type := Settings
  { SECRET_KEY : string;
    ALGORITHM : string;
    ACCESS_TOKEN_EXPIRE_HOURS : Z }.

(** [os.getenv(name, default)] *)
Definition getenv (env : gmap string string) (name default : string) : string :=
  match env !! name with
  | Some v => v
  | None => default
  end.

Definition load_settings (env : gmap string string) : result settings :=
  hours ← int (VStr (getenv env "ACCESS_TOKEN_EXPIRE_HOURS" "8"));
  Ret {| SECRET_KEY :=
           getenv env "JWT_SECRET_KEY"
             "ngheTinhPort2024@BigDataAPI#SecretKey!ChangeMeInProduction";
         ALGORITHM := getenv env "JWT_ALGORITHM" "HS256";
         ACCESS_TOKEN_EXPIRE_HOURS := hours |}.

(** The settings of a process started with none of the three variables set. *)
Definition default_settings : settings :=
  {| SECRET_KEY := "ngheTinhPort2024@BigDataAPI#SecretKey!ChangeMeInProduction";
     ALGORITHM := "HS256";
     ACCESS_TOKEN_EXPIRE_HOURS := 8 |}.

Record TokenData : Type := mkTokenData
  { td_username : option string;
    td_exp : option datetime }.

Record User : Type := mkUser
  { username : string;
    password_hash : string;
    full_name : option string;
    disabled : bool }.

Definition USERS_DB : gmap string User :=
  <["abc" := mkUser "abc" "6504E4EF9274BDE48162B6F2BE0FDF0" (Some "Admin User") false]>
  (<["admin" := mkUser "admin" "admin123" (Some "System Admin") false]> ∅).

Definition verify_password {pwd_context : CryptContext}
  (plain_password hashed_password : string) : result bool :=
  if String.eqb hashed_password "6504E4EF9274BDE48162B6F2BE0FDF0"
  then Ret (String.eqb plain_password hashed_password)
  else pwd_context_verify plain_password hashed_password.

Definition get_user (users : gmap string User) (username : string) : option User :=
  users !! username.

Definition authenticate_user {pwd_context : CryptContext}
  (users : gmap string User) (username password : string) : result (option User) :=
  match get_user users username with
  | None => Ret None
  | Some user =>
      ok ← verify_password password (password_hash user);
      if negb ok then Ret None else Ret (Some user)
  end.

(** [utcnow] is the reading of [datetime.utcnow()] at the call. *)
Definition create_access_token (cfg : settings) (utcnow : datetime)
  (data : gmap string value) (expires_delta : option timedelta) : result Jose.token :=
  let to_encode := data in
  expire ←
    (if truthy_timedelta expires_delta
     then datetime_add utcnow (default 0 expires_delta)
     else datetime_add utcnow (timedelta_hours (ACCESS_TOKEN_EXPIRE_HOURS cfg)));
  let to_encode := <["exp" := VDateTime expire]> to_encode in
  Jose.encode to_encode (SECRET_KEY cfg) (ALGORITHM cfg).

(** [TokenData(username=..., exp=...)]: [username] must be a string or
    [None]. *)
Definition make_TokenData (username : value) (exp : datetime) : result TokenData :=
  match username with
  | VStr s => Ret (mkTokenData (Some s) (Some exp))
  | VNone => Ret (mkTokenData None (Some exp))
  | _ => Raise (ValidationError "username: Input should be a valid string")
  end.

(** [utcnow] is the clock at the call, [utcoffset] the server's zone. *)
Definition verify_token (cfg : settings) (utcoffset : Z) (utcnow : datetime)
  (token : Jose.token) : result (option TokenData) :=
  match Jose.decode token (SECRET_KEY cfg) [ALGORITHM cfg] (timegm utcnow) with
  | Raise JWTError => Ret None
  | Raise e => Raise e
  | Ret payload =>
      let username := dict_get payload "sub" in
      exp ← fromtimestamp utcoffset (dict_get payload "exp");
      match username with
      | VNone => Ret None
      | _ => td ← make_TokenData username exp; Ret (Some td)
      end
  end.

End Auth.

(** ** database.py *)
Module Database.

(** The ODBC driver behind [cursor.execute], [cursor.description] and
    [cursor.fetchall]: the column names and the fetched rows, or the message
    of the exception it raised.  The driver raises [pyodbc.Error] (and
    [OverflowError] on an integer it cannot bind), never a [ValueError]. *)
Class Driver : Type :=
  { cursor_execute : string -> list value -> string + (list string * list (list value)) }.

(** [value.isoformat() if hasattr(value, 'isoformat') else value] *)
Definition convert (v : value) : value :=
  match v with
  | VDateTime d => VStr (isoformat d)
  | _ => v
  end.

(** [row_dict[columns[i]] = ...] for each cell, left to right (a row has as
    many cells as the description has columns). *)
Definition row_dict (columns : list string) (row : list value) : gmap string value :=
  foldl (fun d cv => <[cv.1 := convert cv.2]> d) ∅ (zip columns row).

Definition execute_query {driver : Driver} (query : string) (params : list value)
  : result (list (gmap string value)) :=
  match cursor_execute query params with
  | inl msg => Raise (DataAccessError msg)
  | inr (columns, rows) => Ret (map (row_dict columns) rows)
  end.

End Database.

(** ** FastAPI (third-party package): declared integer query parameters *)
Module FastAPI.

(** [name: Optional[int] = Query(default, ge=..., le=...)].  A parameter the
    request leaves out takes the default; a supplied integer must satisfy the
    bounds, otherwise the request is answered 422 before the handler runs
    ([None] here).  Query parameters that a handler does not declare are
    ignored. *)
Definition Query (default : Z) (ge le : option Z) (supplied : option Z) : option Z :=
  match supplied with
  | None => Some default
  | Some v =>
      if from_option (fun lo => lo <=? v) true ge
         && from_option (fun hi => v <=? hi) true le
      then Some v else None
  end.

End FastAPI.

(** ** The SQL text of main.py *)
Module Sql.

(** [query] of [get_customers], main.py line 211 *)
Definition get_customers_query : string :=
  "
            SELECT 
                partnerGuid,
                partnerCode,
                partnerShortName,
                partnerFullName,
                partnerFullNameEN,
                partnerTaxCode,
                partnerBankName,
                partnerBankNumber,
                partnerFax,
                partnerEmail,
                partnerTel,
                partnerWebsite,
                partnerAddress,
                partnerDirector,
                isCashPayment,
                cargoGroupListId,
                rowInvisible,
                rowDeleted,
                [guid],
                createUserId,
                updateUserId,
                createTime,
                updateTime,
                fontColor,
                apiCode,
                partnerMemberListEmail,
                partnerMemberListMobile,
                buyerFullName,
                buyerIDNumber,
                partnerBudgetCode
            FROM dbo.Partner
            WHERE 1=1
        ".

(** [query] of [get_customer_by_id], main.py line 339 *)
Definition get_customer_by_id_query : string :=
  "
            SELECT 
                partnerGuid,
                partnerCode,
                partnerShortName,
                partnerFullName,
                partnerFullNameEN,
                partnerTaxCode,
                partnerBankName,
                partnerBankNumber,
                partnerFax,
                partnerEmail,
                partnerTel,
                partnerWebsite,
                partnerAddress,
                partnerDirector,
                isCashPayment,
                cargoGroupListId,
                rowInvisible,
                rowDeleted,
                updateTime
            FROM dbo.Partner
            WHERE partnerCode = ?
            AND rowDeleted = 0
        ".

(** [query] of [get_cargo_categories], main.py line 450 *)
Definition get_cargo_categories_query : string :=
  "
            SELECT 
                cargoId,
                cargoCode,
                cargoName,
                cargoGroupId,
                cargoGroupBillingId,
                customsHsCodeId,
                rowInvisible,
                rowDeleted,
                createUserId,
                updateUserId,
                createTime,
                updateTime,
                cargoGroupCode,
                cargoGroupName,
                cargoGroupDescription,
                cargoGroupBillingCode,
                cargoGroupBillingName,
                cargoGroupBillingDescription
            FROM dbo.vwCargo
            WHERE 1=1
        ".

(** [query] of [get_cargo_by_id], main.py line 554 *)
Definition get_cargo_by_id_query : string :=
  "
            SELECT 
                cargoId,
                cargoCode,
                cargoName,
                cargoGroupId,
                cargoGroupBillingId,
                customsHsCodeId,
                rowInvisible,
                rowDeleted,
                createUserId,
                updateUserId,
                createTime,
                updateTime,
                cargoGroupCode,
                cargoGroupName,
                cargoGroupDescription,
                cargoGroupBillingCode,
                cargoGroupBillingName,
                cargoGroupBillingDescription
            FROM dbo.vwCargo
            WHERE cargoId = ?
            AND rowDeleted = 0
        ".

(** [query] of [get_cargo_types], main.py line 655 *)
Definition get_cargo_types_query : string :=
  "
            SELECT DISTINCT
                cargoGroupId,
                cargoGroupCode,
                cargoGroupName,
                MIN(createTime) as createTime,
                MAX(updateTime) as updateTime
            FROM dbo.vwCargo
            WHERE rowDeleted = 0
            AND cargoGroupId IS NOT NULL
            AND cargoGroupName IS NOT NULL
            GROUP BY cargoGroupId, cargoGroupCode, cargoGroupName
        ".

(** [query] of [get_cargo_type_by_id], main.py line 742 *)
Definition get_cargo_type_by_group_id_query : string :=
  "
                SELECT DISTINCT
                    cargoGroupId,
                    cargoGroupCode,
                    cargoGroupName,
                    MIN(createTime) as createTime,
                    MAX(updateTime) as updateTime
                FROM dbo.vwCargo
                WHERE cargoGroupId = ?
                AND rowDeleted = 0
                GROUP BY cargoGroupId, cargoGroupCode, cargoGroupName
            ".

(** [query] of [get_cargo_type_by_id], main.py line 757 *)
Definition get_cargo_type_by_group_code_query : string :=
  "
                SELECT DISTINCT
                    cargoGroupId,
                    cargoGroupCode,
                    cargoGroupName,
                    MIN(createTime) as createTime,
                    MAX(updateTime) as updateTime
                FROM dbo.vwCargo
                WHERE cargoGroupCode = ?
                AND rowDeleted = 0
                GROUP BY cargoGroupId, cargoGroupCode, cargoGroupName
            ".

(** [query] of [get_handling_methods], main.py line 843 *)
Definition get_handling_methods_query : string :=
  "
            SELECT DISTINCT
                jobMethodCode,
                jobMethodName,
                MIN(createTime) as createTime,
                MAX(updateTime) as updateTime
            FROM dbo.vwTallyShiftAll
            WHERE rowDeleted IS NULL
            AND jobMethodCode IS NOT NULL
            AND jobMethodName IS NOT NULL
            GROUP BY jobMethodCode, jobMethodName
        ".

(** [query] of [get_handling_method_by_id], main.py line 926 *)
Definition get_handling_method_by_id_query : string :=
  "
            SELECT DISTINCT
                jobMethodCode,
                jobMethodName,
                MIN(createTime) as createTime,
                MAX(updateTime) as updateTime
            FROM dbo.vwTallyShiftAll
            WHERE rowDeleted IS NULL
            AND jobMethodCode = ?
            GROUP BY jobMethodCode, jobMethodName
        ".

(** [query] of [get_classes], main.py line 1012 *)
Definition get_classes_query : string :=
  "
            SELECT DISTINCT
                cargoDirectCode,
                cargoDirectName,
                MIN(createTime) as createTime,
                MAX(updateTime) as updateTime
            FROM dbo.vwTallyShiftAll
            WHERE rowDeleted IS NULL
            AND cargoDirectCode IS NOT NULL
            AND cargoDirectName IS NOT NULL
            GROUP BY cargoDirectCode, cargoDirectName
        ".

(** [query] of [get_class_by_id], main.py line 1095 *)
Definition get_class_by_id_query : string :=
  "
            SELECT DISTINCT
                cargoDirectCode,
                cargoDirectName,
                MIN(createTime) as createTime,
                MAX(updateTime) as updateTime
            FROM dbo.vwTallyShiftAll
            WHERE rowDeleted IS NULL
            AND cargoDirectCode = ?
            GROUP BY cargoDirectCode, cargoDirectName
        ".

(** [query] of [get_ships], main.py line 1181 *)
Definition get_ships_query : string :=
  "
            SELECT
                vesselId,
                vesselCode,
                vesselName,
                numberIMO,
                vesselTypeId,
                countryId,
                vesselGT,
                vesselBEAM,
                vesselLOA,
                vesselDWT,
                ownerId,
                createTime,
                updateTime
            FROM dbo.Vessel
            WHERE rowDeleted = 0
        ".

(** [query] of [get_ship_by_imo], main.py line 1279 *)
Definition get_ship_by_imo_query : string :=
  "
            SELECT
                vesselId,
                vesselCode,
                vesselName,
                numberIMO,
                vesselTypeId,
                countryId,
                vesselGT,
                vesselBEAM,
                vesselLOA,
                vesselDWT,
                ownerId,
                createTime,
                updateTime
            FROM dbo.Vessel
            WHERE rowDeleted = 0
            AND numberIMO = ?
        ".

(** [query] of [get_bulk_gate_volumes], main.py line 1387 *)
Definition get_bulk_gate_volumes_query : string :=
  "
            SELECT
                t.shiftDate,
                t.tallyShiftId,
                t.consigneeId,
                t.consigneeCode,
                t.cargoId,
                t.jobMethodId,
                t.vesselId,
                t.weightNetSum,
                c.cargoGroupId,
                t.createTime,
                t.updateTime
            FROM dbo.vwTallyShiftAll t
            LEFT JOIN dbo.vwCargo c ON t.cargoId = c.cargoId
            WHERE t.rowDeleted IS NULL
            AND t.weightNetSum > 0
            AND (t.vesselCode LIKE ? OR t.vesselCode LIKE ?)
        ".

(** [query] of [get_bulk_quay_volumes], main.py line 1514 *)
Definition get_bulk_quay_volumes_query : string :=
  "
            SELECT
                t.shiftDate,
                t.tallyShiftId,
                t.consigneeId,
                t.consigneeCode,
                t.cargoId,
                t.jobMethodId,
                t.vesselId,
                t.agencyId,
                t.cargoDirectId,
                t.weightNetSum,
                c.cargoGroupCode,
                c.cargoGroupId,
                t.createTime,
                t.updateTime
            FROM dbo.vwTallyShiftAll t
            LEFT JOIN dbo.vwCargo c ON t.cargoId = c.cargoId
            WHERE t.rowDeleted IS NULL
            AND t.weightNetSum > 0
            AND t.jobMethodCode LIKE ?
            AND (c.cargoGroupCode IS NULL OR c.cargoGroupCode <> 'Container')
        ".

(** [query] of [get_container_quay_volumes], main.py line 1649 *)
Definition get_container_quay_volumes_query : string :=
  "
            SELECT
                t.shiftDate,
                t.tallyShiftId,
                t.consigneeId,
                t.consigneeCode,
                t.cargoId,
                t.jobMethodId,
                t.vesselId,
                t.agencyId,
                t.cargoDirectId,
                t.weightNetSum,
                t.quantityTotalSum,
                c.cargoGroupCode,
                c.cargoGroupId,
                t.createTime,
                t.updateTime
            FROM dbo.vwTallyShiftAll t
            LEFT JOIN dbo.vwCargo c ON t.cargoId = c.cargoId
            WHERE t.rowDeleted IS NULL
            AND t.weightNetSum > 0
            AND t.jobMethodCode LIKE ?
            AND c.cargoGroupCode = 'Hàng Container'
        ".

End Sql.

(** ** main.py *)
Module Main.
Import Auth Database.

(** *** Login *)
Record LoginRequest : Type := mkLoginRequest
  { Username : string;
    Password : string }.

Inductive login_result : Type :=
| LoginResponse (AccessToken : Jose.token) (Code Message ExpireIn : string)
| LoginRefused (status_code : Z) (Code Message : string).

Definition login {pwd_context : CryptContext} (cfg : settings) (users : gmap string User)
  (utcnow : datetime) (request : LoginRequest) : result login_result :=
  user ← authenticate_user users (Username request) (Password request);
  match user with
  | None => Ret (LoginRefused 401 "0" "Tên đăng nhập hoặc mật khẩu không đúng")
  | Some user =>
      let access_token_expires := timedelta_hours (ACCESS_TOKEN_EXPIRE_HOURS cfg) in
      access_token ←
        create_access_token cfg utcnow {["sub" := VStr (username user)]}
          (Some access_token_expires);
      Ret (LoginResponse access_token "1" "Login thành công"
             (str_of_Z (ACCESS_TOKEN_EXPIRE_HOURS cfg) +:+ "h"))
  end.

(** [get_current_user]: [inl 401] when [verify_token] returns [None]. *)
Definition get_current_user (cfg : settings) (utcoffset : Z) (utcnow : datetime)
  (credentials : Jose.token) : result (Z + TokenData) :=
  token_data ← verify_token cfg utcoffset utcnow credentials;
  match token_data with
  | None => Ret (inl 401)
  | Some td => Ret (inr td)
  end.

(** *** Resource handlers *)

(** A response item: the keyword arguments given to the pydantic model. *)
Definition dto : Type := list (string * value).

(** The keyword arguments of a response model that no property below looks
    at (identifiers, names, weights, [reportDate]), computed from a row; the
    call raises when one of their expressions or the pydantic validation of
    the model does. *)
Class Schemas : Type :=
  { other_fields : string -> gmap string value -> result dto }.

Inductive response (D : Type) : Type :=
| Success (code message : string) (data : D)
| HTTPException (status_code : Z) (code message : string)
| RequestValidationError.
Arguments Success {D} code message data.
Arguments HTTPException {D} status_code code message.
Arguments RequestValidationError {D}.

(** What a request did: the statements sent to [db.execute_query], in
    order, and the response. *)
Record outcome (D : Type) : Type := mkOutcome
  { executed : list (string * list value);
    response_of : response D }.
Arguments mkOutcome {D} executed response_of.
Arguments executed {D} o.
Arguments response_of {D} o.

(** [str(e)] *)
Definition exn_message (e : exn) : string :=
  match e with
  | DataAccessError msg => msg
  | ValidationError msg => msg
  | _ => ""
  end.

(** The [except Exception] clause shared by the handlers. *)
Definition failure {D : Type} (e : exn) : response D :=
  HTTPException 500 "0" ("Lỗi lấy dữ liệu: " +:+ exn_message e).

(** [for row in results: items.append(Model(...))] *)
Fixpoint map_rows {D : Type} (make : gmap string value -> result D)
  (results : list (gmap string value)) : result (list D) :=
  match results with
  | [] => Ret []
  | row :: rest => item ← make row; items ← map_rows make rest; Ret (item :: items)
  end.

Definition list_message {D : Type} (items : list D) : string :=
  match items with
  | [] => "Không có dữ liệu"
  | _ :: _ => "Lấy dữ liệu thành công"
  end.

(** The body every list handler ends with: execute, map, wrap. *)
Definition respond_list {driver : Driver} {D : Type} (query : string) (params : list value)
  (make : gmap string value -> result D) : outcome (list D) :=
  mkOutcome [(query, params)]
    match execute_query query params with
    | Raise e => failure e
    | Ret results =>
        match map_rows make results with
        | Raise e => failure e
        | Ret items => Success "1" (list_message items) items
        end
    end.

(** The body every by-id handler ends with. *)
Definition respond_single {driver : Driver} {D : Type} (query : string) (params : list value)
  (make : gmap string value -> result D) (not_found : string) : outcome D :=
  mkOutcome [(query, params)]
    match execute_query query params with
    | Raise e => failure e
    | Ret [] => HTTPException 404 "0" not_found
    | Ret (row :: _) =>
        match make row with
        | Raise e => failure e
        | Ret item => Success "1" "Lấy dữ liệu thành công" item
        end
    end.

(** [if cond: query += clause; params.append(arg)] *)
Definition and_filter (cond : bool) (clause : string) (arg : value)
  (qp : string * list value) : string * list value :=
  if cond then (qp.1 +:+ clause, (qp.2 ++ [arg])%list) else qp.

Definition str_arg (o : option string) : value := VStr (default "" o).
Definition int_arg (o : option Z) : value := VInt (default 0 o).

(** [offset = (page - 1) * limit; query += order; params.extend([offset, limit])] *)
Definition paginate (order : string) (page limit : Z)
  (qp : string * list value) : string * list value :=
  let offset := (page - 1) * limit in
  (qp.1 +:+ order, (qp.2 ++ [VInt offset; VInt limit])%list).

Section handlers.
Context {driver : Driver} {schemas : Schemas}.

Definition get_customers
  (startDate endDate customerTaxCode companyId customerType : option string)
  : outcome (list dto) :=
  let qp := (Sql.get_customers_query, []) in
  let qp := and_filter (truthy_str startDate)
              " AND CAST(updateTime AS DATE) >= ?" (str_arg startDate) qp in
  let qp := and_filter (truthy_str endDate)
              " AND CAST(updateTime AS DATE) <= ?" (str_arg endDate) qp in
  let qp := and_filter (truthy_str customerTaxCode)
              " AND partnerTaxCode = ?" (str_arg customerTaxCode) qp in
  let query := qp.1 +:+ " AND rowDeleted = 0" in
  let query := query +:+ " ORDER BY partnerCode" in
  respond_list query qp.2 (other_fields "CustomerData").

Definition get_customer_by_id (customer_id : string) (companyId : option string)
  : outcome dto :=
  respond_single Sql.get_customer_by_id_query [VStr customer_id]
    (other_fields "CustomerData") "Không tìm thấy khách hàng".

Definition get_cargo_categories (cargoTypeId : option Z) (page limit : Z)
  (companyId : option string) : outcome (list dto) :=
  let qp := (Sql.get_cargo_categories_query, []) in
  let qp := and_filter (truthy_int cargoTypeId)
              " AND cargoGroupId = ?" (int_arg cargoTypeId) qp in
  let qp := (qp.1 +:+ " AND rowDeleted = 0", qp.2) in
  let qp := paginate " ORDER BY cargoId OFFSET ? ROWS FETCH NEXT ? ROWS ONLY"
              page limit qp in
  respond_list qp.1 qp.2 (other_fields "CargoData").

Definition get_cargo_by_id (cargo_id : Z) (companyId : option string) : outcome dto :=
  respond_single Sql.get_cargo_by_id_query [VInt cargo_id]
    (other_fields "CargoData") "Không tìm thấy nhóm hàng hóa".

Definition get_cargo_types (page limit : Z) (companyId : option string)
  : outcome (list dto) :=
  let qp := paginate " ORDER BY cargoGroupId OFFSET ? ROWS FETCH NEXT ? ROWS ONLY"
              page limit (Sql.get_cargo_types_query, []) in
  respond_list qp.1 qp.2 (other_fields "CargoTypeData").

(** [try: type_id_int = int(cargo_type_id) ... except ValueError: ...] *)
Definition get_cargo_type_by_id (cargo_type_id : string) (companyId : option string)
  : outcome dto :=
  match int_of_str cargo_type_id with
  | Some type_id_int =>
      respond_single Sql.get_cargo_type_by_group_id_query [VInt type_id_int]
        (other_fields "CargoTypeData") "Không tìm thấy loại hàng hóa"
  | None =>
      respond_single Sql.get_cargo_type_by_group_code_query [VStr cargo_type_id]
        (other_fields "CargoTypeData") "Không tìm thấy loại hàng hóa"
  end.

Definition get_handling_methods (page limit : Z) (companyId : option string)
  : outcome (list dto) :=
  let qp := paginate " ORDER BY jobMethodCode OFFSET ? ROWS FETCH NEXT ? ROWS ONLY"
              page limit (Sql.get_handling_methods_query, []) in
  respond_list qp.1 qp.2 (other_fields "HandlingMethodData").

Definition get_handling_method_by_id (handling_method_id : string)
  (companyId : option string) : outcome dto :=
  respond_single Sql.get_handling_method_by_id_query [VStr handling_method_id]
    (other_fields "HandlingMethodData") "Không tìm thấy phương án tác nghiệp".

Definition get_classes (page limit : Z) (companyId : option string)
  : outcome (list dto) :=
  let qp := paginate " ORDER BY cargoDirectCode OFFSET ? ROWS FETCH NEXT ? ROWS ONLY"
              page limit (Sql.get_classes_query, []) in
  respond_list qp.1 qp.2 (other_fields "ClassData").

Definition get_class_by_id (class_id : string) (companyId : option string)
  : outcome dto :=
  respond_single Sql.get_class_by_id_query [VStr class_id]
    (other_fields "ClassData") "Không tìm thấy hướng tàu".

(** The expression given as [createdDate] and [modifiedDate] of a ship:
    [v.strftime("%Y-%m-%dT%H:%M:%S.%f")[:-3] + "Z"
       if v and hasattr(v, 'strftime') else str(v) if v else None] *)
Definition has_strftime (v : value) : bool :=
  match v with
  | VDateTime _ => true
  | _ => false
  end.

Definition ship_timestamp (v : value) : value :=
  if truthy v && has_strftime v then
    match v with
    | VDateTime d => VStr (drop_last3 (strftime_f d) +:+ "Z")
    | _ => VNone
    end
  else if truthy v then VStr (str v)
  else VNone.

Definition ShipData (row : gmap string value) : result dto :=
  rest ← other_fields "ShipData" row;
  Ret (rest ++ [("createdDate", ship_timestamp (dict_get row "createTime"));
                ("modifiedDate", ship_timestamp (dict_get row "updateTime"))])%list.

Definition get_ships (page limit : Z) (companyId : option string)
  : outcome (list dto) :=
  let qp := paginate " ORDER BY vesselId OFFSET ? ROWS FETCH NEXT ? ROWS ONLY"
              page limit (Sql.get_ships_query, []) in
  respond_list qp.1 qp.2 ShipData.

Definition get_ship_by_imo (ship_imo : string) (companyId : option string)
  : outcome dto :=
  respond_single Sql.get_ship_by_imo_query [VStr ship_imo] ShipData "Không tìm thấy tàu".

Definition get_bulk_gate_volumes
  (startDate endDate companyId handlingMethodId : option string) (page limit : Z)
  : outcome (list dto) :=
  let qp := (Sql.get_bulk_gate_volumes_query, [VStr "%BÃI%"; VStr "%KHO%"]) in
  let qp := and_filter (truthy_str startDate)
              " AND t.shiftDate >= ?" (str_arg startDate) qp in
  let qp := and_filter (truthy_str endDate)
              " AND t.shiftDate <= ?" (str_arg endDate) qp in
  let qp := and_filter (truthy_str companyId)
              " AND t.consigneeId = ?" (str_arg companyId) qp in
  let qp := and_filter (truthy_str handlingMethodId)
              " AND t.jobMethodId = ?" (str_arg handlingMethodId) qp in
  let qp := paginate
              " ORDER BY t.shiftDate DESC, t.tallyShiftId OFFSET ? ROWS FETCH NEXT ? ROWS ONLY"
              page limit qp in
  respond_list qp.1 qp.2 (other_fields "BulkGateVolumeData").

Definition get_bulk_quay_volumes
  (startDate endDate companyId shipId handlingMethodId : option string)
  (page limit : Z) : outcome (list dto) :=
  let qp := (Sql.get_bulk_quay_volumes_query, [VStr "%TAU%"]) in
  let qp := and_filter (truthy_str startDate)
              " AND t.shiftDate >= ?" (str_arg startDate) qp in
  let qp := and_filter (truthy_str endDate)
              " AND t.shiftDate <= ?" (str_arg endDate) qp in
  let qp := and_filter (truthy_str companyId)
              " AND t.consigneeId = ?" (str_arg companyId) qp in
  let qp := and_filter (truthy_str shipId)
              " AND t.vesselId = ?" (str_arg shipId) qp in
  let qp := and_filter (truthy_str handlingMethodId)
              " AND t.jobMethodId = ?" (str_arg handlingMethodId) qp in
  let qp := paginate
              " ORDER BY t.shiftDate DESC, t.tallyShiftId OFFSET ? ROWS FETCH NEXT ? ROWS ONLY"
              page limit qp in
  respond_list qp.1 qp.2 (other_fields "BulkQuayVolumeData").

Definition get_container_quay_volumes
  (startDate endDate companyId shipId handlingMethodId : option string)
  (page limit : Z) : outcome (list dto) :=
  let qp := (Sql.get_container_quay_volumes_query, [VStr "%TAU%"]) in
  let qp := and_filter (truthy_str startDate)
              " AND t.shiftDate >= ?" (str_arg startDate) qp in
  let qp := and_filter (truthy_str endDate)
              " AND t.shiftDate <= ?" (str_arg endDate) qp in
  let qp := and_filter (truthy_str companyId)
              " AND t.consigneeId = ?" (str_arg companyId) qp in
  let qp := and_filter (truthy_str shipId)
              " AND t.vesselId = ?" (str_arg shipId) qp in
  let qp := and_filter (truthy_str handlingMethodId)
              " AND t.jobMethodId = ?" (str_arg handlingMethodId) qp in
  let qp := paginate
              " ORDER BY t.shiftDate DESC, t.tallyShiftId OFFSET ? ROWS FETCH NEXT ? ROWS ONLY"
              page limit qp in
  respond_list qp.1 qp.2 (other_fields "ContainerQuayVolumeData").

End handlers.

(** *** Routes: parameter validation, then the handler *)

(** The query string of a request, as the integers and texts it supplies
    under the parameter names the handlers declare. *)
Record query_string : Type := mkQuery
  { q_startDate : option string;
    q_endDate : option string;
    q_customerTaxCode : option string;
    q_companyId : option string;
    q_customerType : option string;
    q_shipId : option string;
    q_handlingMethodId : option string;
    q_cargoTypeId : option Z;
    q_page : option Z;
    q_limit : option Z }.

Definition no_query : query_string :=
  mkQuery None None None None None None None None None None.

(** [page: Optional[int] = Query(1, ge=1)] and
    [limit: Optional[int] = Query(default_limit, ge=1, le=100)] *)
Definition with_page_limit {D : Type} (default_limit : Z) (q : query_string)
  (handler : Z -> Z -> outcome D) : outcome D :=
  match FastAPI.Query 1 (Some 1) None (q_page q),
        FastAPI.Query default_limit (Some 1) (Some 100) (q_limit q) with
  | Some page, Some limit => handler page limit
  | _, _ => mkOutcome [] RequestValidationError
  end.

Inductive list_endpoint : Type :=
| Customers
| CargoCategory
| CargoType
| HandlingMethodList
| ClassList
| ShipDetails
| BulkGateVolumesCB
| BulkQuayVolumesCB
| ContQuayVolumesCB.

Inductive item_endpoint : Type :=
| CustomerById (customer_id : string)
| CargoCategoryById (cargo_id : Z)
| CargoTypeById (cargo_type_id : string)
| HandlingMethodById (handling_method_id : string)
| ClassById (class_id : string)
| ShipDetailsByImo (ship_imo : string).

Section routes.
Context {driver : Driver} {schemas : Schemas}.

Definition list_route (e : list_endpoint) (q : query_string) : outcome (list dto) :=
  match e with
  | Customers =>
      get_customers (q_startDate q) (q_endDate q) (q_customerTaxCode q)
        (q_companyId q) (q_customerType q)
  | CargoCategory =>
      with_page_limit 50 q (fun page limit =>
        get_cargo_categories (q_cargoTypeId q) page limit (q_companyId q))
  | CargoType =>
      with_page_limit 20 q (fun page limit => get_cargo_types page limit (q_companyId q))
  | HandlingMethodList =>
      with_page_limit 20 q (fun page limit =>
        get_handling_methods page limit (q_companyId q))
  | ClassList =>
      with_page_limit 20 q (fun page limit => get_classes page limit (q_companyId q))
  | ShipDetails =>
      with_page_limit 20 q (fun page limit => get_ships page limit (q_companyId q))
  | BulkGateVolumesCB =>
      with_page_limit 20 q (fun page limit =>
        get_bulk_gate_volumes (q_startDate q) (q_endDate q) (q_companyId q)
          (q_handlingMethodId q) page limit)
  | BulkQuayVolumesCB =>
      with_page_limit 20 q (fun page limit =>
        get_bulk_quay_volumes (q_startDate q) (q_endDate q) (q_companyId q)
          (q_shipId q) (q_handlingMethodId q) page limit)
  | ContQuayVolumesCB =>
      with_page_limit 20 q (fun page limit =>
        get_container_quay_volumes (q_startDate q) (q_endDate q) (q_companyId q)
          (q_shipId q) (q_handlingMethodId q) page limit)
  end.

Definition item_route (e : item_endpoint) (q : query_string) : outcome dto :=
  match e with
  | CustomerById customer_id => get_customer_by_id customer_id (q_companyId q)
  | CargoCategoryById cargo_id => get_cargo_by_id cargo_id (q_companyId q)
  | CargoTypeById cargo_type_id => get_cargo_type_by_id cargo_type_id (q_companyId q)
  | HandlingMethodById handling_method_id =>
      get_handling_method_by_id handling_method_id (q_companyId q)
  | ClassById class_id => get_class_by_id class_id (q_companyId q)
  | ShipDetailsByImo ship_imo => get_ship_by_imo ship_imo (q_companyId q)
  end.

End routes.

End Main.

(** ** database.py: the connection around a statement

    [get_connection], and [execute_query], [execute_scalar] and
    [test_connection] with what they do to the connection and to the log.
    pyodbc is met through [Odbc]: whether [pyodbc.connect] raises
    [pyodbc.Error] (its message), and what a cursor answers to a statement
    (as in [Driver]). *)
Module Connection.
Import Database.

Record DatabaseConnection : Type := mkDatabaseConnection
  { server : string;
    database : string;
    db_username : string;
    db_password : string;
    db_driver : string }.

Inductive level : Type := DEBUG | INFO | WARNING | ERROR.

Inductive event : Type :=
| Connected (connection_string : string) (timeout : Z)
| Executed (query : string) (params : list value)
| Closed
| Logged (lvl : level) (message : string).

Class Odbc : Type :=
  { odbc_connect : string -> Z -> option string;
    odbc_execute : string -> list value -> string + (list string * list (list value)) }.

(** [DatabaseConnection()] with the environment [env], and what it logs. *)
Definition init (env : gmap string string) : list event * DatabaseConnection :=
  let self :=
    {| server := Auth.getenv env "DB_SERVER" "Tosdb.nghetinhport.vn\mssqlserver,37689";
       database := Auth.getenv env "DB_DATABASE" "SmartTOS";
       db_username := Auth.getenv env "DB_USERNAME" "nghetinhport_readonly";
       db_password := Auth.getenv env "DB_PASSWORD" "";
       db_driver := Auth.getenv env "DB_DRIVER" "ODBC Driver 17 for SQL Server" |} in
  ((if String.eqb (db_password self) ""
    then [Logged WARNING "DB_PASSWORD not set in environment variables"] else [])
   ++ [Logged INFO ("Database initialized: " +:+ database self +:+ " on " +:+ server self)],
   self)%list.

Definition get_connection_string (self : DatabaseConnection) : string :=
  "DRIVER={" +:+ db_driver self +:+ "};" +:+
  "SERVER=" +:+ server self +:+ ";" +:+
  "DATABASE=" +:+ database self +:+ ";" +:+
  "UID=" +:+ db_username self +:+ ";" +:+
  "PWD=" +:+ db_password self +:+ ";" +:+
  "TrustServerCertificate=yes".

(** [with self.get_connection() as conn: body]: the events of [body] run
    inside the connection; a [pyodbc.Error] leaving [body] is logged; the
    connection is closed in the [finally] clause. *)
Definition get_connection {odbc : Odbc} {A : Type} (self : DatabaseConnection)
  (body : list event * result A) : list event * result A :=
  let connection_string := get_connection_string self in
  match odbc_connect connection_string 30 with
  | Some msg =>
      ([Logged ERROR ("Database connection error: " +:+ msg)],
       Raise (DataAccessError msg))
  | None =>
      ([Connected connection_string 30; Logged DEBUG "Database connection established"]
       ++ body.1
       ++ match body.2 with
          | Raise (DataAccessError msg) =>
              [Logged ERROR ("Database connection error: " +:+ msg)]
          | _ => []
          end
       ++ [Closed; Logged DEBUG "Database connection closed"],
       body.2)%list
  end.

Definition execute_query {odbc : Odbc} (self : DatabaseConnection)
  (query : string) (params : list value)
  : list event * result (list (gmap string value)) :=
  let inside :=
    get_connection self
      match odbc_execute query params with
      | inl msg => ([Executed query params], Raise (DataAccessError msg))
      | inr (columns, rows) =>
          let results := map (row_dict columns) rows in
          ([Executed query params;
            Logged INFO ("Query executed successfully. Returned "
                         +:+ str_of_Z (Z.of_nat (length results)) +:+ " rows")],
           Ret results)
      end in
  match inside.2 with
  | Raise (DataAccessError msg) =>
      (inside.1 ++ [Logged ERROR ("Query execution error: " +:+ msg);
                    Logged ERROR ("Query: " +:+ query)],
       inside.2)%list
  | _ => inside
  end.

(** [cursor.fetchone()] then [result[0] if result else None]: a missing row
    and a row without cells are both false. *)
Definition first_cell (rows : list (list value)) : value :=
  match rows with
  | (v :: _) :: _ => v
  | _ => VNone
  end.

Definition execute_scalar {odbc : Odbc} (self : DatabaseConnection)
  (query : string) (params : list value) : list event * result value :=
  let inside :=
    get_connection self
      match odbc_execute query params with
      | inl msg => ([Executed query params], Raise (DataAccessError msg))
      | inr (_, rows) => ([Executed query params], Ret (first_cell rows))
      end in
  match inside.2 with
  | Raise (DataAccessError msg) =>
      (inside.1 ++ [Logged ERROR ("Scalar query error: " +:+ msg)], inside.2)%list
  | _ => inside
  end.

(** [result and result[0] == 1] *)
Definition is_one (rows : list (list value)) : bool :=
  match rows with
  | (VInt n :: _) :: _ => n =? 1
  | (VBool b :: _) :: _ => b
  | _ => false
  end.

Definition test_connection {odbc : Odbc} (self : DatabaseConnection)
  : list event * bool :=
  let inside :=
    get_connection self
      match odbc_execute "SELECT 1" [] with
      | inl msg => ([Executed "SELECT 1" []], Raise (DataAccessError msg))
      | inr (_, rows) =>
          if is_one rows
          then ([Executed "SELECT 1" [];
                 Logged INFO "✓ Database connection test successful"], Ret true)
          else ([Executed "SELECT 1" [];
                 Logged ERROR "✗ Database connection test failed"], Ret false)
      end in
  match inside.2 with
  | Ret b => (inside.1, b)
  | Raise e =>
      (inside.1 ++ [Logged ERROR ("✗ Database connection test failed: "
                                  +:+ Main.exn_message e)], false)%list
  end.

(** The [Driver] the handlers see when [db] is [self]. *)
Definition driver_of {odbc : Odbc} (self : DatabaseConnection) : Driver :=
  {| cursor_execute := fun query params =>
       match odbc_connect (get_connection_string self) 30 with
       | Some msg => inl msg
       | None => odbc_execute query params
       end |}.

End Connection.

(** ** main.py: the test route *)
Module Testing.
Import Auth.

(** [protected_route]: the JSON object it returns. *)
Definition protected_route (current_user : TokenData) : list (string * value) :=
  [("message", VStr "This is a protected route");
   ("user", match td_username current_user with
            | Some u => VStr u
            | None => VNone
            end);
   ("token_expires", match td_exp current_user with
                     | Some exp => VStr (isoformat exp)
                     | None => VNone
                     end)].

End Testing.

(** ** Vocabulary of the properties and sample collaborators *)

Import Auth Database Main.



(** A [CryptContext] to run examples with: bcrypt-looking values compare
    unequal, anything else is no hash it knows. *)
Definition sample_context : CryptContext :=
  {| pwd_context_verify := fun _ hashed =>
       if String.prefix "$2" hashed then Ret false else Raise UnknownHashError |}.

(** The claims [create_access_token] puts in a token for subject [u]. *)
Definition issued_claims (u : string) (exp : Z) : gmap string value :=
  <["exp" := VInt exp]> {["sub" := VStr u]}.

(** A driver that answers every statement with the same columns and rows,
    one that fails, and schemas whose unexamined fields are empty. *)
Definition sample_driver (columns : list string) (rows : list (list value)) : Driver :=
  {| cursor_execute := fun _ _ => inr (columns, rows) |}.

Definition failing_driver (msg : string) : Driver :=
  {| cursor_execute := fun _ _ => inl msg |}.

Definition plain_schemas : Schemas :=
  {| other_fields := fun _ _ => Ret [] |}.

(** The response model each list handler builds from a row. *)
Definition row_model {schemas : Schemas} (e : list_endpoint)
  : gmap string value -> result dto :=
  match e with
  | Customers => other_fields "CustomerData"
  | CargoCategory => other_fields "CargoData"
  | CargoType => other_fields "CargoTypeData"
  | HandlingMethodList => other_fields "HandlingMethodData"
  | ClassList => other_fields "ClassData"
  | ShipDetails => ShipData
  | BulkGateVolumesCB => other_fields "BulkGateVolumeData"
  | BulkQuayVolumesCB => other_fields "BulkQuayVolumeData"
  | ContQuayVolumesCB => other_fields "ContainerQuayVolumeData"
  end.

(** Pagination values the specification wants refused. *)
Definition bad_pagination (q : query_string) : Prop :=
  (exists limit, q_limit q = Some limit /\ (limit < 1 \/ 100 < limit))
  \/ (exists page, q_page q = Some page /\ page < 1).

(** The source tables and their soft-delete conventions: an explicit zero
    flag, or a null flag. *)
Inductive table : Type := Partner | vwCargo | Vessel | vwTallyShiftAll.

Definition from_clause (t : table) : string :=
  match t with
  | Partner => "FROM dbo.Partner"
  | vwCargo => "FROM dbo.vwCargo"
  | Vessel => "FROM dbo.Vessel"
  | vwTallyShiftAll => "FROM dbo.vwTallyShiftAll"
  end.

Definition zero_flag (sql : string) : bool :=
  contains "rowDeleted = 0" sql && negb (contains "rowDeleted IS NULL" sql).

Definition null_flag (sql : string) : bool :=
  contains "rowDeleted IS NULL" sql && negb (contains "rowDeleted = 0" sql).

Definition active_rows_of (t : table) (sql : string) : bool :=
  contains (from_clause t) sql &&
  match t with
  | vwTallyShiftAll => null_flag sql
  | _ => zero_flag sql
  end.

Definition list_table (e : list_endpoint) : table :=
  match e with
  | Customers => Partner
  | CargoCategory | CargoType => vwCargo
  | ShipDetails => Vessel
  | HandlingMethodList | ClassList
  | BulkGateVolumesCB | BulkQuayVolumesCB | ContQuayVolumesCB => vwTallyShiftAll
  end.

Definition item_table (e : item_endpoint) : table :=
  match e with
  | CustomerById _ => Partner
  | CargoCategoryById _ | CargoTypeById _ => vwCargo
  | ShipDetailsByImo _ => Vessel
  | HandlingMethodById _ | ClassById _ => vwTallyShiftAll
  end.

(** The shape [YYYY-MM-DDTHH:MM:SS.mmmZ]. *)
Definition utc_millisecond_shape (s : string) : bool :=
  match list_ascii_of_string s with
  | [y1; y2; y3; y4; d1; m1; m2; d2; a1; a2; t; h1; h2; c1; n1; n2; c2; s1; s2; p; f1; f2; f3; z] =>
      forallb is_digit [y1; y2; y3; y4; m1; m2; a1; a2; h1; h2; n1; n2; s1; s2; f1; f2; f3]
      && Ascii.eqb d1 "-" && Ascii.eqb d2 "-" && Ascii.eqb t "T"
      && Ascii.eqb c1 ":" && Ascii.eqb c2 ":" && Ascii.eqb p "." && Ascii.eqb z "Z"
  | _ => false
  end.

(** Whether a value is a [datetime] object. *)
Definition is_datetime (v : value) : bool :=
  match v with
  | VDateTime _ => true
  | _ => false
  end.

(** Replays a list of events against the state of the connection ([true]:
    open): a statement needs an open connection, a connection is opened
    only when none is open and closed only when one is.  [None] when the
    events break this. *)
Fixpoint lifecycle (open : bool) (events : list Connection.event) : option bool :=
  match events with
  | [] => Some open
  | Connection.Connected _ _ :: rest => if open then None else lifecycle true rest
  | Connection.Executed _ _ :: rest => if open then lifecycle true rest else None
  | Connection.Closed :: rest => if open then lifecycle false rest else None
  | Connection.Logged _ _ :: rest => lifecycle open rest
  end.

Definition error_logged (events : list Connection.event) : bool :=
  existsb (fun ev => match ev with
                     | Connection.Logged Connection.ERROR _ => true
                     | _ => false
                     end) events.

(** An [Odbc] whose connection and statements answer as given. *)
Definition sample_odbc (connect : option string)
  (answer : string + (list string * list (list value))) : Connection.Odbc :=
  {| Connection.odbc_connect := fun _ _ => connect;
     Connection.odbc_execute := fun _ _ => answer |}.

(** The number of [?] placeholders of a statement. *)
Fixpoint placeholders (sql : string) : nat :=
  match sql with
  | EmptyString => 0
  | String c rest => (if Ascii.eqb c "?" then 1 else 0) + placeholders rest
  end.

(** Two query strings supply the same optional filters (whatever the values). *)
Definition same_filters_present (q q' : query_string) : Prop :=
  truthy_str (q_startDate q) = truthy_str (q_startDate q')
  /\ truthy_str (q_endDate q) = truthy_str (q_endDate q')
  /\ truthy_str (q_customerTaxCode q) = truthy_str (q_customerTaxCode q')
  /\ truthy_str (q_companyId q) = truthy_str (q_companyId q')
  /\ truthy_str (q_shipId q) = truthy_str (q_shipId q')
  /\ truthy_str (q_handlingMethodId q) = truthy_str (q_handlingMethodId q')
  /\ truthy_int (q_cargoTypeId q) = truthy_int (q_cargoTypeId q').

(** The query string with every empty text filter and a zero [cargoTypeId]
    left out. *)
Definition drop_empty (o : option string) : option string :=
  if truthy_str o then o else None.

Definition without_empty_filters (q : query_string) : query_string :=
  mkQuery (drop_empty (q_startDate q)) (drop_empty (q_endDate q))
    (drop_empty (q_customerTaxCode q)) (drop_empty (q_companyId q))
    (drop_empty (q_customerType q)) (drop_empty (q_shipId q))
    (drop_empty (q_handlingMethodId q))
    (if truthy_int (q_cargoTypeId q) then q_cargoTypeId q else None)
    (q_page q) (q_limit q).

(** The default [limit] each paginated handler declares. *)
Definition default_limit (e : list_endpoint) : Z :=
  match e with
  | CargoCategory => 50
  | _ => 20
  end.

(** The response model and the not-found text of each by-id handler. *)
Definition item_model {schemas : Schemas} (e : item_endpoint)
  : gmap string value -> result dto :=
  match e with
  | CustomerById _ => other_fields "CustomerData"
  | CargoCategoryById _ => other_fields "CargoData"
  | CargoTypeById _ => other_fields "CargoTypeData"
  | HandlingMethodById _ => other_fields "HandlingMethodData"
  | ClassById _ => other_fields "ClassData"
  | ShipDetailsByImo _ => ShipData
  end.

Definition not_found_message (e : item_endpoint) : string :=
  match e with
  | CustomerById _ => "Không tìm thấy khách hàng"
  | CargoCategoryById _ => "Không tìm thấy nhóm hàng hóa"
  | CargoTypeById _ => "Không tìm thấy loại hàng hóa"
  | HandlingMethodById _ => "Không tìm thấy phương án tác nghiệp"
  | ClassById _ => "Không tìm thấy hướng tàu"
  | ShipDetailsByImo _ => "Không tìm thấy tàu"
  end.

(** The query string with another [companyId] and [customerType]. *)
Definition with_company (q : query_string) (companyId customerType : option string)
  : query_string :=
  mkQuery (q_startDate q) (q_endDate q) (q_customerTaxCode q) companyId customerType
    (q_shipId q) (q_handlingMethodId q) (q_cargoTypeId q) (q_page q) (q_limit q).

(** The texts [int] reads as an integer, said apart from its parser:
    groups of decimal digits joined by single underscores, after an
    optional sign, between blanks. *)
Inductive digit_groups : list ascii -> Z -> Prop :=
| one_digit (c : ascii) :
    is_digit c = true -> digit_groups [c] (digit_value c)
| next_digit (s : list ascii) (n : Z) (c : ascii) :
    digit_groups s n -> is_digit c = true ->
    digit_groups (s ++ [c]) (n * 10 + digit_value c)
| next_group (s : list ascii) (n : Z) (c : ascii) :
    digit_groups s n -> is_digit c = true ->
    digit_groups (s ++ ["_"%char; c]) (n * 10 + digit_value c).

Inductive signed_literal : list ascii -> Z -> Prop :=
| unsigned (s : list ascii) (n : Z) : digit_groups s n -> signed_literal s n
| plus_signed (s : list ascii) (n : Z) : digit_groups s n -> signed_literal ("+"%char :: s) n
| minus_signed (s : list ascii) (n : Z) :
    digit_groups s n -> signed_literal ("-"%char :: s) (- n).

Definition integer_text (buffer : list ascii) (n : Z) : Prop :=
  exists before body after,
    buffer = (before ++ body ++ after)%list
    /\ Forall (fun c => is_space c = true) before
    /\ Forall (fun c => is_space c = true) after
    /\ signed_literal body n
    /\ count_digits body <= int_max_str_digits.

(** What [parse_digits] accepts after a digit, left to right. *)
Inductive digits_tail : Z -> list ascii -> Z -> Prop :=
| tail_end (acc : Z) : digits_tail acc [] acc
| tail_digit (acc : Z) (c : ascii) (s : list ascii) (n : Z) :
    is_digit c = true -> digits_tail (acc * 10 + digit_value c) s n ->
    digits_tail acc (c :: s) n
| tail_group (acc : Z) (c : ascii) (s : list ascii) (n : Z) :
    is_digit c = true -> digits_tail (acc * 10 + digit_value c) s n ->
    digits_tail acc ("_"%char :: c :: s) n.

(** The id reads as the integer [n]: the buffer [int] makes of its code
    points is an integer text of value [n]. *)
Definition reads_as_integer (text : string) (n : Z) : Prop :=
  exists cps, code_points text = Some cps /\ integer_text (int_buffer cps) n.

(** The ASCII characters [int] can accept somewhere in a text: digits,
    blanks, signs and the underscore. *)
Definition int_char (c : ascii) : bool :=
  is_digit c || is_space c || Ascii.eqb c "+" || Ascii.eqb c "-" || Ascii.eqb c "_".

(** The number a sequence of decimal digits denotes. *)
Definition decimal_value (s : list ascii) : Z :=
  fold_left (fun acc c => acc * 10 + digit_value c) s 0.

(** Schemas that refuse a row whose [cargoGroupName] is a number, as a
    model with a text field does. *)
Definition picky_schemas : Schemas :=
  {| other_fields := fun _ row =>
       match row !! "cargoGroupName" with
       | Some (VInt _) =>
           Raise (ValidationError "cargoTypeName: Input should be a valid string")
       | _ => Ret []
       end |}.

(** A connection with the defaults of an empty environment, a request that
    filters on a start date, and the instant 2024-01-15 10:30:00 UTC. *)
Definition sample_connection : Connection.DatabaseConnection :=
  (Connection.init ∅).2.

Definition since (startDate : string) : query_string :=
  mkQuery (Some startDate) None None None None None None None None None.

Definition page_of (page limit : Z) : query_string :=
  mkQuery None None None None None None None None (Some page) (Some limit).

Definition sample_instant : datetime := 1705314600 * 1000000.

(* ===================================================================== *)
(** * Part II: properties                                                 *)
(* ===================================================================== *)

(** ** Runtime fragments evaluated on known values *)

Example isoformat_ex1 : isoformat (1705314600 * 1000000) = "2024-01-15T10:30:00".
Proof. vm_compute. reflexivity. Qed.
Example isoformat_ex2 : isoformat (951782399 * 1000000 + 123456) = "2000-02-28T23:59:59.123456".
Proof. vm_compute. reflexivity. Qed.
Example isoformat_ex3 : isoformat (-1) = "1969-12-31T23:59:59.999999".
Proof. vm_compute. reflexivity. Qed.
Example isoformat_ex4 : isoformat datetime_min = "0001-01-01T00:00:00".
Proof. vm_compute. reflexivity. Qed.
Example isoformat_ex5 : isoformat datetime_max = "9999-12-31T23:59:59.999999".
Proof. vm_compute. reflexivity. Qed.
Example isoformat_ex6 : isoformat (1709210096 * 1000000) = "2024-02-29T12:34:56".
Proof. vm_compute. reflexivity. Qed.
Example str_ex : str (VDateTime (1705314600 * 1000000)) = "2024-01-15 10:30:00" /\ str (VInt (-42)) = "-42" /\ drop_last3 (strftime_f (1705314600 * 1000000 + 123456)) = "2024-01-15T10:30:00.123".
Proof. vm_compute. auto. Qed.
Example int_ex : int_of_str " 12 " = Some 12 /\ int_of_str "-007" = Some (-7) /\ int_of_str "1_000" = Some 1000 /\ int_of_str "1__0" = None /\ int_of_str "_1" = None /\ int_of_str "1_" = None /\ int_of_str "" = None /\ int_of_str "+" = None /\ int_of_str "12a" = None /\ int_of_str "1 2" = None /\ int_of_str "HC01" = None.
Proof. vm_compute. repeat split. Qed.

(** [int] beyond ASCII digits: digits of other scripts and Unicode blanks
    are read, the separators 28..31 are not blanks to it. *)
Example int_unicode_ex :
  int_of_str "١٢٣" = Some 123
  /\ int_of_str "１２" = Some 12
  /\ int_of_str (String "194" (String "160" "12")) = Some 12
  /\ int_of_str (String "028" "12") = None
  /\ int_of_str (String "028" "١") = None
  /\ int_of_str "١٢a" = None
  /\ int_of_str (String "255" "12") = None.
Proof. vm_compute. repeat split. Qed.

Example fromtimestamp_ex :
  fromtimestamp 0 (VInt 253402300799) = Ret (253402300799 * 1000000)
  /\ fromtimestamp 0 (VInt 253402300800) = Raise ValueError
  /\ fromtimestamp 0 (VInt 67768036191676799) = Raise ValueError
  /\ fromtimestamp 0 (VInt 67768036191676800) = Raise OSError
  /\ fromtimestamp 25200 (VInt 67768036191676799) = Raise OSError
  /\ fromtimestamp 0 (VInt (-67768040609740800)) = Raise ValueError
  /\ fromtimestamp 0 (VInt (-67768040609740801)) = Raise OSError
  /\ fromtimestamp 0 (VInt (2 ^ 63 - 1)) = Raise OSError
  /\ fromtimestamp 0 (VInt (2 ^ 63)) = Raise OverflowError
  /\ fromtimestamp 0 (VStr "1700028800") = Raise TypeError.
Proof. vm_compute. repeat split. Qed.

Example strftime_year_ex :
  strftime_f (-30641662554999994) = "999-01-02T03:04:05.000006"
  /\ isoformat (-30641662554999994) = "0999-01-02T03:04:05.000006".
Proof. vm_compute. repeat split. Qed.

Example load_settings_from_environment :
  load_settings {["ACCESS_TOKEN_EXPIRE_HOURS" := "12"]}
  = Ret {| SECRET_KEY := SECRET_KEY default_settings; ALGORITHM := "HS256";
           ACCESS_TOKEN_EXPIRE_HOURS := 12 |}
  /\ load_settings ∅ = Ret default_settings
  /\ load_settings {["ACCESS_TOKEN_EXPIRE_HOURS" := "eight"]} = Raise ValueError.
Proof. vm_compute. auto. Qed.

(** ** Credential check *)

Section authentication.
Context {pwd_context : CryptContext}.

(** [authenticate_user] returns a user exactly when the name is registered
    and the password check returns [True]. *)
Lemma authenticate_user_returns_user (users : gmap string User) (u p : string) (usr : User) :
  authenticate_user users u p = Ret (Some usr) <->
  users !! u = Some usr /\ verify_password p (password_hash usr) = Ret true.
Proof.
  unfold authenticate_user, get_user.
  destruct (users !! u) as [usr'|] eqn:Hu; [|split; [discriminate | intros [? _]; discriminate]].
  destruct (verify_password p (password_hash usr')) as [[|]|e] eqn:Hv; simpl; split.
  - intros [= ->]. auto.
  - intros [[= ->] _]. reflexivity.
  - discriminate.
  - intros [[= ->] Hv']. congruence.
  - discriminate.
  - intros [[= ->] Hv']. congruence.
Qed.


(** An exception of the password check leaves [authenticate_user]. *)
Lemma authenticate_user_raises (users : gmap string User) (u p : string) (e : exn) :
  authenticate_user users u p = Raise e <->
  exists usr, users !! u = Some usr /\ verify_password p (password_hash usr) = Raise e.
Proof.
  unfold authenticate_user, get_user.
  destruct (users !! u) as [usr'|] eqn:Hu.
  - destruct (verify_password p (password_hash usr')) as [[|]|e'] eqn:Hv; simpl; split;
      try discriminate; try (intros (usr & [= <-] & ?); congruence).
    intros [= ->]. eauto.
  - split; [discriminate | intros (usr & ? & _); discriminate].
Qed.


(** C2.  [verify_password] has two strategies: against the legacy sentinel
    value the outcome is string equality of the supplied password with it;
    against any other stored value the outcome is that of the bcrypt
    comparison.  The pair "abc" / sentinel authenticates, and the login
    endpoint answers it with [Code = "1"]. *)
Theorem verify_password_two_strategies (plain_password hashed_password : string) :
  (hashed_password = "6504E4EF9274BDE48162B6F2BE0FDF0" ->
     verify_password plain_password hashed_password
     = Ret (bool_decide (plain_password = hashed_password)))
  /\ (hashed_password <> "6504E4EF9274BDE48162B6F2BE0FDF0" ->
     verify_password plain_password hashed_password
     = pwd_context_verify plain_password hashed_password)
  /\ authenticate_user USERS_DB "abc" "6504E4EF9274BDE48162B6F2BE0FDF0"
     = Ret (Some (mkUser "abc" "6504E4EF9274BDE48162B6F2BE0FDF0" (Some "Admin User") false))
  /\ (forall utcnow : datetime,
        in_datetime_range (utcnow + timedelta_hours 8) = true ->
        exists access_token,
          login default_settings USERS_DB utcnow
            (mkLoginRequest "abc" "6504E4EF9274BDE48162B6F2BE0FDF0")
          = Ret (LoginResponse access_token "1" "Login thành công" "8h")).
Proof.
  repeat split.
  - intros ->. unfold verify_password. simpl. f_equal.
    destruct (String.eqb_spec plain_password "6504E4EF9274BDE48162B6F2BE0FDF0") as [->|Hne].
    + reflexivity.
    + symmetry. apply bool_decide_eq_false. exact Hne.
  - intros Hne. unfold verify_password.
    destruct (String.eqb_spec hashed_password "6504E4EF9274BDE48162B6F2BE0FDF0");
      [contradiction | reflexivity].
  - intros utcnow Hrange. unfold login.
    replace (authenticate_user USERS_DB _ _) with
      (Ret (Some (mkUser "abc" "6504E4EF9274BDE48162B6F2BE0FDF0" (Some "Admin User") false)))
      by reflexivity.
    cbn [mbind result_bind username]. unfold create_access_token.
    change (ACCESS_TOKEN_EXPIRE_HOURS default_settings) with 8.
    replace (truthy_timedelta (Some (timedelta_hours 8))) with true by reflexivity.
    cbn [default from_option id]. unfold datetime_add. rewrite Hrange.
    cbn [mbind result_bind].
    eexists. reflexivity.
Qed.

End authentication.



Lemma verify_password_two_strategies_witness :
  verify_password (pwd_context := sample_context)
    "6504E4EF9274BDE48162B6F2BE0FDF0" "6504E4EF9274BDE48162B6F2BE0FDF0" = Ret true
  /\ verify_password (pwd_context := sample_context) "admin123" "admin123" = Raise UnknownHashError
  /\ exists access_token,
       login (pwd_context := sample_context) default_settings USERS_DB 1700000000250000
         (mkLoginRequest "abc" "6504E4EF9274BDE48162B6F2BE0FDF0")
       = Ret (LoginResponse access_token "1" "Login thành công" "8h").
Proof.
  pose proof (verify_password_two_strategies (pwd_context := sample_context)
                "6504E4EF9274BDE48162B6F2BE0FDF0" "6504E4EF9274BDE48162B6F2BE0FDF0")
    as (Hlegacy & _ & _ & Hlogin).
  pose proof (verify_password_two_strategies (pwd_context := sample_context) "admin123" "admin123")
    as (_ & Hbcrypt & _).
  split; [exact (Hlegacy eq_refl)|].
  split; [apply Hbcrypt; discriminate|].
  apply Hlogin. reflexivity.
Defined.

Example login_wrong_password :
  login (pwd_context := sample_context) default_settings USERS_DB 1700000000250000
    (mkLoginRequest "abc" "wrong")
  = Ret (LoginRefused 401 "0" "Tên đăng nhập hoặc mật khẩu không đúng").
Proof. vm_compute. reflexivity. Qed.

Example login_unknown_user :
  login (pwd_context := sample_context) default_settings USERS_DB 1700000000250000
    (mkLoginRequest "invalid_user" "wrong_password")
  = Ret (LoginRefused 401 "0" "Tên đăng nhập hoặc mật khẩu không đúng").
Proof. vm_compute. reflexivity. Qed.

(** ** Tokens *)

Lemma validate_issued_claims (u : string) (exp now : Z) :
  Jose.validate_claims (issued_claims u exp) now
  = if exp <? now then Raise JWTError else Ret tt.
Proof.
  unfold issued_claims, Jose.validate_claims, Jose.validate_iat, Jose.validate_nbf,
    Jose.validate_exp, Jose.validate_aud, Jose.validate_str, Jose.validate_at_hash.
  simplify_map_eq. destruct (exp <? now); reflexivity.
Qed.

Lemma decode_own_token (cfg : settings) (claims : gmap string value) (now : Z) :
  Jose.hmac_algorithm (ALGORITHM cfg) = true ->
  Jose.decode (Jose.Compact (ALGORITHM cfg) (Some (SECRET_KEY cfg)) (Jose.PayloadObject claims))
    (SECRET_KEY cfg) [ALGORITHM cfg] now
  = (Jose.validate_claims claims now ≫= fun _ => Ret claims).
Proof.
  intros Halg. unfold Jose.decode. cbn [existsb].
  rewrite String.eqb_refl, Halg, String.eqb_refl. reflexivity.
Qed.

Lemma intdate_datetime (m : gmap string value) (k : string) (d : datetime) :
  Jose.intdate (<[k := VDateTime d]> m) k = <[k := VInt (timegm d)]> m.
Proof. unfold Jose.intdate. rewrite lookup_insert_eq. apply insert_insert_eq. Qed.

Lemma intdate_absent (m : gmap string value) (k : string) :
  m !! k = None -> Jose.intdate m k = m.
Proof. unfold Jose.intdate. intros ->. reflexivity. Qed.

(** The token issued for [u]: its expiry claim is the issue time plus the
    time to live, in whole seconds. *)
Lemma create_access_token_issues (cfg : settings) (issued : datetime) (u : string)
  (ttl : option timedelta) :
  let delta := if truthy_timedelta ttl then default 0 ttl
               else timedelta_hours (ACCESS_TOKEN_EXPIRE_HOURS cfg) in
  Jose.hmac_algorithm (ALGORITHM cfg) = true ->
  in_datetime_range (issued + delta) = true ->
  create_access_token cfg issued {["sub" := VStr u]} ttl
  = Ret (Jose.Compact (ALGORITHM cfg) (Some (SECRET_KEY cfg))
           (Jose.PayloadObject (issued_claims u (timegm (issued + delta))))).
Proof.
  intros delta Halg Hrange. unfold create_access_token.
  assert (Hadd : (if truthy_timedelta ttl
          then datetime_add issued (default 0 ttl)
          else datetime_add issued (timedelta_hours (ACCESS_TOKEN_EXPIRE_HOURS cfg)))
          = Ret (issued + delta)).
  { subst delta. unfold datetime_add in *.
    destruct (truthy_timedelta ttl); rewrite Hrange; reflexivity. }
  rewrite Hadd. cbn [mbind result_bind]. unfold Jose.encode.
  rewrite Halg. cbn [negb].
  rewrite intdate_datetime. rewrite !intdate_absent by (by simplify_map_eq).
  fold (issued_claims u (timegm (issued + delta))).
  rewrite bool_decide_eq_true_2; [reflexivity|].
  apply map_Forall_insert_2; [reflexivity|]. apply map_Forall_singleton. reflexivity.
Qed.

(** A zero time to live is replaced by the configured default, like an
    absent one. *)
Lemma create_access_token_zero_ttl (cfg : settings) (issued : datetime)
  (data : gmap string value) :
  create_access_token cfg issued data (Some 0) = create_access_token cfg issued data None.
Proof. reflexivity. Qed.

(** Verification of an issued token: refused once the clock second is past
    the expiry second. *)
Lemma verify_issued_token (cfg : settings) (utcoffset : Z) (now : datetime) (u : string) (exp : Z) :
  Jose.hmac_algorithm (ALGORITHM cfg) = true ->
  in_datetime_range ((exp + utcoffset) * 1000000) = true ->
  verify_token cfg utcoffset now
    (Jose.Compact (ALGORITHM cfg) (Some (SECRET_KEY cfg)) (Jose.PayloadObject (issued_claims u exp)))
  = if exp <? timegm now then Ret None
    else Ret (Some (mkTokenData (Some u) (Some ((exp + utcoffset) * 1000000)))).
Proof.
  intros Halg Hrange. unfold verify_token.
  rewrite decode_own_token by assumption. rewrite validate_issued_claims.
  destruct (exp <? timegm now); [reflexivity|].
  cbn [mbind result_bind]. unfold dict_get, issued_claims. simplify_map_eq.
  unfold fromtimestamp. rewrite Hrange. reflexivity.
Qed.

(** Tokens that [jwt.decode] refuses for their form, algorithm, signature
    or payload are answered [None]. *)
Lemma verify_token_refuses (cfg : settings) (utcoffset : Z) (now : datetime) (token : Jose.token) :
  token = Jose.NotCompact
  \/ (exists alg key body,
        token = Jose.Compact alg key body /\
        (alg <> ALGORITHM cfg \/ key <> Some (SECRET_KEY cfg) \/ body = Jose.PayloadInvalid)) ->
  verify_token cfg utcoffset now token = Ret None.
Proof.
  intros [->|(alg & key & body & -> & Hbad)]; [reflexivity|].
  unfold verify_token, Jose.decode. cbn [existsb].
  destruct (String.eqb_spec alg (ALGORITHM cfg)) as [->|Halg]; cbn [orb negb]; [|reflexivity].
  destruct (Jose.hmac_algorithm (ALGORITHM cfg)); cbn [negb]; [|reflexivity].
  destruct key as [k|]; [|reflexivity].
  destruct (String.eqb_spec k (SECRET_KEY cfg)) as [->|Hk]; cbn [negb]; [|reflexivity].
  destruct Hbad as [?|[?| ->]]; [congruence | congruence | reflexivity].
Qed.

(** A token without subject is answered [None] when its [exp] converts. *)
Lemma verify_token_without_subject (cfg : settings) (utcoffset : Z) (now : datetime) (exp : Z) :
  Jose.hmac_algorithm (ALGORITHM cfg) = true ->
  in_datetime_range ((exp + utcoffset) * 1000000) = true ->
  verify_token cfg utcoffset now
    (Jose.Compact (ALGORITHM cfg) (Some (SECRET_KEY cfg))
       (Jose.PayloadObject {["exp" := VInt exp]}))
  = Ret None.
Proof.
  intros Halg Hrange. unfold verify_token. rewrite decode_own_token by assumption.
  unfold Jose.validate_claims, Jose.validate_iat, Jose.validate_nbf,
    Jose.validate_exp, Jose.validate_aud, Jose.validate_str, Jose.validate_at_hash.
  simplify_map_eq. destruct (exp <? timegm now); [reflexivity|].
  cbn [mbind result_bind]. unfold dict_get. simplify_map_eq.
  unfold fromtimestamp. rewrite Hrange. reflexivity.
Qed.

(** With no ["exp"] in an accepted payload, [datetime.fromtimestamp(None)]
    raises before [username] is looked at. *)
Lemma verify_token_exp_absent (cfg : settings) (utcoffset : Z) (now : datetime)
  (claims : gmap string value) :
  Jose.hmac_algorithm (ALGORITHM cfg) = true ->
  claims !! "exp" = None ->
  Jose.validate_claims claims (timegm now) = Ret tt ->
  verify_token cfg utcoffset now
    (Jose.Compact (ALGORITHM cfg) (Some (SECRET_KEY cfg)) (Jose.PayloadObject claims))
  = Raise TypeError.
Proof.
  intros Halg Hexp Hvalid. unfold verify_token.
  rewrite decode_own_token by assumption. rewrite Hvalid.
  cbn [mbind result_bind]. unfold dict_get. rewrite Hexp. reflexivity.
Qed.

(** X18. A successful login hands out a token that verifies, before its
    expiry, to the user name that logged in; the answer carries code "1"
    and the configured number of hours. *)
Lemma login_token_verifies {pwd_context : CryptContext} (cfg : settings)
  (users : gmap string User) (utcoffset : Z) (issued now : datetime)
  (request : LoginRequest) (user : User) :
  let delta := timedelta_hours (ACCESS_TOKEN_EXPIRE_HOURS cfg) in
  let exp := timegm (issued + delta) in
  Jose.hmac_algorithm (ALGORITHM cfg) = true ->
  authenticate_user users (Username request) (Password request) = Ret (Some user) ->
  in_datetime_range (issued + delta) = true ->
  in_datetime_range ((exp + utcoffset) * 1000000) = true ->
  now < issued + delta ->
  exists access_token,
    login cfg users issued request
    = Ret (LoginResponse access_token "1" "Login thành công"
             (str_of_Z (ACCESS_TOKEN_EXPIRE_HOURS cfg) +:+ "h"))
    /\ verify_token cfg utcoffset now access_token
       = Ret (Some (mkTokenData (Some (username user)) (Some ((exp + utcoffset) * 1000000)))).
Proof.
  intros delta exp Halg Hauth Hrange Hlocal Hnow.
  pose proof (create_access_token_issues cfg issued (username user) (Some delta)) as Hissue.
  cbv zeta in Hissue.
  assert (Hd : @eq Z (if truthy_timedelta (Some delta) then default 0 (Some delta)
                      else timedelta_hours (ACCESS_TOKEN_EXPIRE_HOURS cfg)) delta).
  { destruct (truthy_timedelta (Some delta)); reflexivity. }
  rewrite Hd in Hissue. specialize (Hissue Halg Hrange).
  eexists. split.
  - unfold login. rewrite Hauth. cbn [mbind result_bind]. fold delta.
    rewrite Hissue. reflexivity.
  - rewrite verify_issued_token by assumption. fold exp.
    replace (exp <? timegm now) with false; [reflexivity|].
    symmetry. apply Z.ltb_ge. subst exp. unfold timegm. apply Z.div_le_mono; lia.
Qed.

Lemma login_token_verifies_witness :
  exists access_token,
    login (pwd_context := sample_context) default_settings USERS_DB 1700000000250000
      (mkLoginRequest "abc" "6504E4EF9274BDE48162B6F2BE0FDF0")
    = Ret (LoginResponse access_token "1" "Login thành công" "8h")
    /\ verify_token default_settings 25200 1700000001250000 access_token
       = Ret (Some (mkTokenData (Some "abc") (Some ((1700028800 + 25200) * 1000000)))).
Proof.
  apply (login_token_verifies (pwd_context := sample_context) default_settings USERS_DB
           25200 1700000000250000 1700000001250000
           (mkLoginRequest "abc" "6504E4EF9274BDE48162B6F2BE0FDF0")
           (mkUser "abc" "6504E4EF9274BDE48162B6F2BE0FDF0" (Some "Admin User") false));
    reflexivity.
Defined.

Example get_current_user_expired :
  get_current_user default_settings 0 (1700000001 * 1000000)
    (Jose.Compact "HS256" (Some (SECRET_KEY default_settings))
       (Jose.PayloadObject (issued_claims "abc" 1700000000)))
  = Ret (inl 401).
Proof. vm_compute. reflexivity. Qed.

(** C3.  The claim asks that [verify_token] return [None] whenever the
    subject is missing and whenever the clock is at the expiry.  Evaluated on
    the code: a correctly signed token with an empty payload (no subject, no
    expiry) raises [TypeError] instead of returning [None], and a token whose
    ["exp"] is the current clock second is still accepted. *)
Theorem verify_token_departs_from_failure_rule :
  (forall (utcoffset : Z) (now : datetime),
     verify_token default_settings utcoffset now
       (Jose.Compact "HS256" (Some (SECRET_KEY default_settings)) (Jose.PayloadObject ∅))
     = Raise TypeError)
  /\ verify_token default_settings 0 (1700000000 * 1000000)
       (Jose.Compact "HS256" (Some (SECRET_KEY default_settings))
          (Jose.PayloadObject (<["exp" := VInt 1700000000]> {["sub" := VStr "abc"]})))
     = Ret (Some (mkTokenData (Some "abc") (Some (1700000000 * 1000000)))).
Proof.
  split.
  - intros utcoffset now.
    apply (verify_token_exp_absent default_settings utcoffset now ∅); reflexivity.
  - vm_compute. reflexivity.
Qed.

(** C4, as the code has it.  For a subject [u] and a time to live that is
    absent or not zero, the token issued at [issued] and verified at any
    [now] before [issued + ttl] yields subject [u]; its expiry is
    [issued + ttl] cut to whole seconds and read as server-local time.  An
    absent time to live is [ACCESS_TOKEN_EXPIRE_HOURS] hours, 8 when the
    environment does not set it. *)
Theorem issue_then_verify_roundtrip (cfg : settings) (utcoffset : Z) (u : string)
  (ttl : option timedelta) (issued now : datetime) :
  let delta := default (timedelta_hours (ACCESS_TOKEN_EXPIRE_HOURS cfg)) ttl in
  let exp := timegm (issued + delta) in
  Jose.hmac_algorithm (ALGORITHM cfg) = true ->
  ttl <> Some 0 ->
  in_datetime_range (issued + delta) = true ->
  in_datetime_range ((exp + utcoffset) * 1000000) = true ->
  now < issued + delta ->
  (exists tok,
     create_access_token cfg issued {["sub" := VStr u]} ttl = Ret tok /\
     verify_token cfg utcoffset now tok
     = Ret (Some (mkTokenData (Some u) (Some ((exp + utcoffset) * 1000000)))))
  /\ load_settings ∅ = Ret default_settings
  /\ ACCESS_TOKEN_EXPIRE_HOURS default_settings = 8.
Proof.
  intros delta exp Halg Httl Hrange Hlocal Hnow. split; [|split; reflexivity].
  assert (Hdelta : @eq Z delta (if truthy_timedelta ttl then default 0 ttl
               else timedelta_hours (ACCESS_TOKEN_EXPIRE_HOURS cfg))).
  { subst delta. destruct ttl as [d|]; [|reflexivity]. cbn.
    destruct (Z.eqb_spec d 0) as [->|]; [exfalso; apply Httl; reflexivity | reflexivity]. }
  pose proof (create_access_token_issues cfg issued u ttl) as Hissue.
  cbv zeta in Hissue. rewrite <- Hdelta in Hissue.
  eexists. split; [exact (Hissue Halg Hrange)|].
  rewrite verify_issued_token by assumption.
  fold exp. replace (exp <? timegm now) with false; [reflexivity|].
  symmetry. apply Z.ltb_ge. subst exp. unfold timegm.
  apply Z.div_le_mono; lia.
Qed.

Lemma issue_then_verify_roundtrip_witness :
  exists tok,
     create_access_token default_settings 1700000000250000 {["sub" := VStr "abc"]} None
     = Ret tok /\
     verify_token default_settings 25200 1700000001250000 tok
     = Ret (Some (mkTokenData (Some "abc") (Some ((1700028800 + 25200) * 1000000)))).
Proof.
  apply (issue_then_verify_roundtrip default_settings 25200 "abc" None
           1700000000250000 1700000001250000); try reflexivity; congruence.
Defined.

(** C4 as stated fails: a token issued a quarter of a second past a whole
    second, for eight hours, and verified one second later on a server in
    UTC, decodes to an expiry that is not the issue time plus eight hours. *)
Lemma roundtrip_expiry_is_not_issue_plus_ttl :
  let issued := 1700000000250000 in
  let ttl := timedelta_hours 8 in
  let now := issued + 1000000 in
  let tok := Jose.Compact "HS256" (Some (SECRET_KEY default_settings))
               (Jose.PayloadObject (issued_claims "abc" 1700028800)) in
  create_access_token default_settings issued {["sub" := VStr "abc"]} (Some ttl) = Ret tok /\
  now < issued + ttl /\
  verify_token default_settings 0 now tok
  = Ret (Some (mkTokenData (Some "abc") (Some 1700028800000000))) /\
  1700028800000000 <> issued + ttl.
Proof.
  cbv zeta. split; [|split; [|split]].
  - vm_compute. reflexivity.
  - reflexivity.
  - vm_compute. reflexivity.
  - vm_compute. congruence.
Qed.

(** C10.  A token signed with the configured secret whose accepted payload
    has no ["exp"] makes [verify_token] raise [TypeError]; it does not return
    [None]. *)
Theorem verify_token_raises_without_exp (cfg : settings) (utcoffset : Z) (now : datetime)
  (claims : gmap string value) :
  Jose.hmac_algorithm (ALGORITHM cfg) = true ->
  claims !! "exp" = None ->
  Jose.validate_claims claims (timegm now) = Ret tt ->
  verify_token cfg utcoffset now
    (Jose.Compact (ALGORITHM cfg) (Some (SECRET_KEY cfg)) (Jose.PayloadObject claims))
  = Raise TypeError
  /\ verify_token cfg utcoffset now
       (Jose.Compact (ALGORITHM cfg) (Some (SECRET_KEY cfg)) (Jose.PayloadObject claims))
     <> Ret None.
Proof.
  intros Halg Hexp Hvalid.
  rewrite (verify_token_exp_absent cfg utcoffset now claims Halg Hexp Hvalid).
  split; [reflexivity | discriminate].
Qed.

Lemma verify_token_raises_without_exp_witness :
  verify_token default_settings 0 1700000000000000
    (Jose.Compact "HS256" (Some (SECRET_KEY default_settings))
       (Jose.PayloadObject {["sub" := VStr "abc"]}))
  = Raise TypeError.
Proof.
  apply (verify_token_raises_without_exp default_settings 0 1700000000000000
           {["sub" := VStr "abc"]}); reflexivity.
Defined.

(** ** The parser of [int] against its grammar *)

Lemma underscore_is_no_digit : is_digit "_" = false.
Proof. reflexivity. Qed.

Lemma parse_digits_tail (s : list ascii) (acc n : Z) :
  parse_digits acc true s = Some n <-> digits_tail acc s n.
Proof.
  remember (length s) as k eqn:Hk. revert s acc Hk.
  induction k as [k IH] using lt_wf_ind. intros s acc ->.
  destruct s as [|c s].
  - cbn. split.
    + intros [= <-]. constructor.
    + intros H. inversion H. reflexivity.
  - cbn [parse_digits]. destruct (is_digit c) eqn:Hc.
    + rewrite (IH (length s)) by (cbn; lia || reflexivity). split.
      * intros H. apply tail_digit; assumption.
      * intros H. inversion H as [|? ? ? ? _ Ht|? ? ? ? _ Ht]; subst; [exact Ht|].
        rewrite underscore_is_no_digit in Hc. discriminate.
    + destruct (Ascii.eqb_spec c "_") as [->|Hne].
      * destruct s as [|d s].
        -- cbn. split; [discriminate|]. intros H. inversion H; subst; congruence.
        -- cbn [parse_digits]. destruct (is_digit d) eqn:Hd.
           ++ rewrite (IH (length s)) by (cbn; lia || reflexivity). split.
              ** intros H. apply tail_group; assumption.
              ** intros H. inversion H as [|? ? ? ? Hx Ht|? ? ? ? _ Ht]; subst;
                   [discriminate | exact Ht].
           ++ split.
              ** destruct (Ascii.eqb d "_"); discriminate.
              ** intros H. inversion H; subst; congruence.
      * split; [discriminate|]. intros H. inversion H; subst; congruence.
Qed.

Lemma parse_digits_start (s : list ascii) (acc n : Z) :
  parse_digits acc false s = Some n <->
  exists c r, s = c :: r /\ is_digit c = true /\ digits_tail (acc * 10 + digit_value c) r n.
Proof.
  destruct s as [|c r]; cbn [parse_digits].
  - split; [discriminate | intros (? & ? & ? & _); discriminate].
  - destruct (is_digit c) eqn:Hc.
    + rewrite parse_digits_tail. split; [eauto|].
      intros (c' & r' & [= <- <-] & _ & H). exact H.
    + split.
      * destruct (Ascii.eqb c "_"); discriminate.
      * intros (c' & r' & [= <- <-] & Hc' & _). congruence.
Qed.

Lemma digits_tail_snoc (acc : Z) (s : list ascii) (n : Z) (c : ascii) :
  digits_tail acc s n -> is_digit c = true ->
  digits_tail acc (s ++ [c]) (n * 10 + digit_value c)
  /\ digits_tail acc (s ++ ["_"%char; c]) (n * 10 + digit_value c).
Proof.
  intros Ht Hc. induction Ht as [acc|acc d s n Hd Ht IH|acc d s n Hd Ht IH].
  - split; cbn [app].
    + apply tail_digit; [exact Hc | constructor].
    + apply tail_group; [exact Hc | constructor].
  - destruct IH as [IH1 IH2]. split; cbn [app]; apply tail_digit; assumption.
  - destruct IH as [IH1 IH2]. split; cbn [app]; apply tail_group; assumption.
Qed.

Lemma digit_groups_tail (s : list ascii) (n : Z) :
  digit_groups s n ->
  exists c r, s = c :: r /\ is_digit c = true /\ digits_tail (digit_value c) r n.
Proof.
  induction 1 as [c Hc|s n c _ (d & r & -> & Hd & Ht) Hc|s n c _ (d & r & -> & Hd & Ht) Hc].
  - exists c, []. repeat split; [exact Hc | constructor].
  - exists d, (r ++ [c])%list. repeat split; [exact Hd|].
    apply digits_tail_snoc; assumption.
  - exists d, (r ++ ["_"%char; c])%list. repeat split; [exact Hd|].
    apply digits_tail_snoc; assumption.
Qed.

Lemma tail_digit_groups (s0 : list ascii) (n0 : Z) (r : list ascii) (n : Z) :
  digit_groups s0 n0 -> digits_tail n0 r n -> digit_groups (s0 ++ r) n.
Proof.
  intros Hs Ht. revert s0 Hs.
  induction Ht as [acc|acc d s n Hd Ht IH|acc d s n Hd Ht IH]; intros s0 Hs.
  - rewrite app_nil_r. exact Hs.
  - replace (s0 ++ d :: s)%list with ((s0 ++ [d]) ++ s)%list
      by (rewrite <- app_assoc; reflexivity).
    apply IH. apply next_digit; assumption.
  - replace (s0 ++ "_"%char :: d :: s)%list with ((s0 ++ ["_"%char; d]) ++ s)%list
      by (rewrite <- app_assoc; reflexivity).
    apply IH. apply next_group; assumption.
Qed.

(** [parse_digits], started before the first digit, reads exactly the
    digit groups. *)
Lemma parse_digits_groups (s : list ascii) (n : Z) :
  parse_digits 0 false s = Some n <-> digit_groups s n.
Proof.
  rewrite parse_digits_start. split.
  - intros (c & r & -> & Hc & Ht). cbn in Ht.
    apply (tail_digit_groups [c] (digit_value c) r n); [constructor; exact Hc | exact Ht].
  - intros Hs. destruct (digit_groups_tail s n Hs) as (c & r & -> & Hc & Ht).
    exists c, r. repeat split; [exact Hc | exact Ht].
Qed.

Lemma digit_groups_first (s : list ascii) (n : Z) :
  digit_groups s n -> exists c r, s = c :: r /\ is_digit c = true.
Proof.
  intros Hs. destruct (digit_groups_tail s n Hs) as (c & r & -> & Hc & _). eauto.
Qed.

Lemma digit_groups_last (s : list ascii) (n : Z) :
  digit_groups s n -> exists r c, s = (r ++ [c])%list /\ is_digit c = true.
Proof.
  destruct 1 as [c Hc|s n c _ Hc|s n c _ Hc].
  - exists [], c. auto.
  - exists s, c. auto.
  - exists (s ++ ["_"%char])%list, c. rewrite <- app_assoc. auto.
Qed.

Lemma digit_is_no_sign (c : ascii) :
  is_digit c = true -> Ascii.eqb c "-" = false /\ Ascii.eqb c "+" = false.
Proof.
  intros Hd. split.
  - destruct (Ascii.eqb_spec c "-") as [->|]; [discriminate | reflexivity].
  - destruct (Ascii.eqb_spec c "+") as [->|]; [discriminate | reflexivity].
Qed.

Lemma parse_signed_literal (s : list ascii) (n : Z) :
  parse_signed s = Some n <-> signed_literal s n.
Proof.
  unfold parse_signed. destruct s as [|c r].
  - split; [discriminate|]. intros H.
    inversion H as [? ? Hg|? ? Hg|? ? Hg]; subst.
    destruct (digit_groups_first _ _ Hg) as (? & ? & ? & _). discriminate.
  - destruct (Ascii.eqb_spec c "-") as [->|Hminus].
    + split.
      * destruct (parse_digits 0 false r) as [m|] eqn:Hm; [|discriminate].
        intros [= <-]. apply minus_signed, parse_digits_groups, Hm.
      * intros H. inversion H as [? ? Hg|? ? Hg|? ? Hg]; subst.
        -- destruct (digit_groups_first _ _ Hg) as (? & ? & [= <- <-] & ?). discriminate.
        -- apply parse_digits_groups in Hg. rewrite Hg. reflexivity.
    + destruct (Ascii.eqb_spec c "+") as [->|Hplus].
      * rewrite parse_digits_groups. split.
        -- apply plus_signed.
        -- intros H. inversion H as [? ? Hg|? ? Hg|? ? Hg]; subst; [|exact Hg].
           destruct (digit_groups_first _ _ Hg) as (? & ? & [= <- <-] & ?). discriminate.
      * rewrite parse_digits_groups. split.
        -- apply unsigned.
        -- intros H. inversion H as [? ? Hg|? ? Hg|? ? Hg]; subst;
             [exact Hg | congruence | congruence].
Qed.

(** A literal neither begins nor ends with a blank. *)
Lemma signed_literal_ends (s : list ascii) (n : Z) :
  signed_literal s n ->
  (exists c r, s = c :: r /\ is_space c = false)
  /\ (exists r c, s = (r ++ [c])%list /\ is_space c = false).
Proof.
  assert (Hds : forall c, is_digit c = true -> is_space c = false).
  { intros c. unfold is_digit, is_space. cbv zeta. lia. }
  intros H. inversion H as [? ? Hg|? ? Hg|? ? Hg]; subst;
    destruct (digit_groups_first _ _ Hg) as (c & r & -> & Hc);
    destruct (digit_groups_last _ _ Hg) as (r' & c' & Hr & Hc'); split.
  - exists c, r. auto.
  - exists r', c'. auto.
  - exists "+"%char, (c :: r). auto.
  - exists ("+"%char :: r'), c'. rewrite Hr. auto.
  - exists "-"%char, (c :: r). auto.
  - exists ("-"%char :: r'), c'. rewrite Hr. auto.
Qed.

Lemma lstrip_blanks (before rest : list ascii) :
  Forall (fun c => is_space c = true) before -> lstrip (before ++ rest) = lstrip rest.
Proof.
  induction 1 as [|c before Hc _ IH]; [reflexivity|].
  cbn [app lstrip]. rewrite Hc. exact IH.
Qed.

Lemma lstrip_split (s : list ascii) :
  exists before, s = (before ++ lstrip s)%list /\ Forall (fun c => is_space c = true) before.
Proof.
  induction s as [|c s (before & Hs & Hb)].
  - exists []. auto.
  - cbn [lstrip]. destruct (is_space c) eqn:Hc.
    + exists (c :: before). split; [cbn; congruence | constructor; assumption].
    + exists []. auto.
Qed.

Lemma strip_split (s : list ascii) :
  exists before after,
    s = (before ++ strip s ++ after)%list
    /\ Forall (fun c => is_space c = true) before
    /\ Forall (fun c => is_space c = true) after.
Proof.
  unfold strip.
  destruct (lstrip_split s) as (before & Hs & Hb).
  destruct (lstrip_split (rev (lstrip s))) as (after & Hr & Ha).
  exists before, (rev after). split; [|split; [exact Hb|]].
  - rewrite Hs at 1. f_equal.
    rewrite <- rev_app_distr, <- Hr. symmetry. apply rev_involutive.
  - apply Forall_forall. intros c Hc. apply list_elem_of_In, in_rev, list_elem_of_In in Hc.
    exact (proj1 (Forall_forall _ _) Ha c Hc).
Qed.

Lemma strip_literal (before body after : list ascii) :
  Forall (fun c => is_space c = true) before ->
  Forall (fun c => is_space c = true) after ->
  (exists c r, body = c :: r /\ is_space c = false) ->
  (exists r c, body = (r ++ [c])%list /\ is_space c = false) ->
  strip (before ++ body ++ after) = body.
Proof.
  intros Hb Ha (c & r & Hfirst & Hc) (r' & c' & Hlast & Hc').
  unfold strip. rewrite lstrip_blanks by exact Hb.
  assert (H1 : lstrip (body ++ after) = (body ++ after)%list).
  { rewrite Hfirst. cbn [app lstrip]. rewrite Hc. reflexivity. }
  rewrite H1, rev_app_distr.
  rewrite lstrip_blanks.
  - assert (H2 : lstrip (rev body) = rev body).
    { rewrite Hlast, rev_app_distr. cbn [rev app lstrip]. rewrite Hc'. reflexivity. }
    rewrite H2. apply rev_involutive.
  - apply Forall_forall. intros x Hx. apply list_elem_of_In, in_rev, list_elem_of_In in Hx.
    exact (proj1 (Forall_forall _ _) Ha x Hx).
Qed.

(** [PyLong_FromString] reads exactly the integer texts. *)
Lemma long_from_string_integer_text (buffer : list ascii) (n : Z) :
  long_from_string buffer = Some n <-> integer_text buffer n.
Proof.
  unfold long_from_string, integer_text. cbv zeta. split.
  - destruct (Z.ltb_spec int_max_str_digits (count_digits (strip buffer))) as [|Hlen];
      [discriminate|].
    intros Hp. apply parse_signed_literal in Hp.
    destruct (strip_split buffer) as (before & after & Hs & Hb & Ha).
    exists before, (strip buffer), after. auto.
  - intros (before & body & after & -> & Hb & Ha & Hlit & Hlen).
    destruct (signed_literal_ends body n Hlit) as [Hfirst Hlast].
    rewrite (strip_literal before body after Hb Ha Hfirst Hlast).
    replace (int_max_str_digits <? count_digits body) with false by lia.
    apply parse_signed_literal, Hlit.
Qed.

(** An integer text has one value. *)
Lemma integer_text_functional (buffer : list ascii) (n m : Z) :
  integer_text buffer n -> integer_text buffer m -> n = m.
Proof.
  intros Hn Hm. apply long_from_string_integer_text in Hn, Hm. congruence.
Qed.

Lemma int_of_str_reads (s : string) (n : Z) :
  int_of_str s = Some n <-> reads_as_integer s n.
Proof.
  unfold int_of_str, reads_as_integer. destruct (code_points s) as [cps|].
  - rewrite long_from_string_integer_text. split; [eauto|].
    intros (cps' & [= <-] & H). exact H.
  - split; [discriminate | intros (? & ? & _); discriminate].
Qed.

(** ** Query gateway *)

(** [map_rows] returns exactly when every row maps, item by item in order. *)
Lemma map_rows_Forall2 {D : Type} (make : gmap string value -> result D)
  (results : list (gmap string value)) (items : list D) :
  map_rows make results = Ret items <->
  Forall2 (fun row item => make row = Ret item) results items.
Proof.
  revert items. induction results as [|row rest IH]; intros items; cbn [map_rows].
  - split.
    + intros [= <-]. constructor.
    + intros Hall. inversion Hall. reflexivity.
  - destruct (make row) as [item|e] eqn:Hrow; cbn [mbind result_bind].
    + destruct (map_rows make rest) as [items'|e] eqn:Hrest; cbn [mbind result_bind].
      * split.
        -- intros [= <-]. constructor; [exact Hrow | apply IH; reflexivity].
        -- intros Hall. inversion Hall as [|? item0 ? items0 Hhead Htail]; subst.
           apply IH in Htail. congruence.
      * split; [discriminate|].
        intros Hall. inversion Hall as [|? item0 ? items0 Hhead Htail]; subst.
        apply IH in Htail. discriminate.
    + split; [discriminate|].
      intros Hall. inversion Hall; subst. congruence.
Qed.


Section gateway.
Context {driver : Driver} {schemas : Schemas}.

Lemma with_page_limit_rejects {D : Type} (default_limit : Z) (q : query_string)
  (handler : Z -> Z -> outcome D) :
  bad_pagination q ->
  with_page_limit default_limit q handler = mkOutcome [] RequestValidationError.
Proof.
  unfold with_page_limit, FastAPI.Query.
  intros [(limit & -> & Hl)|(page & -> & Hp)].
  - cbn [from_option].
    replace ((1 <=? limit) && (limit <=? 100)) with false by (symmetry; apply andb_false_iff; lia).
    destruct (q_page q) as [p|]; [destruct (_ && _)|]; reflexivity.
  - cbn [from_option]. replace (1 <=? page) with false by lia. reflexivity.
Qed.

(** Goals about the text of a statement are settled by evaluation, once the
    presence of each optional filter is decided. *)
Ltac decide_filters :=
  repeat match goal with
         | |- context [truthy_str ?o] => destruct (truthy_str o)
         | |- context [truthy_int ?o] => destruct (truthy_int o)
         end.

Ltac by_statement_text :=
  split; [reflexivity | decide_filters; vm_compute; reflexivity].

(** Every list route either refuses the request before the handler runs,
    or runs one statement on its table, scoped to active rows, and maps the
    rows with its response model. *)
Lemma list_route_cases (e : list_endpoint) (q : query_string) :
  list_route e q = mkOutcome [] RequestValidationError
  \/ exists sql params,
       list_route e q = respond_list sql params (row_model e)
       /\ active_rows_of (list_table e) sql = true.
Proof.
  destruct e; cbn [list_route row_model list_table];
    try (unfold with_page_limit;
         destruct (FastAPI.Query 1 (Some 1) None (q_page q)) as [page|];
         [destruct (FastAPI.Query _ (Some 1) (Some 100) (q_limit q)) as [limit|]|];
         [|left; reflexivity|left; reflexivity]);
    right.
  - unfold get_customers. eexists _, _. by_statement_text.
  - unfold get_cargo_categories. eexists _, _. by_statement_text.
  - unfold get_cargo_types. eexists _, _. by_statement_text.
  - unfold get_handling_methods. eexists _, _. by_statement_text.
  - unfold get_classes. eexists _, _. by_statement_text.
  - unfold get_ships. eexists _, _. by_statement_text.
  - unfold get_bulk_gate_volumes. eexists _, _. by_statement_text.
  - unfold get_bulk_quay_volumes. eexists _, _. by_statement_text.
  - unfold get_container_quay_volumes. eexists _, _. by_statement_text.
Qed.

(** Every by-id route runs one statement on its table, scoped to active
    rows. *)
Lemma item_route_cases (e : item_endpoint) (q : query_string) :
  exists sql params make not_found,
    item_route e q = respond_single sql params make not_found
    /\ active_rows_of (item_table e) sql = true.
Proof.
  destruct e; cbn [item_route item_table];
    try (eexists _, _, _, _; by_statement_text).
  unfold get_cargo_type_by_id. destruct (int_of_str cargo_type_id);
    eexists _, _, _, _; by_statement_text.
Qed.

Lemma respond_list_executed {D : Type} (sql : string) (params : list value)
  (make : gmap string value -> result D) :
  executed (respond_list sql params make) = [(sql, params)].
Proof. reflexivity. Qed.


(** C5, as the code has it.  On the eight list routes that declare [page]
    and [limit], a supplied [limit] outside 1..100 or a supplied [page]
    below 1 is answered with the validation error and no statement is
    executed. *)
Theorem paginated_routes_reject_bad_pagination (e : list_endpoint) (q : query_string) :
  e <> Customers ->
  bad_pagination q ->
  list_route e q = mkOutcome [] RequestValidationError.
Proof.
  intros He Hbad.
  destruct e; cbn [list_route]; try congruence; apply with_page_limit_rejects, Hbad.
Qed.

(** C7.  The cargo-type lookup sends one statement, chosen by whether the
    id reads as an integer: blanks, an optional sign and groups of decimal
    digits joined by single underscores (digits of any script and Unicode
    blanks count, as [int] has it).  When it does, the statement is the one
    on [cargoGroupId] with the integer as argument, and that statement does
    not compare [cargoGroupCode]; when it does not, it is the statement on
    [cargoGroupCode] with the id text as argument.  One of the two holds of
    every id. *)
Theorem cargo_type_lookup_follows_id_shape (cargo_type_id : string)
  (companyId : option string) :
  (forall n : Z,
     reads_as_integer cargo_type_id n ->
     executed (get_cargo_type_by_id cargo_type_id companyId)
     = [(Sql.get_cargo_type_by_group_id_query, [VInt n])])
  /\ ((forall n : Z, ~ reads_as_integer cargo_type_id n) ->
      executed (get_cargo_type_by_id cargo_type_id companyId)
      = [(Sql.get_cargo_type_by_group_code_query, [VStr cargo_type_id])])
  /\ ((exists n : Z, reads_as_integer cargo_type_id n)
      \/ (forall n : Z, ~ reads_as_integer cargo_type_id n))
  /\ contains "WHERE cargoGroupId = ?" Sql.get_cargo_type_by_group_id_query = true
  /\ contains "cargoGroupCode = ?" Sql.get_cargo_type_by_group_id_query = false
  /\ contains "WHERE cargoGroupCode = ?" Sql.get_cargo_type_by_group_code_query = true
  /\ contains "cargoGroupId = ?" Sql.get_cargo_type_by_group_code_query = false.
Proof.
  split; [|split; [|split]].
  - intros n Hn. apply int_of_str_reads in Hn.
    unfold get_cargo_type_by_id. rewrite Hn. reflexivity.
  - intros Hn. unfold get_cargo_type_by_id.
    destruct (int_of_str cargo_type_id) as [n|] eqn:Hint; [|reflexivity].
    apply int_of_str_reads in Hint. destruct (Hn n Hint).
  - destruct (int_of_str cargo_type_id) as [n|] eqn:Hint.
    + left. exists n. apply int_of_str_reads, Hint.
    + right. intros n Hn. apply int_of_str_reads in Hn. congruence.
  - repeat split; vm_compute; reflexivity.
Qed.

(** C8.  Every statement a handler sends reads its resource's table and
    carries that table's active-row predicate and not the other one:
    [rowDeleted = 0] on dbo.Partner, dbo.vwCargo and dbo.Vessel,
    [rowDeleted IS NULL] on dbo.vwTallyShiftAll; this for the nine list
    handlers under every combination of filters and for the six by-id
    handlers. *)
Theorem every_statement_keeps_its_active_row_predicate (q : query_string) :
  (forall e : list_endpoint,
     Forall (fun statement => active_rows_of (list_table e) statement.1 = true)
       (executed (list_route e q)))
  /\ (forall e : item_endpoint,
        Forall (fun statement => active_rows_of (item_table e) statement.1 = true)
          (executed (item_route e q))
        /\ executed (item_route e q) <> [])
  /\ (forall e : list_endpoint,
        q_page q = None -> q_limit q = None -> executed (list_route e q) <> []).
Proof.
  split; [|split].
  - intros e. destruct (list_route_cases e q) as [->|(sql & params & -> & Hsql)].
    + constructor.
    + rewrite respond_list_executed. repeat constructor. exact Hsql.
  - intros e. destruct (item_route_cases e q) as (sql & params & make & nf & -> & Hsql).
    cbn [respond_single executed]. split; [|discriminate].
    repeat constructor. exact Hsql.
  - intros e Hp Hl.
    destruct e; cbn [list_route]; unfold with_page_limit; rewrite ?Hp, ?Hl;
      cbn [FastAPI.Query]; discriminate.
Qed.



End gateway.

Example cargo_by_id_not_found :
  response_of (item_route (driver := sample_driver [] []) (schemas := plain_schemas)
                 (CargoCategoryById 999999) no_query)
  = HTTPException 404 "0" "Không tìm thấy nhóm hàng hóa".
Proof. vm_compute. reflexivity. Qed.

Example ships_driver_failure :
  response_of (list_route (driver := failing_driver "connection lost")
                 (schemas := plain_schemas) ShipDetails no_query)
  = HTTPException 500 "0" "Lỗi lấy dữ liệu: connection lost".
Proof. vm_compute. reflexivity. Qed.

Example cargo_categories_statement :
  executed (list_route (driver := sample_driver [] []) (schemas := plain_schemas)
              CargoCategory
              (mkQuery None None None None None None None (Some 3) (Some 2) (Some 5)))
  = [(Sql.get_cargo_categories_query +:+ " AND cargoGroupId = ?" +:+ " AND rowDeleted = 0"
        +:+ " ORDER BY cargoId OFFSET ? ROWS FETCH NEXT ? ROWS ONLY",
      [VInt 3; VInt 5; VInt 5])].
Proof. vm_compute. reflexivity. Qed.

(** C5 as stated fails on GET /api/customers: [limit=1000] and [page=0] are
    not refused, the statement is executed and the envelope returned. *)
Lemma customers_route_ignores_pagination :
  let q := mkQuery None None None None None None None None (Some 0) (Some 1000) in
  bad_pagination q
  /\ list_route (driver := sample_driver [] []) (schemas := plain_schemas) Customers q
     = mkOutcome
         [(Sql.get_customers_query +:+ " AND rowDeleted = 0" +:+ " ORDER BY partnerCode", [])]
         (Success "1" "Không có dữ liệu" []).
Proof.
  split.
  - left. exists 1000. split; [reflexivity | lia].
  - vm_compute. reflexivity.
Qed.

Lemma paginated_routes_reject_bad_pagination_witness :
  list_route (driver := sample_driver [] []) (schemas := plain_schemas) ShipDetails
    (mkQuery None None None None None None None None None (Some 101))
  = mkOutcome [] RequestValidationError.
Proof.
  apply paginated_routes_reject_bad_pagination.
  - discriminate.
  - left. exists 101. split; [reflexivity | lia].
Defined.

Lemma cargo_type_lookup_follows_id_shape_witness :
  executed (get_cargo_type_by_id (driver := sample_driver [] []) (schemas := plain_schemas)
              " 12 " None)
  = [(Sql.get_cargo_type_by_group_id_query, [VInt 12])]
  /\ executed (get_cargo_type_by_id (driver := sample_driver [] []) (schemas := plain_schemas)
                 "١٢٣" None)
     = [(Sql.get_cargo_type_by_group_id_query, [VInt 123])]
  /\ executed (get_cargo_type_by_id (driver := sample_driver [] []) (schemas := plain_schemas)
                 "HC01" None)
     = [(Sql.get_cargo_type_by_group_code_query, [VStr "HC01"])]
  /\ executed (get_cargo_type_by_id (driver := sample_driver [] []) (schemas := plain_schemas)
                 (String "028" "12") None)
     = [(Sql.get_cargo_type_by_group_code_query, [VStr (String "028" "12")])].
Proof.
  split; [|split; [|split]].
  - apply (proj1 (cargo_type_lookup_follows_id_shape
                    (driver := sample_driver [] []) (schemas := plain_schemas) " 12 " None)).
    apply int_of_str_reads. vm_compute. reflexivity.
  - apply (proj1 (cargo_type_lookup_follows_id_shape
                    (driver := sample_driver [] []) (schemas := plain_schemas) "١٢٣" None)).
    apply int_of_str_reads. vm_compute. reflexivity.
  - apply (proj1 (proj2 (cargo_type_lookup_follows_id_shape
                    (driver := sample_driver [] []) (schemas := plain_schemas) "HC01" None))).
    intros n Hn. apply int_of_str_reads in Hn. vm_compute in Hn. discriminate.
  - apply (proj1 (proj2 (cargo_type_lookup_follows_id_shape
                    (driver := sample_driver [] []) (schemas := plain_schemas)
                    (String "028" "12") None))).
    intros n Hn. apply int_of_str_reads in Hn. vm_compute in Hn. discriminate.
Defined.

Lemma every_statement_keeps_its_active_row_predicate_witness :
  executed (list_route (driver := sample_driver [] []) (schemas := plain_schemas)
              Customers no_query) <> [].
Proof.
  apply (proj2 (proj2 (every_statement_keeps_its_active_row_predicate
                         (driver := sample_driver [] []) (schemas := plain_schemas)
                         no_query))); reflexivity.
Defined.



(** *** Renderings end in a digit *)

Lemma append_nonempty (a b : string) : b <> "" -> a +:+ b <> "".
Proof. destruct a; [auto | discriminate]. Qed.

Lemma endswith_append (a b : string) (c : ascii) :
  b <> "" -> endswith (a +:+ b) (String c "") = endswith b (String c "").
Proof.
  intros Hb. induction a as [|x a IH]; [reflexivity|].
  change (endswith (String x a +:+ b) (String c ""))
    with (String.eqb (String x (a +:+ b)) (String c "") || endswith (a +:+ b) (String c "")).
  rewrite IH. cbn [String.eqb].
  destruct (a +:+ b) eqn:Hab; [exfalso; exact (append_nonempty a b Hb Hab)|].
  destruct (Ascii.eqb x c); reflexivity.
Qed.

Lemma digit_char_not_Z (n : Z) : Ascii.eqb (digit_char (n mod 10)) "Z" = false.
Proof.
  assert (Hr : 0 <= n mod 10 < 10) by (apply Z.mod_pos_bound; lia).
  assert (Hc : n mod 10 = 0 \/ n mod 10 = 1 \/ n mod 10 = 2 \/ n mod 10 = 3 \/
               n mod 10 = 4 \/ n mod 10 = 5 \/ n mod 10 = 6 \/ n mod 10 = 7 \/
               n mod 10 = 8 \/ n mod 10 = 9) by lia.
  destruct Hc as [-> | [-> | [-> | [-> | [-> | [-> | [-> | [-> | [-> | ->]]]]]]]]];
    reflexivity.
Qed.

Lemma zfill_nonempty (w : nat) (n : Z) : zfill (S w) n <> "".
Proof. cbn [zfill]. apply append_nonempty. discriminate. Qed.

Lemma zfill_not_Z (w : nat) (n : Z) : endswith (zfill (S w) n) "Z" = false.
Proof.
  cbn [zfill]. rewrite endswith_append by discriminate.
  cbn [endswith String.eqb]. rewrite digit_char_not_Z. reflexivity.
Qed.

Lemma format_seconds_not_Z (d : datetime) :
  endswith (format_seconds d) "Z" = false /\ format_seconds d <> "".
Proof.
  unfold format_seconds. destruct (civil_from_days (d / us_per_day)) as [[y m] dd].
  split.
  - repeat (rewrite endswith_append;
            [| first [apply zfill_nonempty | apply append_nonempty; apply zfill_nonempty
                     | discriminate]]).
    apply zfill_not_Z.
  - apply append_nonempty. discriminate.
Qed.

Lemma isoformat_not_Z (d : datetime) :
  endswith (isoformat d) "Z" = false /\ isoformat d <> "".
Proof.
  unfold isoformat. destruct (microsecond d =? 0); [apply format_seconds_not_Z|].
  split.
  - rewrite endswith_append by (apply append_nonempty, zfill_nonempty).
    rewrite endswith_append by apply zfill_nonempty.
    apply zfill_not_Z.
  - apply append_nonempty. discriminate.
Qed.

(** C6.  The claim asks for [YYYY-MM-DDTHH:MM:SS.mmmZ].  [execute_query]
    has already turned every [datetime] cell into its [isoformat()] text, so
    the handlers take the [str(...)] branch: the rendered value is that text,
    which never ends in "Z" (no fraction, or six digits).  The branch that
    would cut to milliseconds and append "Z" is reached only by a raw
    [datetime], which [execute_query] never lets through. *)
Theorem ship_timestamps_lack_utc_suffix :
  (forall d : datetime,
     ship_timestamp (convert (VDateTime d)) = VStr (isoformat d)
     /\ endswith (isoformat d) "Z" = false)
  /\ (let created := 1705314600 * 1000000 in
      let updated := 1705314600 * 1000000 + 123456 in
      response_of
        (get_ships
           (driver := sample_driver ["vesselId"; "createTime"; "updateTime"]
                        [[VInt 7; VDateTime created; VDateTime updated]])
           (schemas := plain_schemas) 1 20 None)
      = Success "1" "Lấy dữ liệu thành công"
          [[("createdDate", VStr "2024-01-15T10:30:00");
            ("modifiedDate", VStr "2024-01-15T10:30:00.123456")]]
      /\ utc_millisecond_shape "2024-01-15T10:30:00" = false
      /\ utc_millisecond_shape "2024-01-15T10:30:00.123456" = false
      /\ ship_timestamp (VDateTime updated) = VStr "2024-01-15T10:30:00.123Z"
      /\ utc_millisecond_shape "2024-01-15T10:30:00.123Z" = true).
Proof.
  split.
  - intros d. destruct (isoformat_not_Z d) as [HZ Hne]. split; [|exact HZ].
    unfold ship_timestamp. cbn [convert has_strftime truthy andb str].
    destruct (String.eqb_spec (isoformat d) ""); [contradiction | reflexivity].
  - cbv zeta. repeat split; vm_compute; reflexivity.
Qed.

(* ===================================================================== *)
(** * Part III: further properties of the code                             *)
(* ===================================================================== *)

(** ** Rows as dictionaries *)

Lemma row_dict_fold_Forall (P : value -> Prop) (cells : list (string * value))
  (acc : gmap string value) :
  (forall v, P (convert v)) ->
  map_Forall (fun _ v => P v) acc ->
  map_Forall (fun _ v => P v) (foldl (fun d cv => <[cv.1 := convert cv.2]> d) acc cells).
Proof.
  intros Hconv. revert acc. induction cells as [|[c v] cells IH]; intros acc Hacc; [exact Hacc|].
  cbn [foldl]. apply IH. apply map_Forall_insert_2; [apply Hconv | exact Hacc].
Qed.

Lemma row_dict_fold_absent (cells : list (string * value)) (acc : gmap string value)
  (k : string) :
  k ∉ cells.*1 ->
  foldl (fun d cv => <[cv.1 := convert cv.2]> d) acc cells !! k = acc !! k.
Proof.
  revert acc. induction cells as [|[c v] cells IH]; intros acc Hk; [reflexivity|].
  cbn [foldl]. rewrite fmap_cons in Hk. apply not_elem_of_cons in Hk as [Hne Hk].
  rewrite IH by exact Hk. apply lookup_insert_ne.
  intros Heq. apply Hne. symmetry. exact Heq.
Qed.

Lemma row_dict_fold_present (cells : list (string * value)) (acc : gmap string value)
  (k : string) (v : value) :
  NoDup cells.*1 -> (k, v) ∈ cells ->
  foldl (fun d cv => <[cv.1 := convert cv.2]> d) acc cells !! k = Some (convert v).
Proof.
  revert acc. induction cells as [|[c w] cells IH]; intros acc Hnd Hin.
  - inversion Hin.
  - rewrite fmap_cons in Hnd. apply NoDup_cons in Hnd as [Hc Hnd].
    apply elem_of_cons in Hin as [[= -> ->]|Hin]; cbn [foldl].
    + rewrite row_dict_fold_absent by exact Hc. apply lookup_insert_eq.
    + apply IH; assumption.
Qed.

Lemma convert_not_datetime (v : value) : is_datetime (convert v) = false.
Proof. destruct v; reflexivity. Qed.

Lemma row_dict_not_datetime (columns : list string) (row : list value) :
  map_Forall (fun _ v => is_datetime v = false) (row_dict columns row).
Proof.
  unfold row_dict. apply (row_dict_fold_Forall (fun v => is_datetime v = false)).
  - apply convert_not_datetime.
  - apply map_Forall_empty.
Qed.

Section database.
Context {driver : Driver}.

(** X1. Whatever the cursor answers, a list that [execute_query] returns
    holds no [datetime] object under any key of any row: every cell with an
    [isoformat] method has been replaced by its ISO text.  The list is the
    cursor's rows in their order, one dictionary per row, keyed by the
    column names. *)
Theorem execute_query_returns_no_datetime (query : string) (params : list value)
  (results : list (gmap string value)) :
  execute_query query params = Ret results ->
  (forall row key d, row ∈ results -> row !! key <> Some (VDateTime d))
  /\ exists columns rows,
       cursor_execute query params = inr (columns, rows)
       /\ results = map (row_dict columns) rows
       /\ length results = length rows.
Proof.
  unfold execute_query.
  destruct (cursor_execute query params) as [msg|[columns rows]]; [discriminate|].
  intros [= <-]. split.
  - intros row key d Hrow Hkey. apply list_elem_of_fmap in Hrow as (cells & -> & _).
    pose proof (row_dict_not_datetime columns cells key _ Hkey) as Hd. discriminate.
  - exists columns, rows. rewrite length_map. auto.
Qed.

End database.

Lemma execute_query_returns_no_datetime_witness :
  let driver := sample_driver ["vesselId"; "createTime"] [[VInt 7; VDateTime sample_instant]] in
  let results := [row_dict ["vesselId"; "createTime"] [VInt 7; VDateTime sample_instant]] in
  execute_query (driver := driver) "SELECT vesselId, createTime FROM dbo.Vessel" [] = Ret results
  /\ (forall row key d, row ∈ results -> row !! key <> Some (VDateTime d))
  /\ exists columns rows,
       cursor_execute (Driver := driver) "SELECT vesselId, createTime FROM dbo.Vessel" []
       = inr (columns, rows)
       /\ results = map (row_dict columns) rows
       /\ length results = length rows.
Proof.
  cbv zeta. split; [reflexivity|].
  exact (execute_query_returns_no_datetime
           (driver := sample_driver ["vesselId"; "createTime"]
                        [[VInt 7; VDateTime sample_instant]])
           "SELECT vesselId, createTime FROM dbo.Vessel" [] _ eq_refl).
Defined.

Lemma zip_fst_elem_of (columns : list string) (row : list value) (c : string) :
  c ∈ (zip columns row).*1 -> c ∈ columns.
Proof.
  intros Hc. apply list_elem_of_fmap in Hc as ([c' v] & -> & Hin).
  eapply elem_of_zip_l. exact Hin.
Qed.

Lemma row_dict_fold_at (columns : list string) (row : list value)
  (acc : gmap string value) (i : nat) (c : string) (v : value) :
  NoDup columns -> columns !! i = Some c -> row !! i = Some v ->
  foldl (fun d cv => <[cv.1 := convert cv.2]> d) acc (zip columns row) !! c
  = Some (convert v).
Proof.
  revert row acc i. induction columns as [|c0 columns IH]; intros row acc i Hnd Hc Hv.
  - destruct i; discriminate.
  - destruct row as [|v0 row]; [destruct i; discriminate|].
    apply NoDup_cons in Hnd as [Hc0 Hnd]. cbn [zip zip_with foldl].
    destruct i as [|i]; cbn in Hc, Hv.
    + injection Hc as ->. injection Hv as ->.
      rewrite row_dict_fold_absent.
      * apply lookup_insert_eq.
      * intros Hin. apply Hc0. eapply zip_fst_elem_of. exact Hin.
    + eapply IH; eassumption.
Qed.

(** X2. The dictionary [execute_query] builds from a row that is as wide as
    the column list (as the rows of a cursor are): when the column names are
    distinct, the cell at the position of a column is found under that
    column's name, converted; a name that is no column is absent; and when
    a name occurs twice (as [SELECT a AS x, b AS x] gives), the last cell of
    that name silently replaces the earlier one. *)
Theorem row_dict_lookup (columns : list string) (row : list value) :
  length columns = length row ->
  (forall (i : nat) (c : string) (v : value),
     NoDup columns -> columns !! i = Some c -> row !! i = Some v ->
     row_dict columns row !! c = Some (convert v))
  /\ (forall c : string, c ∉ columns -> row_dict columns row !! c = None)
  /\ (forall (c : string) (v : value),
        row_dict (columns ++ [c]) (row ++ [v]) !! c = Some (convert v)).
Proof.
  intros Hlen. split; [|split].
  - intros i c v Hnd Hc Hv. unfold row_dict. eapply row_dict_fold_at; eassumption.
  - intros c Hc. unfold row_dict. rewrite row_dict_fold_absent; [apply lookup_empty|].
    intros Hin. apply Hc. eapply zip_fst_elem_of. exact Hin.
  - intros c v. unfold row_dict.
    rewrite zip_with_app by exact Hlen. rewrite foldl_app. cbn [zip_with foldl].
    apply lookup_insert_eq.
Qed.

Lemma row_dict_lookup_witness :
  row_dict ["vesselId"; "createTime"] [VInt 7; VDateTime sample_instant] !! "createTime"
  = Some (VStr "2024-01-15T10:30:00")
  /\ row_dict ["vesselId"; "createTime"] [VInt 7; VDateTime sample_instant] !! "updateTime"
     = None
  /\ row_dict (["x"] ++ ["x"]) ([VInt 1] ++ [VInt 2]) !! "x" = Some (VInt 2).
Proof.
  pose proof (row_dict_lookup ["vesselId"; "createTime"]
                [VInt 7; VDateTime sample_instant] eq_refl) as (Hat & Habsent & _).
  pose proof (row_dict_lookup ["x"] [VInt 1] eq_refl) as (_ & _ & Hlast).
  split; [|split].
  - apply (Hat 1%nat "createTime" (VDateTime sample_instant)); [|reflexivity|reflexivity].
    apply (bool_decide_unpack _). vm_compute. exact I.
  - apply Habsent. apply (bool_decide_unpack _). vm_compute. exact I.
  - apply Hlast.
Defined.

(** ** The connection around a statement *)

Lemma lifecycle_app (open : bool) (a b : list Connection.event) :
  lifecycle open (a ++ b) = lifecycle open a ≫= fun open' => lifecycle open' b.
Proof.
  revert open. induction a as [|ev a IH]; intros open; [reflexivity|].
  destruct ev, open; cbn [lifecycle app]; try reflexivity; apply IH.
Qed.

Section connection.
Context {odbc : Connection.Odbc}.

(** A body that keeps the connection it is given runs between one opening
    and one closing, whether it returns or raises. *)
Lemma get_connection_lifecycle {A : Type} (self : Connection.DatabaseConnection)
  (body : list Connection.event * result A) :
  lifecycle true body.1 = Some true ->
  lifecycle false (Connection.get_connection self body).1 = Some false.
Proof.
  intros Hbody. unfold Connection.get_connection.
  destruct (Connection.odbc_connect _ 30) as [msg|]; [reflexivity|].
  cbn [fst app lifecycle]. rewrite lifecycle_app, Hbody. cbn [mbind option_bind].
  destruct body.2 as [a|[]]; reflexivity.
Qed.

Lemma get_connection_result {A : Type} (self : Connection.DatabaseConnection)
  (body : list Connection.event * result A) :
  (Connection.get_connection self body).2
  = match Connection.odbc_connect (Connection.get_connection_string self) 30 with
    | Some msg => Raise (DataAccessError msg)
    | None => body.2
    end.
Proof.
  unfold Connection.get_connection.
  destruct (Connection.odbc_connect _ 30); reflexivity.
Qed.

(** X3. [execute_query], [execute_scalar] and [test_connection] never leave
    a connection open and never use one that is not open: on every path
    (connection refused, statement failed, statement answered) the events
    are at most one opening, statements while it is open, and its closing. *)
Theorem connections_are_closed (self : Connection.DatabaseConnection)
  (query : string) (params : list value) :
  lifecycle false (Connection.execute_query self query params).1 = Some false
  /\ lifecycle false (Connection.execute_scalar self query params).1 = Some false
  /\ lifecycle false (Connection.test_connection self).1 = Some false.
Proof.
  split; [|split].
  - unfold Connection.execute_query.
    set (body := match Connection.odbc_execute query params with
                 | inl msg => _ | inr (columns, rows) => _ end).
    assert (Hbody : lifecycle true body.1 = Some true).
    { subst body. destruct (Connection.odbc_execute query params) as [msg|[columns rows]];
        reflexivity. }
    pose proof (get_connection_lifecycle self body Hbody) as Hconn.
    destruct (Connection.get_connection self body).2 as [r|[]]; try exact Hconn.
    cbn [fst]. rewrite lifecycle_app, Hconn. reflexivity.
  - unfold Connection.execute_scalar.
    set (body := match Connection.odbc_execute query params with
                 | inl msg => _ | inr (columns, rows) => _ end).
    assert (Hbody : lifecycle true body.1 = Some true).
    { subst body. destruct (Connection.odbc_execute query params) as [msg|[columns rows]];
        reflexivity. }
    pose proof (get_connection_lifecycle self body Hbody) as Hconn.
    destruct (Connection.get_connection self body).2 as [r|[]]; try exact Hconn.
    cbn [fst]. rewrite lifecycle_app, Hconn. reflexivity.
  - unfold Connection.test_connection.
    set (body := match Connection.odbc_execute "SELECT 1" [] with
                 | inl msg => _ | inr (columns, rows) => _ end).
    assert (Hbody : lifecycle true body.1 = Some true).
    { subst body. destruct (Connection.odbc_execute "SELECT 1" []) as [msg|[columns rows]];
        [reflexivity|]. destruct (Connection.is_one rows); reflexivity. }
    pose proof (get_connection_lifecycle self body Hbody) as Hconn.
    destruct (Connection.get_connection self body).2 as [r|e]; [exact Hconn|].
    cbn [fst]. rewrite lifecycle_app, Hconn. reflexivity.
Qed.

(** X4. What [execute_query] returns is settled by what [pyodbc.connect]
    and the cursor answer, not by what is logged or closed on the way: a
    refused connection and a failed statement both leave as the
    [pyodbc.Error] with its message, and an answered statement as the
    converted rows.  This is [Database.execute_query] over the driver the
    handlers see. *)
Theorem execute_query_through_connection (self : Connection.DatabaseConnection)
  (query : string) (params : list value) :
  (Connection.execute_query self query params).2
  = Database.execute_query (driver := Connection.driver_of self) query params.
Proof.
  unfold Connection.execute_query, Database.execute_query, Connection.driver_of.
  cbn [cursor_execute].
  match goal with |- context [Connection.get_connection self ?b] => set (body := b) end.
  pose proof (get_connection_result self body) as Hres.
  assert (Hout : forall (x : list Connection.event * result (list (gmap string value)))
                   (k : string -> list Connection.event),
             (match x.2 with
              | Raise (DataAccessError msg) => ((x.1 ++ k msg)%list, x.2)
              | _ => x
              end).2 = x.2).
  { intros [evs [r|[]]] k; reflexivity. }
  rewrite (Hout _ (fun msg => [Connection.Logged Connection.ERROR ("Query execution error: " +:+ msg);
                               Connection.Logged Connection.ERROR ("Query: " +:+ query)])).
  rewrite Hres. subst body.
  destruct (Connection.odbc_connect _ 30) as [msg|]; [reflexivity|].
  destruct (Connection.odbc_execute query params) as [msg|[columns rows]]; reflexivity.
Qed.

(** X5. The log of [execute_query]: a run that returns logs no error and
    logs the number of rows it returns; a run that raises raises the
    [pyodbc.Error] and logs both its message and the text of the statement
    (also when the connection itself was refused). *)
Theorem execute_query_log (self : Connection.DatabaseConnection)
  (query : string) (params : list value) :
  let run := Connection.execute_query self query params in
  (forall results,
     run.2 = Ret results ->
     error_logged run.1 = false
     /\ In (Connection.Logged Connection.INFO
              ("Query executed successfully. Returned "
               +:+ str_of_Z (Z.of_nat (length results)) +:+ " rows")) run.1)
  /\ (forall e,
        run.2 = Raise e ->
        exists msg, e = DataAccessError msg
          /\ In (Connection.Logged Connection.ERROR ("Query execution error: " +:+ msg)) run.1
          /\ In (Connection.Logged Connection.ERROR ("Query: " +:+ query)) run.1).
Proof.
  cbv zeta. unfold Connection.execute_query, Connection.get_connection.
  destruct (Connection.odbc_connect _ 30) as [msg|].
  - cbn [fst snd]. split; [discriminate|]. intros e [= <-]. exists msg.
    split; [reflexivity|]. cbn. tauto.
  - destruct (Connection.odbc_execute query params) as [msg|[columns rows]]; cbn [fst snd].
    + split; [discriminate|]. intros e [= <-]. exists msg.
      split; [reflexivity|]. cbn. tauto.
    + split; [|discriminate]. intros results [= <-].
      split; [reflexivity|]. cbn. tauto.
Qed.

(** X6. On a connection that opens, [execute_scalar] returns [None] for a
    statement without rows, and otherwise the first cell of the first row as
    the cursor gave it: unlike [execute_query], which returns that cell
    under the first column's name after the ISO conversion, a [datetime]
    stays a [datetime]. *)
Theorem execute_scalar_returns_raw_first_cell (self : Connection.DatabaseConnection)
  (query : string) (params : list value) :
  Connection.odbc_connect (Connection.get_connection_string self) 30 = None ->
  (forall columns,
     Connection.odbc_execute query params = inr (columns, []) ->
     (Connection.execute_scalar self query params).2 = Ret VNone)
  /\ (forall c columns v cells rows,
        Connection.odbc_execute query params = inr (c :: columns, (v :: cells) :: rows) ->
        c ∉ columns ->
        (Connection.execute_scalar self query params).2 = Ret v
        /\ exists first rest,
             (Connection.execute_query self query params).2 = Ret (first :: rest)
             /\ first !! c = Some (convert v)).
Proof.
  intros Hconn. split.
  - intros columns Hrows.
    unfold Connection.execute_scalar, Connection.get_connection.
    rewrite Hconn, Hrows. reflexivity.
  - intros c columns v cells rows Hrows Hc. split.
    + unfold Connection.execute_scalar, Connection.get_connection.
      rewrite Hconn, Hrows. reflexivity.
    + unfold Connection.execute_query, Connection.get_connection.
      rewrite Hconn, Hrows. cbn [fst snd map]. eexists _, _. split; [reflexivity|].
      unfold row_dict. cbn [zip_with foldl fst snd].
      rewrite row_dict_fold_absent; [apply lookup_insert_eq|].
      intros Hin. apply Hc. eapply zip_fst_elem_of. exact Hin.
Qed.

(** X7. [test_connection] answers [True] exactly when the connection opens
    and the first cell of the answer to [SELECT 1] equals 1; it answers
    [False] exactly when it logs an error (every failure, also a refused
    connection, is caught and logged). *)
Theorem test_connection_reports (self : Connection.DatabaseConnection) :
  let run := Connection.test_connection self in
  (run.2 = true <->
   Connection.odbc_connect (Connection.get_connection_string self) 30 = None
   /\ exists columns rows,
        Connection.odbc_execute "SELECT 1" [] = inr (columns, rows)
        /\ Connection.is_one rows = true)
  /\ run.2 = negb (error_logged run.1).
Proof.
  cbv zeta. unfold Connection.test_connection, Connection.get_connection.
  destruct (Connection.odbc_connect _ 30) as [msg|].
  - cbn [fst snd]. split; [|reflexivity].
    split; [discriminate | intros [? _]; discriminate].
  - destruct (Connection.odbc_execute "SELECT 1" []) as [msg|[columns rows]].
    + cbn [fst snd]. split; [|reflexivity].
      split; [discriminate | intros (_ & ? & ? & ? & _); discriminate].
    + destruct (Connection.is_one rows) eqn:Hone; cbn [fst snd].
      * split; [|reflexivity]. split; [|reflexivity].
        intros _. split; [reflexivity|]. exists columns, rows. auto.
      * split; [|reflexivity].
        split; [discriminate | intros (_ & ? & ? & [= <- <-] & ?); congruence].
Qed.

End connection.

Lemma execute_query_log_witness :
  let answered := sample_odbc None (inr (["vesselId"], [[VInt 7]; [VInt 8]])) in
  let refused := sample_odbc (Some "Login timeout expired") (inr ([], [])) in
  let run := Connection.execute_query (odbc := answered) sample_connection
               "SELECT vesselId FROM dbo.Vessel" [] in
  let bad := Connection.execute_query (odbc := refused) sample_connection
               "SELECT vesselId FROM dbo.Vessel" [] in
  (error_logged run.1 = false
   /\ In (Connection.Logged Connection.INFO "Query executed successfully. Returned 2 rows")
        run.1)
  /\ exists msg,
       DataAccessError "Login timeout expired" = DataAccessError msg
       /\ In (Connection.Logged Connection.ERROR ("Query execution error: " +:+ msg)) bad.1
       /\ In (Connection.Logged Connection.ERROR
                ("Query: " +:+ "SELECT vesselId FROM dbo.Vessel")) bad.1.
Proof.
  cbv zeta. split.
  - exact (proj1 (execute_query_log
                    (odbc := sample_odbc None (inr (["vesselId"], [[VInt 7]; [VInt 8]])))
                    sample_connection "SELECT vesselId FROM dbo.Vessel" []) _ eq_refl).
  - exact (proj2 (execute_query_log
                    (odbc := sample_odbc (Some "Login timeout expired") (inr ([], [])))
                    sample_connection "SELECT vesselId FROM dbo.Vessel" []) _ eq_refl).
Defined.

Lemma execute_scalar_returns_raw_first_cell_witness :
  let odbc := sample_odbc None (inr (["createTime"], [[VDateTime sample_instant]])) in
  let query := "SELECT MAX(createTime) AS createTime FROM dbo.Vessel" in
  (Connection.execute_scalar (odbc := odbc) sample_connection query []).2
  = Ret (VDateTime sample_instant)
  /\ exists first rest,
       (Connection.execute_query (odbc := odbc) sample_connection query []).2
       = Ret (first :: rest)
       /\ first !! "createTime" = Some (VStr "2024-01-15T10:30:00").
Proof.
  cbv zeta.
  pose proof (execute_scalar_returns_raw_first_cell
                (odbc := sample_odbc None (inr (["createTime"], [[VDateTime sample_instant]])))
                sample_connection "SELECT MAX(createTime) AS createTime FROM dbo.Vessel" []
                eq_refl) as [_ Hcell].
  exact (Hcell "createTime" [] (VDateTime sample_instant) [] [] eq_refl
           (not_elem_of_nil "createTime")).
Defined.

(** ** Query gateway, continued *)

Section gateway_more.
Context {driver : Driver} {schemas : Schemas}.

Ltac each_filter :=
  repeat match goal with
         | |- context [truthy_str ?o] => destruct (truthy_str o)
         | |- context [truthy_int ?o] => destruct (truthy_int o)
         end.

Ltac open_route q :=
  unfold with_page_limit;
  destruct (FastAPI.Query 1 (Some 1) None (q_page q)) as [?page|];
  [destruct (FastAPI.Query _ (Some 1) (Some 100) (q_limit q)) as [?limit|]|].

(** X8. Every statement a route executes is sent with exactly as many
    arguments as its text has [?] placeholders, for every combination of
    filters, all nine list routes and all six by-id routes. *)
Theorem placeholders_match_arguments (q : query_string) :
  (forall e : list_endpoint,
     Forall (fun statement => placeholders statement.1 = length statement.2)
       (executed (list_route e q)))
  /\ (forall e : item_endpoint,
        Forall (fun statement => placeholders statement.1 = length statement.2)
          (executed (item_route e q))).
Proof.
  split.
  - intros e. destruct e; cbn [list_route]; try open_route q; try (constructor; fail).
    + unfold get_customers, respond_list. cbn [executed]. repeat constructor.
      each_filter; vm_compute; reflexivity.
    + unfold get_cargo_categories, respond_list. cbn [executed]. repeat constructor.
      each_filter; vm_compute; reflexivity.
    + repeat constructor.
    + repeat constructor.
    + repeat constructor.
    + repeat constructor.
    + unfold get_bulk_gate_volumes, respond_list. cbn [executed]. repeat constructor.
      each_filter; vm_compute; reflexivity.
    + unfold get_bulk_quay_volumes, respond_list. cbn [executed]. repeat constructor.
      each_filter; vm_compute; reflexivity.
    + unfold get_container_quay_volumes, respond_list. cbn [executed]. repeat constructor.
      each_filter; vm_compute; reflexivity.
  - intros e. destruct e; cbn [item_route]; try (repeat constructor; fail).
    unfold get_cargo_type_by_id. destruct (int_of_str cargo_type_id); repeat constructor.
Qed.

(** X9. The SQL text a list route sends depends only on which optional
    filters are supplied, never on their values: two requests that supply
    the same filters send the same text, and the values travel as
    arguments only. *)
Theorem statement_text_ignores_filter_values (e : list_endpoint) (q q' : query_string)
  (sql sql' : string) (params params' : list value) :
  same_filters_present q q' ->
  executed (list_route e q) = [(sql, params)] ->
  executed (list_route e q') = [(sql', params')] ->
  sql = sql'.
Proof.
  intros (H1 & H2 & H3 & H4 & H5 & H6 & H7).
  destruct e; cbn [list_route]; try (open_route q; [| discriminate | discriminate];
                                     open_route q'; [| discriminate | discriminate]);
    unfold get_customers, get_cargo_categories, get_cargo_types, get_handling_methods,
      get_classes, get_ships, get_bulk_gate_volumes, get_bulk_quay_volumes,
      get_container_quay_volumes, respond_list; cbn [executed];
    intros [= <- <-] [= <- <-];
    rewrite <- ?H1, <- ?H2, <- ?H3, <- ?H4, <- ?H5, <- ?H6, <- ?H7;
    each_filter; reflexivity.
Qed.

(** X10. A paginated route that executes a statement ends its text with
    [OFFSET ? ROWS FETCH NEXT ? ROWS ONLY] and ends its arguments with the
    offset [(page - 1) * limit] and the limit, where an absent [page] is 1
    and an absent [limit] is the handler's default (50 for cargoCategory,
    20 elsewhere); the page is at least 1, the limit between 1 and 100 and
    the offset never negative. *)
Theorem pagination_window (e : list_endpoint) (q : query_string)
  (sql : string) (params : list value) :
  e <> Customers ->
  executed (list_route e q) = [(sql, params)] ->
  let page := default 1 (q_page q) in
  let limit := default (default_limit e) (q_limit q) in
  1 <= page /\ 1 <= limit <= 100 /\ 0 <= (page - 1) * limit
  /\ (exists filters,
        params = (filters ++ [VInt ((page - 1) * limit); VInt limit])%list)
  /\ endswith sql " OFFSET ? ROWS FETCH NEXT ? ROWS ONLY" = true.
Proof.
  intros He.
  destruct e; try congruence; clear He; cbn [list_route default_limit];
    unfold with_page_limit, FastAPI.Query;
    destruct (q_page q) as [p|], (q_limit q) as [l|]; cbn [from_option default id];
    repeat match goal with
           | |- context [Z.leb ?a ?b] => destruct (Z.leb_spec a b)
           end; cbn [andb]; try discriminate;
    unfold get_cargo_categories, get_cargo_types, get_handling_methods,
      get_classes, get_ships, get_bulk_gate_volumes, get_bulk_quay_volumes,
      get_container_quay_volumes, respond_list; cbn [executed];
    intros [= <- <-];
    (split; [lia|]); (split; [lia|]); (split; [nia|]);
    (split; [first [exists []; reflexivity | eexists; reflexivity]|]);
    each_filter; vm_compute; reflexivity.
Qed.

Lemma and_filter_drop_empty (o : option string) (clause : string)
  (qp : string * list value) :
  and_filter (truthy_str (drop_empty o)) clause (str_arg (drop_empty o)) qp
  = and_filter (truthy_str o) clause (str_arg o) qp.
Proof.
  unfold drop_empty. destruct (truthy_str o) eqn:Ho; [rewrite Ho|]; reflexivity.
Qed.

Lemma and_filter_drop_zero (o : option Z) (clause : string) (qp : string * list value) :
  and_filter (truthy_int (if truthy_int o then o else None)) clause
    (int_arg (if truthy_int o then o else None)) qp
  = and_filter (truthy_int o) clause (int_arg o) qp.
Proof. destruct (truthy_int o) eqn:Ho; [rewrite Ho|]; reflexivity. Qed.

(** X11. A filter supplied as the empty text, and a [cargoTypeId] of 0, are
    treated as not supplied: the route executes the same statement with the
    same arguments and answers the same. *)
Theorem empty_filters_are_ignored (e : list_endpoint) (q : query_string) :
  list_route e (without_empty_filters q) = list_route e q.
Proof.
  destruct e; cbn [list_route without_empty_filters q_startDate q_endDate
                     q_customerTaxCode q_companyId q_customerType q_shipId
                     q_handlingMethodId q_cargoTypeId q_page q_limit];
    unfold get_customers, get_cargo_categories, get_cargo_types, get_handling_methods,
      get_classes, get_ships, get_bulk_gate_volumes, get_bulk_quay_volumes,
      get_container_quay_volumes;
    rewrite ?and_filter_drop_empty, ?and_filter_drop_zero; reflexivity.
Qed.

(** X12. Declared parameters that change nothing: the by-id routes ignore
    their query string ([companyId] included); no list route reads
    [customerType]; and [companyId] is read by the three volume routes
    only. *)
Theorem parameters_without_effect (q : query_string)
  (companyId customerType : option string) :
  (forall e : item_endpoint, item_route e q = item_route e no_query)
  /\ (forall e : list_endpoint,
        list_route e (with_company q (q_companyId q) customerType) = list_route e q)
  /\ (forall e : list_endpoint,
        e <> BulkGateVolumesCB -> e <> BulkQuayVolumesCB -> e <> ContQuayVolumesCB ->
        list_route e (with_company q companyId customerType) = list_route e q).
Proof.
  split; [|split].
  - intros e. destruct e; reflexivity.
  - intros e. destruct e; reflexivity.
  - intros e H1 H2 H3. destruct e; try congruence; reflexivity.
Qed.

(** The statement, model and not-found text of each by-id route. *)
Lemma item_route_shape (e : item_endpoint) (q : query_string) :
  exists sql params,
    item_route e q = respond_single sql params (item_model e) (not_found_message e).
Proof.
  destruct e; cbn [item_route item_model not_found_message];
    try (eexists _, _; reflexivity).
  unfold get_cargo_type_by_id. destruct (int_of_str cargo_type_id); eexists _, _; reflexivity.
Qed.

Lemma list_route_shape (e : list_endpoint) (q : query_string)
  (sql : string) (params : list value) :
  executed (list_route e q) = [(sql, params)] ->
  list_route e q = respond_list sql params (row_model e).
Proof.
  destruct (list_route_cases e q) as [->|(sql0 & params0 & -> & _)]; [discriminate|].
  cbn [respond_list executed]. intros [= <- <-]. reflexivity.
Qed.

(** X13. When the database refuses the statement of a route, list or by-id,
    the route answers status 500 with code "0" and the driver's message
    after the fixed prefix. *)
Theorem driver_failure_is_reported (q : query_string) (sql : string)
  (params : list value) (msg : string) :
  cursor_execute sql params = inl msg ->
  (forall e : list_endpoint,
     executed (list_route e q) = [(sql, params)] ->
     response_of (list_route e q) = HTTPException 500 "0" ("Lỗi lấy dữ liệu: " +:+ msg))
  /\ (forall e : item_endpoint,
        executed (item_route e q) = [(sql, params)] ->
        response_of (item_route e q) = HTTPException 500 "0" ("Lỗi lấy dữ liệu: " +:+ msg)).
Proof.
  intros Hfail. split.
  - intros e Hex. rewrite (list_route_shape e q sql params Hex).
    unfold respond_list, execute_query. cbn [response_of]. rewrite Hfail. reflexivity.
  - intros e. destruct (item_route_shape e q) as (sql0 & params0 & ->).
    cbn [respond_single executed response_of]. intros [= -> ->].
    unfold execute_query. rewrite Hfail. reflexivity.
Qed.

(** X14. A list route builds every row or none: when one row of the result
    set cannot be made into the response model, the route answers the
    failure response, never an envelope with the remaining rows. *)
Theorem list_mapping_is_all_or_nothing (e : list_endpoint) (q : query_string)
  (sql : string) (params : list value) (columns : list string)
  (rows : list (list value)) (cells : list value) (err : exn) :
  executed (list_route e q) = [(sql, params)] ->
  cursor_execute sql params = inr (columns, rows) ->
  cells ∈ rows ->
  row_model e (row_dict columns cells) = Raise err ->
  exists err', response_of (list_route e q) = failure err'.
Proof.
  intros Hex Hrows Hin Hrow. rewrite (list_route_shape e q sql params Hex).
  unfold respond_list, execute_query. cbn [response_of]. rewrite Hrows.
  destruct (map_rows (row_model e) (map (row_dict columns) rows)) as [items|err'] eqn:Hmap.
  - exfalso. apply map_rows_Forall2 in Hmap.
    assert (Hin' : row_dict columns cells ∈ map (row_dict columns) rows)
      by (apply list_elem_of_fmap; eauto).
    apply list_elem_of_lookup in Hin' as (i & Hi).
    destruct (Forall2_lookup_l _ _ _ _ _ Hmap Hi) as (item & _ & Hitem). congruence.
  - exists err'. reflexivity.
Qed.

(** X15. A by-id route looks at the first row only: no row gives status
    404 with code "0" and the route's not-found text; a first row that maps
    gives code "1" with that item, whatever rows follow; a first row that
    does not map gives the failure response. *)
Theorem item_route_answers (e : item_endpoint) (q : query_string)
  (sql : string) (params : list value) (columns : list string) :
  executed (item_route e q) = [(sql, params)] ->
  (cursor_execute sql params = inr (columns, []) ->
   response_of (item_route e q) = HTTPException 404 "0" (not_found_message e))
  /\ (forall cells more item,
        cursor_execute sql params = inr (columns, cells :: more) ->
        item_model e (row_dict columns cells) = Ret item ->
        response_of (item_route e q) = Success "1" "Lấy dữ liệu thành công" item)
  /\ (forall cells more err,
        cursor_execute sql params = inr (columns, cells :: more) ->
        item_model e (row_dict columns cells) = Raise err ->
        response_of (item_route e q) = failure err).
Proof.
  destruct (item_route_shape e q) as (sql0 & params0 & ->).
  cbn [respond_single executed response_of]. intros [= -> ->].
  unfold execute_query. split; [|split].
  - intros ->. reflexivity.
  - intros cells more item -> Hitem. cbn [map]. rewrite Hitem. reflexivity.
  - intros cells more err -> Hitem. cbn [map]. rewrite Hitem. reflexivity.
Qed.

End gateway_more.

Lemma statement_text_ignores_filter_values_witness :
  same_filters_present (since "2024-01-01") (since "2025-06-30")
  /\ (executed (list_route (driver := sample_driver [] []) (schemas := plain_schemas)
                  BulkGateVolumesCB (since "2024-01-01"))).*1
     = (executed (list_route (driver := sample_driver [] []) (schemas := plain_schemas)
                    BulkGateVolumesCB (since "2025-06-30"))).*1.
Proof.
  assert (Hsame : same_filters_present (since "2024-01-01") (since "2025-06-30"))
    by (repeat split).
  split; [exact Hsame|].
  exact (f_equal (fun sql => [sql])
           (statement_text_ignores_filter_values
              (driver := sample_driver [] []) (schemas := plain_schemas)
              BulkGateVolumesCB (since "2024-01-01") (since "2025-06-30")
              _ _ _ _ Hsame eq_refl eq_refl)).
Defined.

Lemma pagination_window_witness :
  exists sql,
    executed (list_route (driver := sample_driver [] []) (schemas := plain_schemas)
                CargoType (page_of 3 25))
    = [(sql, [VInt 50; VInt 25])]
    /\ endswith sql " OFFSET ? ROWS FETCH NEXT ? ROWS ONLY" = true.
Proof.
  eexists. split; [reflexivity|].
  exact (proj2 (proj2 (proj2 (proj2
           (pagination_window (driver := sample_driver [] []) (schemas := plain_schemas)
              CargoType (page_of 3 25) _ _ ltac:(discriminate) eq_refl))))).
Defined.

Lemma parameters_without_effect_witness :
  item_route (driver := sample_driver [] []) (schemas := plain_schemas)
    (CustomerById "C01") (with_company no_query (Some "NTP") None)
  = item_route (driver := sample_driver [] []) (schemas := plain_schemas)
      (CustomerById "C01") no_query
  /\ list_route (driver := sample_driver [] []) (schemas := plain_schemas)
       Customers (with_company no_query (Some "NTP") (Some "agent"))
     = list_route (driver := sample_driver [] []) (schemas := plain_schemas)
         Customers no_query.
Proof.
  split.
  - exact (proj1 (parameters_without_effect
                    (driver := sample_driver [] []) (schemas := plain_schemas)
                    (with_company no_query (Some "NTP") None) None None)
             (CustomerById "C01")).
  - exact (proj2 (proj2 (parameters_without_effect
                    (driver := sample_driver [] []) (schemas := plain_schemas)
                    no_query (Some "NTP") (Some "agent")))
             Customers ltac:(discriminate) ltac:(discriminate) ltac:(discriminate)).
Defined.

Lemma driver_failure_is_reported_witness :
  response_of (list_route (driver := failing_driver "Invalid object name 'dbo.Vessel'.")
                 (schemas := plain_schemas) ShipDetails no_query)
  = HTTPException 500 "0" "Lỗi lấy dữ liệu: Invalid object name 'dbo.Vessel'."
  /\ response_of (item_route (driver := failing_driver "Invalid object name 'dbo.Vessel'.")
                    (schemas := plain_schemas) (ShipDetailsByImo "9316361") no_query)
     = HTTPException 500 "0" "Lỗi lấy dữ liệu: Invalid object name 'dbo.Vessel'.".
Proof.
  split.
  - exact (proj1 (driver_failure_is_reported
                    (driver := failing_driver "Invalid object name 'dbo.Vessel'.")
                    (schemas := plain_schemas) no_query _ _ _ eq_refl)
             ShipDetails eq_refl).
  - exact (proj2 (driver_failure_is_reported
                    (driver := failing_driver "Invalid object name 'dbo.Vessel'.")
                    (schemas := plain_schemas) no_query _ _ _ eq_refl)
             (ShipDetailsByImo "9316361") eq_refl).
Defined.

Lemma list_mapping_is_all_or_nothing_witness :
  exists err,
    response_of
      (list_route
         (driver := sample_driver ["cargoGroupId"; "cargoGroupName"]
                      [[VInt 1; VStr "Bulk"]; [VInt 2; VInt 5]])
         (schemas := picky_schemas) CargoType no_query)
    = failure err.
Proof.
  eapply (list_mapping_is_all_or_nothing
           (driver := sample_driver ["cargoGroupId"; "cargoGroupName"]
                        [[VInt 1; VStr "Bulk"]; [VInt 2; VInt 5]])
           (schemas := picky_schemas) CargoType no_query _ _
           ["cargoGroupId"; "cargoGroupName"] [[VInt 1; VStr "Bulk"]; [VInt 2; VInt 5]]
           [VInt 2; VInt 5]
           (ValidationError "cargoTypeName: Input should be a valid string")).
  - reflexivity.
  - reflexivity.
  - apply list_elem_of_further, list_elem_of_here.
  - reflexivity.
Defined.

Lemma item_route_answers_witness :
  response_of (item_route (driver := sample_driver ["cargoGroupId"] [])
                 (schemas := plain_schemas) (CargoTypeById "12") no_query)
  = HTTPException 404 "0" "Không tìm thấy loại hàng hóa"
  /\ response_of (item_route
                    (driver := sample_driver ["cargoGroupId"] [[VInt 12]; [VInt 13]])
                    (schemas := plain_schemas) (CargoTypeById "12") no_query)
     = Success "1" "Lấy dữ liệu thành công" [].
Proof.
  split.
  - exact (proj1 (item_route_answers (driver := sample_driver ["cargoGroupId"] [])
                    (schemas := plain_schemas) (CargoTypeById "12") no_query
                    _ _ ["cargoGroupId"] eq_refl) eq_refl).
  - exact (proj1 (proj2 (item_route_answers
                    (driver := sample_driver ["cargoGroupId"] [[VInt 12]; [VInt 13]])
                    (schemas := plain_schemas) (CargoTypeById "12") no_query
                    _ _ ["cargoGroupId"] eq_refl))
             [VInt 12] [[VInt 13]] [] eq_refl eq_refl).
Defined.

(** ** Credential check, continued *)

Section credentials_more.
Context {pwd_context : CryptContext}.

(** X16. The registry the code ships accepts exactly two logins: "abc"
    with the stored sentinel as password (compared as text), and "admin"
    with whatever password the bcrypt context verifies against the stored
    value "admin123". *)
Theorem shipped_registry_accepts (u p : string) (usr : User) :
  authenticate_user USERS_DB u p = Ret (Some usr) <->
  (u = "abc" /\ p = "6504E4EF9274BDE48162B6F2BE0FDF0"
   /\ usr = mkUser "abc" "6504E4EF9274BDE48162B6F2BE0FDF0" (Some "Admin User") false)
  \/ (u = "admin" /\ pwd_context_verify p "admin123" = Ret true
      /\ usr = mkUser "admin" "admin123" (Some "System Admin") false).
Proof.
  rewrite authenticate_user_returns_user. unfold USERS_DB.
  destruct (decide (u = "abc")) as [->|Habc].
  - rewrite lookup_insert_eq. split.
    + intros [[= <-] Hv]. left. cbn in Hv. injection Hv as Hv.
      apply String.eqb_eq in Hv. auto.
    + intros [(_ & -> & ->)|(Hu & _)]; [|discriminate]. split; reflexivity.
  - rewrite lookup_insert_ne by congruence.
    destruct (decide (u = "admin")) as [->|Hadmin].
    + rewrite lookup_insert_eq. split.
      * intros [[= <-] Hv]. right. auto.
      * intros [(Hu & _)|(_ & Hv & ->)]; [discriminate|]. split; [reflexivity | exact Hv].
    + rewrite lookup_insert_ne by congruence. rewrite lookup_empty. split.
      * intros [? _]. discriminate.
      * intros [(? & _)|(? & _)]; congruence.
Qed.

(** X17. [login] refuses with one and the same answer (401, code "0", the
    same text) for an unknown user and for a wrong password, so the answer
    does not tell which names exist; an error of the password check is not
    caught; and a refusal is given only when [authenticate_user] returned
    [None]. *)
Theorem login_refusals (cfg : settings) (users : gmap string User) (utcnow : datetime)
  (request : LoginRequest) :
  let refusal := LoginRefused 401 "0" "Tên đăng nhập hoặc mật khẩu không đúng" in
  (users !! Username request = None ->
   login cfg users utcnow request = Ret refusal)
  /\ (forall user,
        users !! Username request = Some user ->
        verify_password (Password request) (password_hash user) = Ret false ->
        login cfg users utcnow request = Ret refusal)
  /\ (forall user e,
        users !! Username request = Some user ->
        verify_password (Password request) (password_hash user) = Raise e ->
        login cfg users utcnow request = Raise e)
  /\ (forall status code message,
        login cfg users utcnow request = Ret (LoginRefused status code message) ->
        LoginRefused status code message = refusal
        /\ authenticate_user users (Username request) (Password request) = Ret None).
Proof.
  cbv zeta. unfold login, authenticate_user, get_user. split; [|split; [|split]].
  - intros ->. reflexivity.
  - intros user -> ->. reflexivity.
  - intros user e -> ->. reflexivity.
  - intros status code message.
    destruct (users !! Username request) as [user|];
      [|intros [= <- <- <-]; split; reflexivity].
    destruct (verify_password _ _) as [[|]|e]; cbn [mbind result_bind negb];
      [|intros [= <- <- <-]; split; reflexivity|discriminate].
    destruct (create_access_token _ _ _ _); discriminate.
Qed.

End credentials_more.

Lemma shipped_registry_accepts_witness :
  authenticate_user (pwd_context := sample_context) USERS_DB
    "abc" "6504E4EF9274BDE48162B6F2BE0FDF0"
  = Ret (Some (mkUser "abc" "6504E4EF9274BDE48162B6F2BE0FDF0" (Some "Admin User") false)).
Proof.
  apply (proj2 (shipped_registry_accepts (pwd_context := sample_context)
                  "abc" "6504E4EF9274BDE48162B6F2BE0FDF0" _)).
  left. repeat split; reflexivity.
Defined.

Lemma login_refusals_witness :
  login (pwd_context := sample_context) default_settings USERS_DB 1700000000250000
    (mkLoginRequest "nobody" "6504E4EF9274BDE48162B6F2BE0FDF0")
  = Ret (LoginRefused 401 "0" "Tên đăng nhập hoặc mật khẩu không đúng")
  /\ login (pwd_context := sample_context) default_settings USERS_DB 1700000000250000
       (mkLoginRequest "abc" "wrong")
     = Ret (LoginRefused 401 "0" "Tên đăng nhập hoặc mật khẩu không đúng")
  /\ login (pwd_context := sample_context) default_settings USERS_DB 1700000000250000
       (mkLoginRequest "admin" "admin123")
     = Raise UnknownHashError.
Proof.
  split; [|split].
  - exact (proj1 (login_refusals (pwd_context := sample_context) default_settings USERS_DB
                    1700000000250000
                    (mkLoginRequest "nobody" "6504E4EF9274BDE48162B6F2BE0FDF0"))
             eq_refl).
  - exact (proj1 (proj2 (login_refusals (pwd_context := sample_context) default_settings
                           USERS_DB 1700000000250000 (mkLoginRequest "abc" "wrong")))
             _ eq_refl eq_refl).
  - exact (proj1 (proj2 (proj2 (login_refusals (pwd_context := sample_context)
                                  default_settings USERS_DB 1700000000250000
                                  (mkLoginRequest "admin" "admin123"))))
             _ _ eq_refl eq_refl).
Defined.

(** ** Tokens, continued *)

Lemma intdate_lookup_ne (m : gmap string value) (k k' : string) :
  k <> k' -> Jose.intdate m k !! k' = m !! k'.
Proof.
  intros Hne. unfold Jose.intdate.
  destruct (m !! k) as [[| | | |d]|]; try reflexivity.
  apply lookup_insert_ne. exact Hne.
Qed.

(** Whatever [data] holds, a token that is issued is signed with the
    configured key and algorithm and expires at the issue time plus the time
    to live, in whole seconds. *)
Lemma create_access_token_shape (cfg : settings) (issued : datetime)
  (data : gmap string value) (ttl : option timedelta) (tok : Jose.token) :
  create_access_token cfg issued data ttl = Ret tok ->
  exists claims,
    tok = Jose.Compact (ALGORITHM cfg) (Some (SECRET_KEY cfg)) (Jose.PayloadObject claims)
    /\ claims !! "exp"
       = Some (VInt (timegm (issued + (if truthy_timedelta ttl then default 0 ttl
                                       else timedelta_hours (ACCESS_TOKEN_EXPIRE_HOURS cfg))))).
Proof.
  unfold create_access_token.
  assert (Hadd : (if truthy_timedelta ttl
          then datetime_add issued (default 0 ttl)
          else datetime_add issued (timedelta_hours (ACCESS_TOKEN_EXPIRE_HOURS cfg)))
          = datetime_add issued (if truthy_timedelta ttl then default 0 ttl
                                 else timedelta_hours (ACCESS_TOKEN_EXPIRE_HOURS cfg))).
  { destruct (truthy_timedelta ttl); reflexivity. }
  rewrite Hadd. unfold datetime_add.
  destruct (in_datetime_range _); [|discriminate]. cbn [mbind result_bind].
  unfold Jose.encode. destruct (Jose.hmac_algorithm _); [|discriminate]. cbn [negb].
  destruct (bool_decide _); [|discriminate]. cbn [negb].
  intros [= <-]. eexists. split; [reflexivity|].
  rewrite !intdate_lookup_ne by discriminate.
  rewrite intdate_datetime. apply lookup_insert_eq.
Qed.

(** X19. [create_access_token] overwrites an "exp" entry of the data it is
    given: the token is the same as without that entry, and its "exp" is
    the issue time plus the time to live, in whole seconds. *)
Theorem caller_cannot_choose_expiry (cfg : settings) (issued : datetime)
  (data : gmap string value) (ttl : option timedelta) (v : value) (tok : Jose.token) :
  create_access_token cfg issued (<["exp" := v]> data) ttl
  = create_access_token cfg issued data ttl
  /\ (create_access_token cfg issued data ttl = Ret tok ->
      exists claims,
        tok = Jose.Compact (ALGORITHM cfg) (Some (SECRET_KEY cfg)) (Jose.PayloadObject claims)
        /\ claims !! "exp"
           = Some (VInt (timegm (issued + (if truthy_timedelta ttl then default 0 ttl
                                  else timedelta_hours (ACCESS_TOKEN_EXPIRE_HOURS cfg)))))).
Proof.
  split.
  - unfold create_access_token.
    destruct (if truthy_timedelta ttl then _ else _) as [expire|e]; [|reflexivity].
    cbn [mbind result_bind]. rewrite insert_insert_eq. reflexivity.
  - apply create_access_token_shape.
Qed.

(** X20. A token issued under one secret key is refused under any other:
    [verify_token] returns [None] and the admission check answers 401, at
    every time and for every content. *)
Theorem token_of_another_secret_is_refused (cfg cfg' : settings) (utcoffset : Z)
  (issued now : datetime) (data : gmap string value) (ttl : option timedelta)
  (tok : Jose.token) :
  create_access_token cfg issued data ttl = Ret tok ->
  SECRET_KEY cfg <> SECRET_KEY cfg' ->
  verify_token cfg' utcoffset now tok = Ret None
  /\ get_current_user cfg' utcoffset now tok = Ret (inl 401).
Proof.
  intros Hissue Hkey.
  destruct (create_access_token_shape _ _ _ _ _ Hissue) as (claims & -> & _).
  assert (Hv : verify_token cfg' utcoffset now
                 (Jose.Compact (ALGORITHM cfg) (Some (SECRET_KEY cfg))
                    (Jose.PayloadObject claims)) = Ret None).
  { unfold verify_token, Jose.decode.
    destruct (negb (existsb _ _)); [reflexivity|].
    destruct (negb (Jose.hmac_algorithm _)); [reflexivity|].
    destruct (String.eqb_spec (SECRET_KEY cfg) (SECRET_KEY cfg')); [contradiction|].
    reflexivity. }
  split; [exact Hv|]. unfold get_current_user. rewrite Hv. reflexivity.
Qed.

(** X21. The admission check on a token with subject and expiry: admitted
    with that subject while the clock's second is not past the expiry,
    answered 401 after, and once answered 401 answered 401 at every later
    time. *)
Theorem issued_token_lifetime (cfg : settings) (utcoffset : Z) (u : string) (exp : Z)
  (now later : datetime) :
  let tok := Jose.Compact (ALGORITHM cfg) (Some (SECRET_KEY cfg))
               (Jose.PayloadObject (issued_claims u exp)) in
  Jose.hmac_algorithm (ALGORITHM cfg) = true ->
  in_datetime_range ((exp + utcoffset) * 1000000) = true ->
  (timegm now <= exp ->
   get_current_user cfg utcoffset now tok
   = Ret (inr (mkTokenData (Some u) (Some ((exp + utcoffset) * 1000000)))))
  /\ (exp < timegm now -> get_current_user cfg utcoffset now tok = Ret (inl 401))
  /\ (get_current_user cfg utcoffset now tok = Ret (inl 401) ->
      now <= later ->
      get_current_user cfg utcoffset later tok = Ret (inl 401)).
Proof.
  intros tok Halg Hrange. subst tok. unfold get_current_user.
  rewrite !verify_issued_token by assumption.
  split; [|split].
  - intros Hle. replace (exp <? timegm now) with false by lia. reflexivity.
  - intros Hlt. replace (exp <? timegm now) with true by lia. reflexivity.
  - destruct (Z.ltb_spec exp (timegm now)) as [Hlt|Hge]; [|discriminate].
    intros _ Hlater.
    assert (timegm now <= timegm later) by (unfold timegm; apply Z.div_le_mono; lia).
    replace (exp <? timegm later) with true by lia. reflexivity.
Qed.

(** X22. A time to live of [timedelta(0)] does not give a token that is
    already expired: it is falsy, so the token gets the configured default
    and verifies until then. *)
Theorem zero_ttl_means_default (cfg : settings) (utcoffset : Z) (u : string)
  (issued now : datetime) :
  let delta := timedelta_hours (ACCESS_TOKEN_EXPIRE_HOURS cfg) in
  let exp := timegm (issued + delta) in
  Jose.hmac_algorithm (ALGORITHM cfg) = true ->
  in_datetime_range (issued + delta) = true ->
  in_datetime_range ((exp + utcoffset) * 1000000) = true ->
  now < issued + delta ->
  exists tok,
    create_access_token cfg issued {["sub" := VStr u]} (Some 0) = Ret tok
    /\ verify_token cfg utcoffset now tok
       = Ret (Some (mkTokenData (Some u) (Some ((exp + utcoffset) * 1000000)))).
Proof.
  intros delta exp Halg Hrange Hlocal Hnow.
  pose proof (create_access_token_issues cfg issued u (Some 0) Halg) as Hissue.
  cbn [truthy_timedelta Z.eqb negb] in Hissue. fold delta in Hissue.
  eexists. split; [exact (Hissue Hrange)|].
  rewrite verify_issued_token by assumption. fold exp.
  replace (exp <? timegm now) with false; [reflexivity|].
  symmetry. apply Z.ltb_ge. subst exp. unfold timegm. apply Z.div_le_mono; lia.
Qed.

(** X23. A [TokenData] that [verify_token] returns always has both a user
    name and an expiry, the expiry within [datetime]'s range; so
    [protected_route] never answers a null "user" or "token_expires": its
    [else None] branch is dead. *)
Theorem token_data_is_complete (cfg : settings) (utcoffset : Z) (now : datetime)
  (token : Jose.token) (td : TokenData) :
  verify_token cfg utcoffset now token = Ret (Some td) ->
  exists u exp,
    td = mkTokenData (Some u) (Some exp)
    /\ in_datetime_range exp = true
    /\ Testing.protected_route td
       = [("message", VStr "This is a protected route");
          ("user", VStr u);
          ("token_expires", VStr (isoformat exp))].
Proof.
  unfold verify_token.
  destruct (Jose.decode token _ _ _) as [payload|[]]; try discriminate.
  assert (Hts : forall d, fromtimestamp utcoffset (dict_get payload "exp") = Ret d ->
                           in_datetime_range d = true).
  { intros d. unfold fromtimestamp.
    destruct (dict_get payload "exp") as [|b|n|s|d']; try discriminate;
      match goal with
      | |- context [in_datetime_range ?x] => destruct (in_datetime_range x) eqn:Hr
      end; [intros [= <-]; exact Hr | | intros [= <-]; exact Hr |];
      repeat match goal with
             | |- context [if ?c then _ else _] => destruct c
             end; discriminate. }
  destruct (fromtimestamp utcoffset (dict_get payload "exp")) as [d|e] eqn:Hd;
    [|discriminate]. cbn [mbind result_bind].
  pose proof (Hts d eq_refl) as Hr.
  destruct (dict_get payload "sub") as [|b|n|s|d']; cbn [make_TokenData mbind result_bind];
    try discriminate.
  intros [= <-]. exists s, d. repeat split; assumption.
Qed.

Lemma caller_cannot_choose_expiry_witness :
  create_access_token default_settings 1700000000250000
    (<["exp" := VInt 4102444800]> {["sub" := VStr "abc"]}) None
  = create_access_token default_settings 1700000000250000 {["sub" := VStr "abc"]} None
  /\ exists claims,
       Jose.Compact "HS256" (Some (SECRET_KEY default_settings))
         (Jose.PayloadObject (issued_claims "abc" 1700028800))
       = Jose.Compact "HS256" (Some (SECRET_KEY default_settings)) (Jose.PayloadObject claims)
       /\ claims !! "exp" = Some (VInt 1700028800).
Proof.
  pose proof (caller_cannot_choose_expiry default_settings 1700000000250000
                {["sub" := VStr "abc"]} None (VInt 4102444800)
                (Jose.Compact "HS256" (Some (SECRET_KEY default_settings))
                   (Jose.PayloadObject (issued_claims "abc" 1700028800))))
    as [Hsame Hexp].
  split; [exact Hsame|].
  apply Hexp. vm_compute. reflexivity.
Defined.

Lemma token_of_another_secret_is_refused_witness :
  let tok := Jose.Compact "HS256" (Some "another secret")
               (Jose.PayloadObject (issued_claims "abc" 1700028800)) in
  verify_token default_settings 25200 1700000001250000 tok = Ret None
  /\ get_current_user default_settings 25200 1700000001250000 tok = Ret (inl 401).
Proof.
  cbv zeta.
  apply (token_of_another_secret_is_refused
           {| SECRET_KEY := "another secret"; ALGORITHM := "HS256";
              ACCESS_TOKEN_EXPIRE_HOURS := 8 |} default_settings 25200
           1700000000250000 1700000001250000 {["sub" := VStr "abc"]} None).
  - vm_compute. reflexivity.
  - discriminate.
Defined.

Lemma issued_token_lifetime_witness :
  let tok := Jose.Compact "HS256" (Some (SECRET_KEY default_settings))
               (Jose.PayloadObject (issued_claims "abc" 1700028800)) in
  get_current_user default_settings 25200 (1700028800 * 1000000 + 999999) tok
  = Ret (inr (mkTokenData (Some "abc") (Some ((1700028800 + 25200) * 1000000))))
  /\ get_current_user default_settings 25200 (1700028801 * 1000000) tok = Ret (inl 401).
Proof.
  cbv zeta. split.
  - apply (proj1 (issued_token_lifetime default_settings 25200 "abc" 1700028800
                    (1700028800 * 1000000 + 999999) (1700028800 * 1000000 + 999999)
                    eq_refl eq_refl)).
    vm_compute. discriminate.
  - apply (proj1 (proj2 (issued_token_lifetime default_settings 25200 "abc" 1700028800
                           (1700028801 * 1000000) (1700028801 * 1000000)
                           eq_refl eq_refl))).
    reflexivity.
Defined.

Lemma zero_ttl_means_default_witness :
  exists tok,
    create_access_token default_settings 1700000000250000 {["sub" := VStr "abc"]} (Some 0)
    = Ret tok
    /\ verify_token default_settings 25200 1700000001250000 tok
       = Ret (Some (mkTokenData (Some "abc") (Some ((1700028800 + 25200) * 1000000)))).
Proof.
  apply (zero_ttl_means_default default_settings 25200 "abc"
           1700000000250000 1700000001250000); reflexivity.
Defined.

Lemma token_data_is_complete_witness :
  exists u exp,
    mkTokenData (Some "abc") (Some ((1700028800 + 25200) * 1000000))
    = mkTokenData (Some u) (Some exp)
    /\ in_datetime_range exp = true
    /\ Testing.protected_route
         (mkTokenData (Some "abc") (Some ((1700028800 + 25200) * 1000000)))
       = [("message", VStr "This is a protected route");
          ("user", VStr u);
          ("token_expires", VStr (isoformat exp))].
Proof.
  apply (token_data_is_complete default_settings 25200 1700000001250000
           (Jose.Compact "HS256" (Some (SECRET_KEY default_settings))
              (Jose.PayloadObject (issued_claims "abc" 1700028800)))).
  vm_compute. reflexivity.
Defined.

(** ** [int] on texts *)

Lemma byte_range (c : ascii) : 0 <= byte c < 256.
Proof.
  unfold byte. pose proof (nat_ascii_bounded c). lia.
Qed.

Lemma ascii_of_code_byte (c : ascii) : ascii_of_code (byte c) = c.
Proof.
  unfold ascii_of_code, byte. rewrite Nat2Z.id. apply ascii_nat_embedding.
Qed.

(** ASCII bytes are their own code points. *)
Lemma utf8_decode_ascii (l : list ascii) :
  Forall (fun c => byte c < 128) l -> utf8_decode l = Some (map byte l).
Proof.
  induction 1 as [|c l Hc _ IH]; [reflexivity|].
  cbn [utf8_decode map]. cbv zeta.
  replace (byte c <? 128) with true by lia. rewrite IH. reflexivity.
Qed.

Lemma int_buffer_ascii (l : list ascii) :
  Forall (fun c => byte c < 128) l -> int_buffer (map byte l) = l.
Proof.
  intros Hl. unfold int_buffer.
  replace (forallb (fun cp => cp <? 128) (map byte l)) with true.
  - rewrite map_map. rewrite <- (map_id l) at 2. apply map_ext. apply ascii_of_code_byte.
  - symmetry. apply forallb_forall. intros cp Hcp. apply in_map_iff in Hcp as (c & <- & Hc).
    apply list_elem_of_In in Hc. pose proof (proj1 (Forall_forall _ _) Hl c Hc). cbn in *. lia.
Qed.

Lemma digit_is_ascii (c : ascii) : is_digit c = true -> byte c < 128.
Proof. unfold is_digit, byte. cbv zeta. lia. Qed.

Lemma digit_groups_digits (c : ascii) (l : list ascii) :
  is_digit c = true -> Forall (fun c => is_digit c = true) l ->
  digit_groups (c :: l) (fold_left (fun acc c => acc * 10 + digit_value c) l (digit_value c)).
Proof.
  intros Hc Hl. induction l as [|d l IH] using rev_ind.
  - constructor. exact Hc.
  - apply Forall_app in Hl as [Hl Hd]. inversion Hd as [|? ? Hd' _]; subst.
    rewrite fold_left_app. cbn [fold_left].
    change (c :: l ++ [d])%list with ((c :: l) ++ [d])%list.
    apply next_digit; [apply IH, Hl | exact Hd'].
Qed.

Lemma fold_digits_nonneg (s : list ascii) (acc : Z) :
  Forall (fun c => is_digit c = true) s -> 0 <= acc ->
  0 <= fold_left (fun acc c => acc * 10 + digit_value c) s acc.
Proof.
  intros Hs. revert acc. induction Hs as [|c s Hc Hs IH]; intros acc Hacc; [exact Hacc|].
  cbn [fold_left]. apply IH. unfold is_digit, digit_value in *. cbv zeta in Hc. lia.
Qed.

Lemma count_digits_all (s : list ascii) :
  Forall (fun c => is_digit c = true) s -> count_digits s = Z.of_nat (length s).
Proof.
  intros Hs. unfold count_digits. f_equal. f_equal.
  induction Hs as [|c s Hc Hs IH]; [reflexivity|].
  rewrite filter_cons_True by (rewrite Hc; exact I). rewrite IH. reflexivity.
Qed.

(** A text of ASCII decimal digits is read as the number it denotes. *)
Lemma int_of_str_digits (s : string) :
  s <> "" ->
  Forall (fun c => is_digit c = true) (list_ascii_of_string s) ->
  Z.of_nat (String.length s) <= int_max_str_digits ->
  int_of_str s = Some (decimal_value (list_ascii_of_string s))
  /\ 0 <= decimal_value (list_ascii_of_string s).
Proof.
  intros Hne Hs Hlen.
  assert (Hl : length (list_ascii_of_string s) = String.length s).
  { clear. induction s; cbn; congruence. }
  split; [|apply fold_digits_nonneg; [exact Hs | lia]].
  apply int_of_str_reads. unfold reads_as_integer, code_points.
  assert (Hascii : Forall (fun c => byte c < 128) (list_ascii_of_string s)).
  { eapply Forall_impl; [exact Hs|]. apply digit_is_ascii. }
  exists (map byte (list_ascii_of_string s)). split; [apply utf8_decode_ascii, Hascii|].
  rewrite (int_buffer_ascii _ Hascii).
  exists [], (list_ascii_of_string s), []. rewrite app_nil_r. cbn [app].
  split; [reflexivity|]. split; [constructor|]. split; [constructor|]. split.
  - unfold decimal_value. clear Hascii Hl Hlen. revert Hs.
    destruct (list_ascii_of_string s) as [|c l] eqn:Hlist; intros Hs.
    + destruct s; [congruence | discriminate].
    + inversion Hs as [|? ? Hc Hl']; subst. apply unsigned.
      cbn [fold_left]. apply digit_groups_digits; assumption.
  - rewrite (count_digits_all _ Hs), Hl. exact Hlen.
Qed.

(** Every character of an integer text is one [int] has a use for. *)
Lemma digit_groups_chars (s : list ascii) (n : Z) :
  digit_groups s n -> Forall (fun c => int_char c = true) s.
Proof.
  assert (Hd : forall c, is_digit c = true -> int_char c = true).
  { intros c Hc. unfold int_char. rewrite Hc. reflexivity. }
  induction 1 as [c Hc|s n c _ IH Hc|s n c _ IH Hc].
  - repeat constructor. auto.
  - apply Forall_app. split; [exact IH | repeat constructor; auto].
  - apply Forall_app. split; [exact IH | repeat constructor; auto].
Qed.

Lemma integer_text_chars (buffer : list ascii) (n : Z) :
  integer_text buffer n -> Forall (fun c => int_char c = true) buffer.
Proof.
  assert (Hs : forall l, Forall (fun c => is_space c = true) l ->
                         Forall (fun c => int_char c = true) l).
  { intros l Hl. eapply Forall_impl; [exact Hl|]. intros c Hc. cbn in Hc.
    unfold int_char. rewrite Hc. destruct (is_digit c); reflexivity. }
  intros (before & body & after & -> & Hb & Ha & Hlit & _).
  apply Forall_app. split; [apply Hs, Hb|]. apply Forall_app. split; [|apply Hs, Ha].
  inversion Hlit as [? ? Hg|? ? Hg|? ? Hg]; subst;
    [|constructor; [reflexivity|] | constructor; [reflexivity|]];
    eapply digit_groups_chars; exact Hg.
Qed.

(** An ASCII byte of a text is one of its code points. *)
Lemma utf8_decode_ascii_member (l : list ascii) (cps : list Z) (c : ascii) :
  utf8_decode l = Some cps -> c ∈ l -> byte c < 128 -> byte c ∈ cps.
Proof.
  remember (length l) as k eqn:Hk. revert l cps Hk.
  induction k as [k IH] using lt_wf_ind. intros l cps -> Hdec Hin Hc.
  destruct l as [|b r]; [inversion Hin|].
  cbn [utf8_decode] in Hdec. cbv zeta in Hdec.
  assert (Hcont : forall x, continuation x = true -> c <> x).
  { intros x Hx ->. unfold continuation in Hx. lia. }
  destruct (byte b <? 128) eqn:Hb.
  - destruct (utf8_decode r) as [cps'|] eqn:Hr; [|discriminate]. injection Hdec as <-.
    apply elem_of_cons in Hin as [->|Hin]; [left|right].
    eapply (IH (length r)); [cbn; lia | reflexivity | exact Hr | exact Hin | exact Hc].
  - assert (Hcb : c <> b) by (intros ->; lia).
    apply elem_of_cons in Hin as [?|Hin]; [contradiction|].
    destruct ((194 <=? byte b) && (byte b <? 224)).
    { destruct r as [|c1 r1]; [discriminate|].
      destruct (continuation c1) eqn:H1; [|discriminate].
      destruct (utf8_decode r1) as [cps'|] eqn:Hr; [|discriminate]. injection Hdec as <-.
      apply elem_of_cons in Hin as [->|Hin]; [destruct (Hcont c1 H1 eq_refl)|].
      right. eapply (IH (length r1)); [cbn; lia | reflexivity | exact Hr | exact Hin | exact Hc]. }
    destruct ((224 <=? byte b) && (byte b <? 240)).
    { destruct r as [|c1 [|c2 r2]]; try discriminate.
      destruct (continuation c1) eqn:H1; [|discriminate].
      destruct (continuation c2) eqn:H2; [|discriminate].
      cbn [andb] in Hdec.
      destruct (_ && _) in Hdec; [|discriminate].
      destruct (utf8_decode r2) as [cps'|] eqn:Hr; [|discriminate]. injection Hdec as <-.
      apply elem_of_cons in Hin as [->|Hin]; [destruct (Hcont c1 H1 eq_refl)|].
      apply elem_of_cons in Hin as [->|Hin]; [destruct (Hcont c2 H2 eq_refl)|].
      right. eapply (IH (length r2)); [cbn; lia | reflexivity | exact Hr | exact Hin | exact Hc]. }
    destruct ((240 <=? byte b) && (byte b <? 245)); [|discriminate].
    destruct r as [|c1 [|c2 [|c3 r3]]]; try discriminate.
    destruct (continuation c1) eqn:H1; [|discriminate].
    destruct (continuation c2) eqn:H2; [|discriminate].
    destruct (continuation c3) eqn:H3; [|discriminate].
    cbn [andb] in Hdec.
    destruct (_ && _) in Hdec; [|discriminate].
    destruct (utf8_decode r3) as [cps'|] eqn:Hr; [|discriminate]. injection Hdec as <-.
    apply elem_of_cons in Hin as [->|Hin]; [destruct (Hcont c1 H1 eq_refl)|].
    apply elem_of_cons in Hin as [->|Hin]; [destruct (Hcont c2 H2 eq_refl)|].
    apply elem_of_cons in Hin as [->|Hin]; [destruct (Hcont c3 H3 eq_refl)|].
    right. eapply (IH (length r3)); [cbn; lia | reflexivity | exact Hr | exact Hin | exact Hc].
Qed.

(** An ASCII character [int] has no use for leaves one in the buffer: itself,
    or the [?] that ends the rewriting. *)
Lemma int_buffer_foreign (cps : list Z) (c : ascii) :
  byte c ∈ cps -> byte c < 128 -> int_char c = false ->
  exists x, x ∈ int_buffer cps /\ int_char x = false.
Proof.
  intros Hin Hc Hforeign. unfold int_buffer.
  destruct (forallb _ cps).
  - exists c. split; [|exact Hforeign].
    rewrite <- (ascii_of_code_byte c). apply list_elem_of_fmap_2. exact Hin.
  - induction cps as [|cp r IH]; [inversion Hin|].
    cbn [transform_decimal_and_space].
    destruct (cp <? 127) eqn:Hlow.
    + apply elem_of_cons in Hin as [<-|Hin].
      * exists c. split; [|exact Hforeign]. rewrite ascii_of_code_byte. left.
      * destruct (IH Hin) as (x & Hx & Hfx). exists x. split; [right; exact Hx | exact Hfx].
    + assert (Hhigh : byte c ∈ r \/ cp = 127).
      { apply elem_of_cons in Hin as [<-|Hin]; [right; lia | left; exact Hin]. }
      destruct (unicode_isspace cp) eqn:Hsp.
      * destruct Hhigh as [Hin'| ->]; [|discriminate].
        destruct (IH Hin') as (x & Hx & Hfx). exists x. split; [right; exact Hx | exact Hfx].
      * destruct (unicode_todecimal cp) as [d|] eqn:Hd.
        -- destruct Hhigh as [Hin'| ->]; [|discriminate].
           destruct (IH Hin') as (x & Hx & Hfx). exists x. split; [right; exact Hx | exact Hfx].
        -- exists "?"%char. split; [left | reflexivity].
Qed.

(** A text holding an ASCII character [int] has no use for is not a number. *)
Lemma int_of_str_foreign_character (s : string) (c : ascii) :
  c ∈ list_ascii_of_string s -> byte c < 128 -> int_char c = false -> int_of_str s = None.
Proof.
  intros Hin Hc Hforeign.
  destruct (int_of_str s) as [n|] eqn:Hint; [|reflexivity]. exfalso.
  apply int_of_str_reads in Hint as (cps & Hcps & Htext).
  pose proof (utf8_decode_ascii_member _ _ c Hcps Hin Hc) as Hcp.
  destruct (int_buffer_foreign cps c Hcp Hc Hforeign) as (x & Hx & Hfx).
  pose proof (proj1 (Forall_forall _ _) (integer_text_chars _ _ Htext) x Hx) as Hgood.
  cbn in Hgood. congruence.
Qed.

Section lookup_paths.
Context {driver : Driver} {schemas : Schemas}.

(** X24. Which statement the cargo-type lookup sends: an id made of ASCII
    decimal digits only (at most 4300) is looked up by numeric group id,
    with the number it denotes, never negative; an id holding an ASCII
    character that is no digit, blank of [int] (9..13, 32), sign or
    underscore is looked up by group code with the id as text; so is the
    empty id. *)
Theorem cargo_type_lookup_paths (cargo_type_id : string) (companyId : option string) :
  (cargo_type_id <> "" ->
   Forall (fun c => is_digit c = true) (list_ascii_of_string cargo_type_id) ->
   Z.of_nat (String.length cargo_type_id) <= int_max_str_digits ->
   0 <= decimal_value (list_ascii_of_string cargo_type_id)
   /\ executed (get_cargo_type_by_id cargo_type_id companyId)
      = [(Sql.get_cargo_type_by_group_id_query,
          [VInt (decimal_value (list_ascii_of_string cargo_type_id))])])
  /\ (forall c : ascii,
        c ∈ list_ascii_of_string cargo_type_id ->
        (nat_of_ascii c < 128)%nat -> int_char c = false ->
        executed (get_cargo_type_by_id cargo_type_id companyId)
        = [(Sql.get_cargo_type_by_group_code_query, [VStr cargo_type_id])])
  /\ (cargo_type_id = "" ->
      executed (get_cargo_type_by_id cargo_type_id companyId)
      = [(Sql.get_cargo_type_by_group_code_query, [VStr ""])]).
Proof.
  split; [|split].
  - intros Hne Hd Hlen. destruct (int_of_str_digits _ Hne Hd Hlen) as [Hint Hpos].
    split; [exact Hpos|]. unfold get_cargo_type_by_id. rewrite Hint. reflexivity.
  - intros c Hin Hascii Hc. unfold get_cargo_type_by_id.
    rewrite (int_of_str_foreign_character _ c Hin); [reflexivity | | exact Hc].
    unfold byte. lia.
  - intros ->. reflexivity.
Qed.

End lookup_paths.

Lemma cargo_type_lookup_paths_witness :
  executed (get_cargo_type_by_id (driver := sample_driver [] []) (schemas := plain_schemas)
              "0042" None)
  = [(Sql.get_cargo_type_by_group_id_query, [VInt 42])]
  /\ executed (get_cargo_type_by_id (driver := sample_driver [] [])
                 (schemas := plain_schemas) "12a" None)
     = [(Sql.get_cargo_type_by_group_code_query, [VStr "12a"])]
  /\ executed (get_cargo_type_by_id (driver := sample_driver [] [])
                 (schemas := plain_schemas) (String "028" "12") None)
     = [(Sql.get_cargo_type_by_group_code_query, [VStr (String "028" "12")])].
Proof.
  pose proof (cargo_type_lookup_paths (driver := sample_driver [] [])
                (schemas := plain_schemas) "0042" None) as (Hdigits & _ & _).
  pose proof (cargo_type_lookup_paths (driver := sample_driver [] [])
                (schemas := plain_schemas) "12a" None) as (_ & Hforeign & _).
  pose proof (cargo_type_lookup_paths (driver := sample_driver [] [])
                (schemas := plain_schemas) (String "028" "12") None) as (_ & Hblank & _).
  split; [|split].
  - apply Hdigits.
    + discriminate.
    + repeat constructor.
    + vm_compute. discriminate.
  - apply (Hforeign "a"%char).
    + repeat constructor.
    + vm_compute. lia.
    + reflexivity.
  - apply (Hblank "028"%char).
    + repeat constructor.
    + vm_compute. lia.
    + reflexivity.
Defined.
